(** * Widget tools of the AI chat backend (pkg/aiusechat/tools_widget.go)

    A shallow embedding of the four tool definitions [widget_open],
    [widget_close], [widget_rename] and [widget_move]: the input parsers
    (JSON payload to typed struct, then validation) and the tool callbacks,
    which drive the collaborating packages [wcore], [wstore],
    [blockcontroller] and [wps].

    The callbacks are written as programs over the collaborator calls they
    make, in the order the Go statements make them; an interpreter runs such
    a program against any implementation of the collaborators and records the
    calls, the way a recording test double would. *)

From stdpp Require Import base option list strings pretty gmap fin_maps.

Set Warnings "-register-all".

(** ** Go values *)

(** A Go [error]: either built by [fmt.Errorf] from a message, or by
    [fmt.Errorf] with a trailing [": %w"] that wraps a cause, or the
    [*json.UnmarshalTypeError] of [encoding/json]. *)
Inductive error : Type :=
| Errorf (msg : string)
| Wrapf (msg : string) (cause : error)
| UnmarshalTypeError (Value : string) (Field : string).

(** A Go [(T, error)] return with the convention of this file: the value is
    meaningful only when the error is nil. *)
Inductive result (T : Type) : Type :=
| OK (v : T)
| Err (err : error).
Arguments OK {T} v.
Arguments Err {T} err.

(** The tool input is a Go [any] holding a decoded JSON document.  [JNull] is
    the nil interface.  The members of an object are listed in the order
    [json.Marshal] writes them. *)
Inductive JSON : Type :=
| JNull
| JBool (b : bool)
| JNumber (literal : string)
| JString (s : string)
| JArray (elems : list JSON)
| JObject (members : list (string * JSON)).

(** The name [encoding/json] gives to the kind of a JSON value in an
    [UnmarshalTypeError]. *)
Definition jsonKind (j : JSON) : string :=
  match j with
  | JNull => "null"
  | JBool _ => "bool"
  | JNumber _ => "number"
  | JString _ => "string"
  | JArray _ => "array"
  | JObject _ => "object"
  end.

(** [m[k]] on a Go [map[string]bool]: the zero value [false] when absent. *)
Definition goIndex (m : gmap string bool) (k : string) : bool :=
  default false (m !! k).

(** ** [json.Unmarshal] into a struct of string fields *)

(** A struct field with its [json:"..."] name and the assignment to it. *)
Record Field (T : Type) : Type := mkField {
  jsonName : string;
  assign : string -> T -> T
}.
Arguments mkField {T} jsonName assign.
Arguments jsonName {T} f.
Arguments assign {T} f v r.

Section Unmarshal.
(** The case-insensitive comparison of a field name with an object key that
    [encoding/json] falls back to when no field matches the key exactly.  It
    belongs to the Go library and is left open here. *)
Variable equalFold : string -> string -> bool.

Context {T : Type}.
Variable fields : list (Field T).

(** The field an object key is decoded into: an exact match is preferred,
    then the first field that matches ignoring case; no field means the
    member is skipped. *)
Definition findField (key : string) : option (Field T) :=
  match List.find (fun f => String.eqb (jsonName f) key) fields with
  | Some f => Some f
  | None => List.find (fun f => equalFold (jsonName f) key) fields
  end.

(** The decoder keeps the first type error and goes on. *)
Definition saveError (saved : option error) (err : error) : option error :=
  match saved with
  | Some e => Some e
  | None => Some err
  end.

(** Decoding the members of an object, in order: a string is assigned, a
    [null] leaves the field as it is, any other value is a type error, and a
    key that matches no field is dropped with its value. *)
Fixpoint decodeMembers (members : list (string * JSON)) (v : T)
    (saved : option error) : T * option error :=
  match members with
  | [] => (v, saved)
  | (key, val) :: rest =>
      match findField key with
      | None => decodeMembers rest v saved
      | Some f =>
          match val with
          | JNull => decodeMembers rest v saved
          | JString s => decodeMembers rest (assign f s v) saved
          | _ =>
              decodeMembers rest v
                (saveError saved (UnmarshalTypeError (jsonKind val) (jsonName f)))
          end
      end
  end.

(** [json.Unmarshal(inputBytes, result)] where [inputBytes] is the
    marshalled [data] and [result] points to [v]. *)
Definition Unmarshal (data : JSON) (v : T) : result T :=
  match data with
  | JNull => OK v
  | JObject members =>
      match decodeMembers members v None with
      | (v', None) => OK v'
      | (_, Some err) => Err err
      end
  | _ => Err (UnmarshalTypeError (jsonKind data) "")
  end.
End Unmarshal.

(** ** The input structs *)

Module WidgetOpenToolInput.
Record t : Type := mk {
  WidgetType : string;
  Url : string;
  File : string;
  Connection : string;
  SplitDirection : string;
  TargetWidget : string;
  Position : string
}.

Definition zero : t := mk "" "" "" "" "" "" "".

Definition fields : list (Field t) := [
  mkField "widget_type" (fun s r => mk s (Url r) (File r) (Connection r) (SplitDirection r) (TargetWidget r) (Position r));
  mkField "url" (fun s r => mk (WidgetType r) s (File r) (Connection r) (SplitDirection r) (TargetWidget r) (Position r));
  mkField "file" (fun s r => mk (WidgetType r) (Url r) s (Connection r) (SplitDirection r) (TargetWidget r) (Position r));
  mkField "connection" (fun s r => mk (WidgetType r) (Url r) (File r) s (SplitDirection r) (TargetWidget r) (Position r));
  mkField "split_direction" (fun s r => mk (WidgetType r) (Url r) (File r) (Connection r) s (TargetWidget r) (Position r));
  mkField "target_widget" (fun s r => mk (WidgetType r) (Url r) (File r) (Connection r) (SplitDirection r) s (Position r));
  mkField "position" (fun s r => mk (WidgetType r) (Url r) (File r) (Connection r) (SplitDirection r) (TargetWidget r) s)
].
End WidgetOpenToolInput.

Module WidgetCloseToolInput.
Record t : Type := mk {
  WidgetId : string
}.

Definition zero : t := mk "".

Definition fields : list (Field t) := [
  mkField "widget_id" (fun s _ => mk s)
].
End WidgetCloseToolInput.

Module WidgetRenameToolInput.
Record t : Type := mk {
  WidgetId : string;
  Name : string
}.

Definition zero : t := mk "" "".

Definition fields : list (Field t) := [
  mkField "widget_id" (fun s r => mk s (Name r));
  mkField "name" (fun s r => mk (WidgetId r) s)
].
End WidgetRenameToolInput.

Module WidgetMoveToolInput.
Record t : Type := mk {
  WidgetId : string;
  TargetWidgetId : string;
  Direction : string;
  Position : string
}.

Definition zero : t := mk "" "" "" "".

Definition fields : list (Field t) := [
  mkField "widget_id" (fun s r => mk s (TargetWidgetId r) (Direction r) (Position r));
  mkField "target_widget_id" (fun s r => mk (WidgetId r) s (Direction r) (Position r));
  mkField "direction" (fun s r => mk (WidgetId r) (TargetWidgetId r) s (Position r));
  mkField "position" (fun s r => mk (WidgetId r) (TargetWidgetId r) (Direction r) s)
].
End WidgetMoveToolInput.

(** ** The parsers *)

Definition validTypes : gmap string bool :=
  {[ "term" := true; "web" := true; "preview" := true; "cpuplot" := true ]}.

Definition validDirections : gmap string bool :=
  {[ "horizontal" := true; "vertical" := true ]}.

Definition validPositions : gmap string bool :=
  {[ "before" := true; "after" := true ]}.

(** The checks of [parseWidgetOpenInput] on the decoded struct, in the order
    of the source. *)
Definition checkWidgetOpenInput (decoded : WidgetOpenToolInput.t)
    : result WidgetOpenToolInput.t :=
  let wt := WidgetOpenToolInput.WidgetType decoded in
  let sd := WidgetOpenToolInput.SplitDirection decoded in
  let pos := WidgetOpenToolInput.Position decoded in
  if String.eqb wt "" then Err (Errorf "widget_type is required")
  else if negb (goIndex validTypes wt) then
    Err (Errorf ("invalid widget_type: " +:+ wt
                 +:+ ". Valid types are: term, web, preview, cpuplot"))
  else if String.eqb wt "web" && String.eqb (WidgetOpenToolInput.Url decoded) "" then
    Err (Errorf "url is required for web widget")
  else if negb (String.eqb sd "") && negb (goIndex validDirections sd) then
    Err (Errorf ("invalid split_direction: " +:+ sd
                 +:+ ". Valid values are: horizontal, vertical"))
  else if negb (String.eqb sd "")
          && String.eqb (WidgetOpenToolInput.TargetWidget decoded) "" then
    Err (Errorf "target_widget is required when split_direction is specified")
  else if negb (String.eqb pos "") && negb (goIndex validPositions pos) then
    Err (Errorf ("invalid position: " +:+ pos
                 +:+ ". Valid values are: before, after"))
  else OK decoded.

(** The checks of [parseWidgetCloseInput]. *)
Definition checkWidgetCloseInput (decoded : WidgetCloseToolInput.t)
    : result WidgetCloseToolInput.t :=
  if String.eqb (WidgetCloseToolInput.WidgetId decoded) "" then
    Err (Errorf "widget_id is required")
  else OK decoded.

(** The checks of [parseWidgetRenameInput]. *)
Definition checkWidgetRenameInput (decoded : WidgetRenameToolInput.t)
    : result WidgetRenameToolInput.t :=
  if String.eqb (WidgetRenameToolInput.WidgetId decoded) "" then
    Err (Errorf "widget_id is required")
  else if String.eqb (WidgetRenameToolInput.Name decoded) "" then
    Err (Errorf "name is required")
  else OK decoded.

(** The checks of [parseWidgetMoveInput]. *)
Definition checkWidgetMoveInput (decoded : WidgetMoveToolInput.t)
    : result WidgetMoveToolInput.t :=
  let dir := WidgetMoveToolInput.Direction decoded in
  let pos := WidgetMoveToolInput.Position decoded in
  if String.eqb (WidgetMoveToolInput.WidgetId decoded) "" then
    Err (Errorf "widget_id is required")
  else if String.eqb (WidgetMoveToolInput.TargetWidgetId decoded) "" then
    Err (Errorf "target_widget_id is required")
  else if String.eqb dir "" then Err (Errorf "direction is required")
  else if negb (goIndex validDirections dir) then
    Err (Errorf ("invalid direction: " +:+ dir
                 +:+ ". Valid values are: horizontal, vertical"))
  else if negb (String.eqb pos "") && negb (goIndex validPositions pos) then
    Err (Errorf ("invalid position: " +:+ pos
                 +:+ ". Valid values are: before, after"))
  else OK decoded.

Section Parsers.
Variable equalFold : string -> string -> bool.

(** The common head of the four parsers: the nil check, the marshal and
    unmarshal round trip into a fresh struct, then the checks. *)
Definition parseWith {T : Type} (fields : list (Field T)) (zero : T)
    (check : T -> result T) (input : JSON) : result T :=
  match input with
  | JNull => Err (Errorf "input is required")
  | _ =>
      match Unmarshal equalFold fields input zero with
      | Err err => Err (Wrapf "failed to unmarshal input" err)
      | OK decoded => check decoded
      end
  end.

Definition parseWidgetCloseInput : JSON -> result WidgetCloseToolInput.t :=
  parseWith WidgetCloseToolInput.fields WidgetCloseToolInput.zero
    checkWidgetCloseInput.

Definition parseWidgetRenameInput : JSON -> result WidgetRenameToolInput.t :=
  parseWith WidgetRenameToolInput.fields WidgetRenameToolInput.zero
    checkWidgetRenameInput.

Definition parseWidgetMoveInput : JSON -> result WidgetMoveToolInput.t :=
  parseWith WidgetMoveToolInput.fields WidgetMoveToolInput.zero
    checkWidgetMoveInput.

(** [json.Marshal] cannot fail on a decoded JSON document, so the marshal
    step only fixes the member order of [input]. *)
Definition parseWidgetOpenInput : JSON -> result WidgetOpenToolInput.t :=
  parseWith WidgetOpenToolInput.fields WidgetOpenToolInput.zero
    checkWidgetOpenInput.
End Parsers.

(** ** The schemas *)

(** The part of a tool's [InputSchema] that names its fields: the keys of
    ["properties"], the ["required"] list and ["additionalProperties"]. *)
Record InputSchema : Type := mkSchema {
  properties : list string;
  required : list string;
  additionalProperties : bool
}.

Definition widgetOpenSchema : InputSchema :=
  mkSchema ["widget_type"; "url"; "file"; "connection"; "split_direction";
            "target_widget"; "position"]
           ["widget_type"] false.

Definition widgetCloseSchema : InputSchema :=
  mkSchema ["widget_id"] ["widget_id"] false.

Definition widgetRenameSchema : InputSchema :=
  mkSchema ["widget_id"; "name"] ["widget_id"; "name"] false.

Definition widgetMoveSchema : InputSchema :=
  mkSchema ["widget_id"; "target_widget_id"; "direction"; "position"]
           ["widget_id"; "target_widget_id"; "direction"] false.

(** Whether an object key is decoded into one of the declared fields: it
    equals a declared name or matches one ignoring case. *)
Definition knownKey (equalFold : string -> string -> bool)
    (schema : InputSchema) (key : string) : bool :=
  existsb (fun name => String.eqb name key || equalFold name key)
          (properties schema).

(** ** The collaborators *)

(** [waveobj.MetaMapType]; every value these tools store is a string. *)
Abbreviation MetaMapType := (gmap string string).

Record BlockDef : Type := mkBlockDef {
  Meta : MetaMapType
}.

(** [waveobj.Block], as far as the tools read it. *)
Record Block : Type := mkBlock {
  OID : string
}.

Record ORef : Type := mkORef {
  OType : string;
  ORefOID : string
}.

Definition OType_Block : string := "block".

Definition MakeORef (otype oid : string) : ORef := mkORef otype oid.

(** The [wcore.LayoutActionDataType_*] constants. *)
Inductive LayoutActionDataType : Type :=
| LayoutActionDataType_Insert
| LayoutActionDataType_Remove
| LayoutActionDataType_MoveHorizontal
| LayoutActionDataType_MoveVertical
| LayoutActionDataType_SplitHorizontal
| LayoutActionDataType_SplitVertical.

(** [waveobj.LayoutActionData]; a field a struct literal leaves out has its
    zero value. *)
Record LayoutActionData : Type := mkLayoutAction {
  ActionType : LayoutActionDataType;
  BlockId : string;
  TargetBlockId : string;
  ActionPosition : string;
  Focused : bool
}.

Record WaveObjUpdate : Type := mkUpdate {
  UpdateType : string;
  UpdateORef : ORef
}.

(** The calls a callback makes into the collaborating packages, indexed by
    what they return: [result unit] stands for a lone [error].

    - [ContextWithUpdates]: [waveobj.ContextWithUpdates(ctx)], which opens the
      update collection of this execution;
    - [CreateBlock]: [wcore.CreateBlock(ctx, tabId, blockDef, nil)];
    - [ResolveBlockIdFromPrefix]: [wcore.ResolveBlockIdFromPrefix(ctx, tabId, prefix)];
    - [QueueLayoutActionForTab]: [wcore.QueueLayoutActionForTab(ctx, tabId, action)];
    - [ResyncController]: [blockcontroller.ResyncController(ctx, tabId, blockId, nil, force)];
    - [DeleteBlock]: [wcore.DeleteBlock(ctx, blockId, recursive)];
    - [UpdateObjectMeta]: [wstore.UpdateObjectMeta(ctx, oref, meta, mergeSpecial)];
    - [SendWaveObjUpdate]: [wcore.SendWaveObjUpdate(oref)];
    - [ContextGetUpdatesRtn]: [waveobj.ContextGetUpdatesRtn(ctx)];
    - [SendUpdateEvents]: [wps.Broker.SendUpdateEvents(updates)]. *)
Inductive Call : Type -> Type :=
| ContextWithUpdates : Call unit
| CreateBlock (tabId : string) (blockDef : BlockDef) : Call (result Block)
| ResolveBlockIdFromPrefix (tabId blockIdPrefix : string) : Call (result string)
| QueueLayoutActionForTab (tabId : string) (layoutAction : LayoutActionData)
    : Call (result unit)
| ResyncController (tabId blockId : string) (force : bool) : Call (result unit)
| DeleteBlock (blockId : string) (recursive : bool) : Call (result unit)
| UpdateObjectMeta (oref : ORef) (meta : MetaMapType) (mergeSpecial : bool)
    : Call (result unit)
| SendWaveObjUpdate (oref : ORef) : Call unit
| ContextGetUpdatesRtn : Call (list WaveObjUpdate)
| SendUpdateEvents (updates : list WaveObjUpdate) : Call unit.

(** ** Programs over the collaborators *)

(** A callback either returns, panics (a Go run-time panic), or makes a call
    and goes on with what the call returned. *)
Inductive Prog (A : Type) : Type :=
| Ret (a : A)
| Panic (msg : string)
| Vis {X : Type} (c : Call X) (k : X -> Prog A).
Arguments Ret {A} a.
Arguments Panic {A} msg.
Arguments Vis {A X} c k.

Fixpoint bind {A B : Type} (p : Prog A) (f : A -> Prog B) : Prog B :=
  match p with
  | Ret a => f a
  | Panic msg => Panic msg
  | Vis c k => Vis c (fun x => bind (k x) f)
  end.

(** Sequencing in the style of [if err != nil { return nil, err }]: an error
    ends the program with that error. *)
Definition bindE {A B : Type} (p : Prog (result A)) (f : A -> Prog (result B))
    : Prog (result B) :=
  bind p (fun r => match r with
                   | OK a => f a
                   | Err err => Ret (Err err)
                   end).

(** A call that cannot fail. *)
Definition perform {X : Type} (c : Call X) : Prog (result X) :=
  Vis c (fun x => Ret (OK x)).

(** A call whose error is returned as [fmt.Errorf(msg + ": %w", err)]. *)
Definition attempt {X : Type} (c : Call (result X)) (msg : string)
    : Prog (result X) :=
  Vis c (fun r => Ret (match r with
                       | OK x => OK x
                       | Err err => Err (Wrapf msg err)
                       end)).

Notation "'let*' x ':=' p 'in' k" := (bindE p (fun x => k))
  (at level 10, x name, p at level 100, k at level 200).

(** What running a callback gives: its Go return values, or a panic. *)
Inductive Outcome (A : Type) : Type :=
| Returned (a : A)
| Panicked (msg : string).
Arguments Returned {A} a.
Arguments Panicked {A} msg.

(** A call together with what it returned. *)
Inductive Event : Type :=
| Ev {X : Type} (c : Call X) (x : X).

Section Run.
(** The state of the collaborators and their implementation. *)
Context {World : Type}.
Variable handle : forall X : Type, Call X -> World -> X * World.

(** Runs a program from a state; gives the outcome, the final state and the
    calls made, oldest first. *)
Fixpoint run {A : Type} (p : Prog A) (w : World)
    : Outcome A * World * list Event :=
  match p with
  | Ret a => (Returned a, w, [])
  | Panic msg => (Panicked msg, w, [])
  | Vis c k =>
      let '(x, w1) := handle _ c w in
      let '(o, w2, t) := run (k x) w1 in
      (o, w2, Ev c x :: t)
  end.
End Run.

(** ** The tool callbacks *)

(** [map[string]any] of a tool result. *)
Abbreviation Response := (gmap string JSON).

(** The metadata of the block [widget_open] creates (the [meta] map and the
    [switch] on the widget type). *)
Definition openMeta (parsed : WidgetOpenToolInput.t) : MetaMapType :=
  let wt := WidgetOpenToolInput.WidgetType parsed in
  let conn := WidgetOpenToolInput.Connection parsed in
  let meta : MetaMapType := {[ "view" := wt ]} in
  if String.eqb wt "web" then
    <[ "url" := WidgetOpenToolInput.Url parsed ]> meta
  else if String.eqb wt "preview" then
    if negb (String.eqb (WidgetOpenToolInput.File parsed) "") then
      <[ "file" := WidgetOpenToolInput.File parsed ]> meta
    else meta
  else if String.eqb wt "term" then
    let meta := <[ "controller" := "shell" ]> meta in
    if negb (String.eqb conn "") && negb (String.eqb conn "local") then
      <[ "connection" := conn ]> meta
    else meta
  else if String.eqb wt "cpuplot" then
    if negb (String.eqb conn "") then <[ "connection" := conn ]> meta
    else meta
  else meta.

(** The layout action [widget_open] queues for the created block: a split
    against the resolved target when a split direction and a target are given,
    a plain insert otherwise. *)
Definition openLayoutAction (tabId : string) (parsed : WidgetOpenToolInput.t)
    (blockData : Block) : Prog (result LayoutActionData) :=
  let sd := WidgetOpenToolInput.SplitDirection parsed in
  let tw := WidgetOpenToolInput.TargetWidget parsed in
  if negb (String.eqb sd "") && negb (String.eqb tw "") then
    let* targetBlockId :=
      attempt (ResolveBlockIdFromPrefix tabId tw)
              ("failed to find target widget " +:+ tw) in
    let position :=
      if String.eqb (WidgetOpenToolInput.Position parsed) "" then "after"
      else WidgetOpenToolInput.Position parsed in
    let actionType :=
      if String.eqb sd "vertical" then LayoutActionDataType_SplitVertical
      else LayoutActionDataType_SplitHorizontal in
    Ret (OK {| ActionType := actionType;
               BlockId := OID blockData;
               TargetBlockId := targetBlockId;
               ActionPosition := position;
               Focused := true |})
  else
    Ret (OK {| ActionType := LayoutActionDataType_Insert;
               BlockId := OID blockData;
               TargetBlockId := "";
               ActionPosition := "";
               Focused := true |}).

(** The result map of [widget_open].  [blockData.OID[:8]] panics when the id
    has fewer than 8 bytes. *)
Definition openResponse (blockData : Block) : Prog (result Response) :=
  if (String.length (OID blockData) <? 8)%nat then
    Panic "slice bounds out of range"
  else
    Ret (OK {[ "success" := JBool true;
               "widget_id" := JString (String.substring 0 8 (OID blockData));
               "full_id" := JString (OID blockData) ]}).

Section Callbacks.
Variable equalFold : string -> string -> bool.
Variable tabId : string.

(** [GetWidgetOpenToolDefinition(tabId).ToolAnyCallback]. *)
Definition widgetOpenCallback (input : JSON) : Prog (result Response) :=
  let* parsed := Ret (parseWidgetOpenInput equalFold input) in
  let* _ := perform ContextWithUpdates in
  let blockDef := {| Meta := openMeta parsed |} in
  let* blockData :=
    attempt (CreateBlock tabId blockDef) "failed to create widget" in
  let* layoutAction := openLayoutAction tabId parsed blockData in
  let* _ :=
    attempt (QueueLayoutActionForTab tabId layoutAction)
            "failed to add widget to layout" in
  let* _ :=
    (if String.eqb (WidgetOpenToolInput.WidgetType parsed) "term" then
       attempt (ResyncController tabId (OID blockData) false)
               "failed to start terminal controller"
     else Ret (OK tt)) in
  let* updates := perform ContextGetUpdatesRtn in
  let* _ := perform (SendUpdateEvents updates) in
  openResponse blockData.

(** [GetWidgetCloseToolDefinition(tabId).ToolAnyCallback]. *)
Definition widgetCloseCallback (input : JSON) : Prog (result Response) :=
  let* parsed := Ret (parseWidgetCloseInput equalFold input) in
  let widgetId := WidgetCloseToolInput.WidgetId parsed in
  let* _ := perform ContextWithUpdates in
  let* fullBlockId :=
    attempt (ResolveBlockIdFromPrefix tabId widgetId)
            ("failed to find widget with ID " +:+ widgetId) in
  let layoutAction := {| ActionType := LayoutActionDataType_Remove;
                         BlockId := fullBlockId;
                         TargetBlockId := "";
                         ActionPosition := "";
                         Focused := false |} in
  let* _ :=
    attempt (QueueLayoutActionForTab tabId layoutAction)
            "failed to queue layout action" in
  let* _ := attempt (DeleteBlock fullBlockId true) "failed to close widget" in
  let* updates := perform ContextGetUpdatesRtn in
  let* _ := perform (SendUpdateEvents updates) in
  Ret (OK {[ "success" := JBool true;
             "message" := JString ("widget " +:+ widgetId +:+ " closed") ]}).

(** [strconv.Quote] as [%q] applies it; only its result being a string
    matters here. *)
Variable quote : string -> string.

(** [GetWidgetRenameToolDefinition(tabId).ToolAnyCallback]. *)
Definition widgetRenameCallback (input : JSON) : Prog (result Response) :=
  let* parsed := Ret (parseWidgetRenameInput equalFold input) in
  let widgetId := WidgetRenameToolInput.WidgetId parsed in
  let name := WidgetRenameToolInput.Name parsed in
  let* _ := perform ContextWithUpdates in
  let* fullBlockId :=
    attempt (ResolveBlockIdFromPrefix tabId widgetId)
            ("failed to find widget with ID " +:+ widgetId) in
  let blockORef := MakeORef OType_Block fullBlockId in
  let meta : MetaMapType := {[ "display:name" := name ]} in
  let* _ :=
    attempt (UpdateObjectMeta blockORef meta true) "failed to rename widget" in
  let* _ := perform (SendWaveObjUpdate blockORef) in
  let* updates := perform ContextGetUpdatesRtn in
  let* _ := perform (SendUpdateEvents updates) in
  Ret (OK {[ "success" := JBool true;
             "message" := JString ("widget " +:+ widgetId +:+ " renamed to "
                                   +:+ quote name) ]}).

(** [GetWidgetMoveToolDefinition(tabId).ToolAnyCallback]. *)
Definition widgetMoveCallback (input : JSON) : Prog (result Response) :=
  let* parsed := Ret (parseWidgetMoveInput equalFold input) in
  let widgetId := WidgetMoveToolInput.WidgetId parsed in
  let targetWidgetId := WidgetMoveToolInput.TargetWidgetId parsed in
  let direction := WidgetMoveToolInput.Direction parsed in
  let* _ := perform ContextWithUpdates in
  let* fullBlockId :=
    attempt (ResolveBlockIdFromPrefix tabId widgetId)
            ("failed to find widget with ID " +:+ widgetId) in
  let* targetBlockId :=
    attempt (ResolveBlockIdFromPrefix tabId targetWidgetId)
            ("failed to find target widget with ID " +:+ targetWidgetId) in
  let position :=
    if String.eqb (WidgetMoveToolInput.Position parsed) "" then "after"
    else WidgetMoveToolInput.Position parsed in
  let actionType :=
    if String.eqb direction "vertical" then LayoutActionDataType_MoveVertical
    else LayoutActionDataType_MoveHorizontal in
  let layoutAction := {| ActionType := actionType;
                         BlockId := fullBlockId;
                         TargetBlockId := targetBlockId;
                         ActionPosition := position;
                         Focused := true |} in
  let* _ :=
    attempt (QueueLayoutActionForTab tabId layoutAction)
            "failed to move widget" in
  let* updates := perform ContextGetUpdatesRtn in
  let* _ := perform (SendUpdateEvents updates) in
  Ret (OK {[ "success" := JBool true;
             "message" := JString ("widget " +:+ widgetId +:+ " moved "
                                   +:+ position +:+ " " +:+ direction
                                   +:+ " of widget " +:+ targetWidgetId) ]}).
End Callbacks.

(** ** Reading a recorded run *)

(** The calls of each kind in a trace, oldest first, with what they returned. *)
Definition asCreate (e : Event) : option (string * BlockDef * result Block) :=
  match e with
  | @Ev X c x =>
      match c in Call X return X -> option (string * BlockDef * result Block) with
      | CreateBlock tab def => fun r => Some (tab, def, r)
      | _ => fun _ => None
      end x
  end.

Definition asResolve (e : Event) : option (string * string * result string) :=
  match e with
  | @Ev X c x =>
      match c in Call X return X -> option (string * string * result string) with
      | ResolveBlockIdFromPrefix tab prefix => fun r => Some (tab, prefix, r)
      | _ => fun _ => None
      end x
  end.

Definition asQueue (e : Event) : option (string * LayoutActionData * result unit) :=
  match e with
  | @Ev X c x =>
      match c in Call X return X -> option (string * LayoutActionData * result unit) with
      | QueueLayoutActionForTab tab a => fun r => Some (tab, a, r)
      | _ => fun _ => None
      end x
  end.

Definition asDelete (e : Event) : option (string * bool * result unit) :=
  match e with
  | @Ev X c x =>
      match c in Call X return X -> option (string * bool * result unit) with
      | DeleteBlock id recursive => fun r => Some (id, recursive, r)
      | _ => fun _ => None
      end x
  end.

Definition asUpdateMeta (e : Event) : option (ORef * MetaMapType * result unit) :=
  match e with
  | @Ev X c x =>
      match c in Call X return X -> option (ORef * MetaMapType * result unit) with
      | UpdateObjectMeta oref meta _ => fun r => Some (oref, meta, r)
      | _ => fun _ => None
      end x
  end.

Definition asResync (e : Event) : option (string * string * result unit) :=
  match e with
  | @Ev X c x =>
      match c in Call X return X -> option (string * string * result unit) with
      | ResyncController tab id _ => fun r => Some (tab, id, r)
      | _ => fun _ => None
      end x
  end.

Definition asBroadcast (e : Event) : option (list WaveObjUpdate) :=
  match e with
  | @Ev X c x =>
      match c in Call X return option (list WaveObjUpdate) with
      | SendUpdateEvents updates => Some updates
      | _ => None
      end
  end.

Definition createCalls (t : list Event) := omap asCreate t.
Definition resolveCalls (t : list Event) := omap asResolve t.
Definition queueCalls (t : list Event) := omap asQueue t.
Definition deleteCalls (t : list Event) := omap asDelete t.
Definition updateMetaCalls (t : list Event) := omap asUpdateMeta t.
Definition resyncCalls (t : list Event) := omap asResync t.
Definition broadcasts (t : list Event) := omap asBroadcast t.

(** ** A store to run the callbacks against *)

(** Modelled from the spec: the collaborating packages [wcore], [wstore],
    [blockcontroller], [wps] and [waveobj] are not part of the sources at
    hand.  The state below is what the spec's data model names: the widgets
    of each tab by canonical id, the metadata of each widget, the per-tab
    queue of layout actions consumed in submission order, the controllers
    started, the update batch of the running command and the batches
    sent to subscribers.  [freshIds] supplies the canonical ids of the
    widgets to create. *)
Record Store : Type := mkStore {
  tabBlocks : gmap string (list string);
  blockMeta : gmap string MetaMapType;
  layoutQueue : gmap string (list LayoutActionData);
  controllers : list string;
  ctxUpdates : list WaveObjUpdate;
  sent : list (list WaveObjUpdate);
  freshIds : list string
}.

(** The errors the collaborators are made to return, for failure runs. *)
Record Faults : Type := mkFaults {
  createErr : option error;
  queueErr : option error;
  resyncErr : option error;
  deleteErr : option error;
  updateErr : option error
}.

Definition noFaults : Faults := mkFaults None None None None None.

Definition blockUpdate (updateType oid : string) : WaveObjUpdate :=
  mkUpdate updateType (MakeORef OType_Block oid).

(** Modelled from the spec: "create the widget entity; obtain its canonical
    id"; a failure commits nothing. *)
Definition storeCreateBlock (f : Faults) (tabId : string) (blockDef : BlockDef)
    (s : Store) : result Block * Store :=
  match createErr f, tabBlocks s !! tabId, freshIds s with
  | Some err, _, _ => (Err err, s)
  | None, None, _ => (Err (Errorf "tab not found"), s)
  | None, Some _, [] => (Err (Errorf "no id available"), s)
  | None, Some ids, oid :: rest =>
      (OK (mkBlock oid),
       mkStore (<[ tabId := ids ++ [oid] ]> (tabBlocks s))
               (<[ oid := Meta blockDef ]> (blockMeta s))
               (layoutQueue s) (controllers s)
               (ctxUpdates s ++ [blockUpdate "update" oid])
               (sent s) rest)
  end.

(** Modelled from the spec: "a case-sensitive exact-prefix match against
    canonical identifiers currently live in the tab; zero matches and
    multiple matches both map to the same error class". *)
Definition storeResolve (tabId prefix : string) (s : Store) : result string :=
  match List.filter (String.prefix prefix) (default [] (tabBlocks s !! tabId)) with
  | [oid] => OK oid
  | _ => Err (Errorf "block not found or ambiguous")
  end.

(** Modelled from the spec: "actions are queued per tab and consumed in
    submission order". *)
Definition storeQueue (f : Faults) (tabId : string) (a : LayoutActionData)
    (s : Store) : result unit * Store :=
  match queueErr f with
  | Some err => (Err err, s)
  | None =>
      (OK tt,
       mkStore (tabBlocks s) (blockMeta s)
               (<[ tabId := default [] (layoutQueue s !! tabId) ++ [a] ]>
                  (layoutQueue s))
               (controllers s) (ctxUpdates s) (sent s) (freshIds s))
  end.

(** Modelled from the spec: "perform a controller-start side effect". *)
Definition storeResync (f : Faults) (blockId : string) (s : Store)
    : result unit * Store :=
  match resyncErr f with
  | Some err => (Err err, s)
  | None =>
      (OK tt,
       mkStore (tabBlocks s) (blockMeta s) (layoutQueue s)
               (controllers s ++ [blockId]) (ctxUpdates s) (sent s)
               (freshIds s))
  end.

(** Modelled from the spec: "the destructive delete of the widget entity". *)
Definition storeDeleteBlock (f : Faults) (blockId : string) (s : Store)
    : result unit * Store :=
  match deleteErr f, blockMeta s !! blockId with
  | Some err, _ => (Err err, s)
  | None, None => (Err (Errorf "block not found"), s)
  | None, Some _ =>
      (OK tt,
       mkStore (List.filter (fun oid => negb (String.eqb oid blockId))
                  <$> tabBlocks s)
               (delete blockId (blockMeta s))
               (layoutQueue s) (controllers s)
               (ctxUpdates s ++ [blockUpdate "delete" blockId])
               (sent s) (freshIds s))
  end.

(** Modelled from the spec: "update only the display-name metadata field":
    the keys of [meta] are written over the stored metadata, the other keys
    stay. *)
Definition storeUpdateObjectMeta (f : Faults) (oref : ORef) (meta : MetaMapType)
    (s : Store) : result unit * Store :=
  match updateErr f, blockMeta s !! ORefOID oref with
  | Some err, _ => (Err err, s)
  | None, None => (Err (Errorf "not found"), s)
  | None, Some old =>
      if String.eqb (OType oref) OType_Block then
        (OK tt,
         mkStore (tabBlocks s)
                 (<[ ORefOID oref := meta ∪ old ]> (blockMeta s))
                 (layoutQueue s) (controllers s)
                 (ctxUpdates s ++ [mkUpdate "update" oref])
                 (sent s) (freshIds s))
      else (Err (Errorf "not found"), s)
  end.

Definition storeSend (batch : list WaveObjUpdate) (s : Store) : Store :=
  mkStore (tabBlocks s) (blockMeta s) (layoutQueue s) (controllers s)
          (ctxUpdates s) (sent s ++ [batch]) (freshIds s).

(** Modelled from the spec: the collaborators as one handler over [Store]. *)
Definition storeHandle (f : Faults) (X : Type) (c : Call X) (s : Store)
    : X * Store :=
  match c in Call X return X * Store with
  | ContextWithUpdates =>
      (tt, mkStore (tabBlocks s) (blockMeta s) (layoutQueue s) (controllers s)
                   [] (sent s) (freshIds s))
  | CreateBlock tabId blockDef => storeCreateBlock f tabId blockDef s
  | ResolveBlockIdFromPrefix tabId prefix => (storeResolve tabId prefix s, s)
  | QueueLayoutActionForTab tabId a => storeQueue f tabId a s
  | ResyncController _ blockId _ => storeResync f blockId s
  | DeleteBlock blockId _ => storeDeleteBlock f blockId s
  | UpdateObjectMeta oref meta _ => storeUpdateObjectMeta f oref meta s
  | SendWaveObjUpdate oref => (tt, storeSend [mkUpdate "update" oref] s)
  | ContextGetUpdatesRtn => (ctxUpdates s, s)
  | SendUpdateEvents updates => (tt, storeSend updates s)
  end.

(** ASCII case folding, the part of the library's name folding that matters
    for the field names of these tools. *)
Definition upperAscii (a : Ascii.ascii) : Ascii.ascii :=
  let n := Ascii.nat_of_ascii a in
  if ((97 <=? n) && (n <=? 122))%nat then Ascii.ascii_of_nat (n - 32) else a.

Fixpoint upperString (s : string) : string :=
  match s with
  | EmptyString => EmptyString
  | String a rest => String (upperAscii a) (upperString rest)
  end.

Definition asciiFold (name key : string) : bool :=
  String.eqb (upperString name) (upperString key).

(** A tab with two widgets and two ids to hand out. *)
Definition demoStore : Store :=
  mkStore {[ "tab1" := ["ab12cd34-0000"; "ef56gh78-0000"] ]}
          {[ "ab12cd34-0000" := {[ "view" := "term" ]};
             "ef56gh78-0000" := {[ "view" := "web"; "url" := "https://x" ]} ]}
          ∅ [] [] []
          ["0a1b2c3d-4e5f-6789"; "short"].

(** The store with only a 5-byte id left to hand out. *)
Definition shortIdStore : Store :=
  mkStore (tabBlocks demoStore) (blockMeta demoStore) (layoutQueue demoStore)
          [] [] [] ["short"].

(** The layout queue refuses every action. *)
Definition queueFails : Faults :=
  mkFaults None (Some (Errorf "layout queue unavailable")) None None None.

(** [%q] for names without special characters: the name between quotes. *)
Definition quoteName (s : string) : string :=
  String (Ascii.ascii_of_nat 34) (s +:+ String (Ascii.ascii_of_nat 34) "").

(** Payloads, with their members in the order the marshal step writes them. *)
Definition webPayload : JSON :=
  JObject [("url", JString "https://x"); ("widget_type", JString "web")].

Definition termPayload : JSON :=
  JObject [("connection", JString "devbox"); ("widget_type", JString "term")].

Definition extraFieldPayload : JSON :=
  JObject [("bogus", JString "x"); ("widget_type", JString "term")].

Definition closePayload : JSON :=
  JObject [("widget_id", JString "ab12cd34")].

Definition renamePayload : JSON :=
  JObject [("name", JString "build"); ("widget_id", JString "ab12cd34")].

Definition movePayload : JSON :=
  JObject [("direction", JString "vertical");
           ("target_widget_id", JString "ef56gh78");
           ("widget_id", JString "ab12cd34")].

Definition splitWithoutTargetPayload : JSON :=
  JObject [("split_direction", JString "horizontal");
           ("widget_type", JString "term")].

Definition targetWithoutSplitPayload : JSON :=
  JObject [("position", JString "before");
           ("target_widget", JString "ef56gh78");
           ("widget_type", JString "term")].

(** ** The second copy of the open tool *)

(** The sources carry a second, shorter definition of the open tool (without
    split support and without the controller start); it is kept apart here
    under its own name space. *)
Module Legacy.
Module WidgetOpenToolInput.
Record t : Type := mk {
  WidgetType : string;
  Url : string;
  File : string;
  Connection : string
}.

Definition zero : t := mk "" "" "" "".

Definition fields : list (Field t) := [
  mkField "widget_type" (fun s r => mk s (Url r) (File r) (Connection r));
  mkField "url" (fun s r => mk (WidgetType r) s (File r) (Connection r));
  mkField "file" (fun s r => mk (WidgetType r) (Url r) s (Connection r));
  mkField "connection" (fun s r => mk (WidgetType r) (Url r) (File r) s)
].
End WidgetOpenToolInput.

Definition checkWidgetOpenInput (decoded : WidgetOpenToolInput.t)
    : result WidgetOpenToolInput.t :=
  let wt := WidgetOpenToolInput.WidgetType decoded in
  if String.eqb wt "" then Err (Errorf "widget_type is required")
  else if negb (goIndex validTypes wt) then
    Err (Errorf ("invalid widget_type: " +:+ wt
                 +:+ ". Valid types are: term, web, preview, cpuplot"))
  else if String.eqb wt "web" && String.eqb (WidgetOpenToolInput.Url decoded) "" then
    Err (Errorf "url is required for web widget")
  else OK decoded.

Definition openMeta (parsed : WidgetOpenToolInput.t) : MetaMapType :=
  let wt := WidgetOpenToolInput.WidgetType parsed in
  let conn := WidgetOpenToolInput.Connection parsed in
  let meta : MetaMapType := {[ "view" := wt ]} in
  if String.eqb wt "web" then
    <[ "url" := WidgetOpenToolInput.Url parsed ]> meta
  else if String.eqb wt "preview" then
    if negb (String.eqb (WidgetOpenToolInput.File parsed) "") then
      <[ "file" := WidgetOpenToolInput.File parsed ]> meta
    else meta
  else if String.eqb wt "term" then
    if negb (String.eqb conn "") then <[ "connection" := conn ]> meta
    else meta
  else if String.eqb wt "cpuplot" then
    if negb (String.eqb conn "") then <[ "connection" := conn ]> meta
    else meta
  else meta.

Section Callbacks.
Variable equalFold : string -> string -> bool.
Variable tabId : string.

Definition parseWidgetOpenInput : JSON -> result WidgetOpenToolInput.t :=
  parseWith equalFold WidgetOpenToolInput.fields WidgetOpenToolInput.zero
    checkWidgetOpenInput.

Definition widgetOpenCallback (input : JSON) : Prog (result Response) :=
  let* parsed := Ret (parseWidgetOpenInput input) in
  let* _ := perform ContextWithUpdates in
  let blockDef := {| Meta := openMeta parsed |} in
  let* blockData :=
    attempt (CreateBlock tabId blockDef) "failed to create widget" in
  let layoutAction := {| ActionType := LayoutActionDataType_Insert;
                         BlockId := OID blockData;
                         TargetBlockId := "";
                         ActionPosition := "";
                         Focused := true |} in
  let* _ :=
    attempt (QueueLayoutActionForTab tabId layoutAction)
            "failed to add widget to layout" in
  let* updates := perform ContextGetUpdatesRtn in
  let* _ := perform (SendUpdateEvents updates) in
  openResponse blockData.
End Callbacks.
End Legacy.

(** Recorded runs of the callbacks on these inputs. *)
Definition closeRun :=
  run (storeHandle noFaults) (widgetCloseCallback asciiFold "tab1" closePayload)
      demoStore.

Definition openWebRun :=
  run (storeHandle noFaults) (widgetOpenCallback asciiFold "tab1" webPayload)
      demoStore.

Definition openShortIdRun :=
  run (storeHandle noFaults) (widgetOpenCallback asciiFold "tab1" termPayload)
      shortIdStore.

Definition openTargetRun :=
  run (storeHandle noFaults)
      (widgetOpenCallback asciiFold "tab1" targetWithoutSplitPayload) demoStore.

Definition renameRun :=
  run (storeHandle noFaults)
      (widgetRenameCallback asciiFold "tab1" quoteName renamePayload) demoStore.

Definition renameAgainRun :=
  run (storeHandle noFaults)
      (widgetRenameCallback asciiFold "tab1" quoteName renamePayload)
      renameRun.1.2.

(** ** The descriptions of a tool call *)

Section Descriptions.
Variable equalFold : string -> string -> bool.

(** [strconv.Quote], as the [%q] verb applies it. *)
Variable quote : string -> string.

(** The text of a [*json.UnmarshalTypeError], from its value kind and field;
    it belongs to the Go library. *)
Variable unmarshalTypeErrorText : string -> string -> string.

(** [err.Error()], which is what the [%v] verb prints. *)
Fixpoint errorText (err : error) : string :=
  match err with
  | Errorf msg => msg
  | Wrapf msg cause => msg +:+ ": " +:+ errorText cause
  | UnmarshalTypeError value field => unmarshalTypeErrorText value field
  end.

(** [GetWidgetOpenToolDefinition(tabId).ToolCallDesc]. *)
Definition widgetOpenToolCallDesc (input : JSON) : string :=
  match parseWidgetOpenInput equalFold input with
  | Err err => "error parsing input: " +:+ errorText err
  | OK parsed =>
      let wt := WidgetOpenToolInput.WidgetType parsed in
      if String.eqb wt "web" then
        "opening web widget with URL " +:+ quote (WidgetOpenToolInput.Url parsed)
      else if String.eqb wt "preview" then
        if negb (String.eqb (WidgetOpenToolInput.File parsed) "") then
          "opening preview widget for " +:+ quote (WidgetOpenToolInput.File parsed)
        else "opening preview widget"
      else if String.eqb wt "term" then
        if negb (String.eqb (WidgetOpenToolInput.Connection parsed) "") then
          "opening terminal connected to "
          +:+ quote (WidgetOpenToolInput.Connection parsed)
        else "opening terminal widget"
      else if String.eqb wt "cpuplot" then "opening CPU graph widget"
      else "opening " +:+ wt +:+ " widget"
  end.

(** [GetWidgetCloseToolDefinition(tabId).ToolCallDesc]. *)
Definition widgetCloseToolCallDesc (input : JSON) : string :=
  match parseWidgetCloseInput equalFold input with
  | Err err => "error parsing input: " +:+ errorText err
  | OK parsed => "closing widget " +:+ WidgetCloseToolInput.WidgetId parsed
  end.

(** [GetWidgetRenameToolDefinition(tabId).ToolCallDesc]. *)
Definition widgetRenameToolCallDesc (input : JSON) : string :=
  match parseWidgetRenameInput equalFold input with
  | Err err => "error parsing input: " +:+ errorText err
  | OK parsed =>
      "renaming widget " +:+ WidgetRenameToolInput.WidgetId parsed +:+ " to "
      +:+ quote (WidgetRenameToolInput.Name parsed)
  end.

(** [GetWidgetMoveToolDefinition(tabId).ToolCallDesc]. *)
Definition widgetMoveToolCallDesc (input : JSON) : string :=
  match parseWidgetMoveInput equalFold input with
  | Err err => "error parsing input: " +:+ errorText err
  | OK parsed =>
      let pos :=
        if String.eqb (WidgetMoveToolInput.Position parsed) "" then "after"
        else WidgetMoveToolInput.Position parsed in
      "moving widget " +:+ WidgetMoveToolInput.WidgetId parsed +:+ " " +:+ pos
      +:+ " " +:+ WidgetMoveToolInput.Direction parsed +:+ " of widget "
      +:+ WidgetMoveToolInput.TargetWidgetId parsed
  end.
End Descriptions.

(** ** The rename dialog (frontend/app/modals/renamewidgetmodal.tsx) *)

Module RenameWidgetModal.

(** What the component keeps with [useState]. *)
Record State : Type := mkState {
  newName : string;
  error : string;
  isRenaming : bool
}.

(** The value sent for "display:name": a string or [null]. *)
Inductive MetaValue : Type :=
| MetaString (s : string)
| MetaNull.

(** What a rejected call throws: an [Error] with its message, or any other
    value with the text [String(err)] gives. *)
Inductive Thrown : Type :=
| ThrownError (message : string)
| ThrownValue (text : string).

(** What a handler does, in order: the state setters it calls,
    [modalsModel.popModal()], [RpcApi.SetMetaCommand(TabRpcClient, {oref,
    meta: {"display:name": value}})] and [console.log]. *)
Inductive Effect : Type :=
| PopModal
| SetMetaCommand (oref : string) (displayName : MetaValue)
| ConsoleLog (thrown : Thrown)
| SetIsRenaming (value : bool)
| SetError (message : string).

(** [err instanceof Error ? err.message : String(err)]. *)
Definition errorMessage (thrown : Thrown) : string :=
  match thrown with
  | ThrownError message => message
  | ThrownValue text => text
  end.

Section Handlers.
(** [String.prototype.trim] and [WOS.makeORef], which are not part of this
    file. *)
Variable trim : string -> string.
Variable makeORef : string -> string -> string.

(** The props of the component. *)
Variable blockOid : string.
Variable currentName : string.

(** How the awaited [SetMetaCommand] ends: [None] when it resolves, the
    thrown value when it rejects. *)
Variable rpc : string -> MetaValue -> option Thrown.

(** [useState(currentName || "")], [useState("")], [useState(false)]. *)
Definition initialState : State := mkState currentName "" false.

(** The state in the second component is the one the setters called leave. *)
Definition handleRename (st : State) : State * list Effect :=
  let trimmedName := trim (newName st) in
  if String.eqb trimmedName currentName then (st, [PopModal])
  else
    let oref := makeORef "block" blockOid in
    let value :=
      if String.eqb trimmedName "" then MetaNull else MetaString trimmedName in
    match rpc oref value with
    | None =>
        (mkState (newName st) (error st) false,
         [SetIsRenaming true; SetMetaCommand oref value; PopModal;
          SetIsRenaming false])
    | Some thrown =>
        (mkState (newName st) (errorMessage thrown) false,
         [SetIsRenaming true; SetMetaCommand oref value; ConsoleLog thrown;
          SetError (errorMessage thrown); SetIsRenaming false])
    end.

Definition handleClose (st : State) : State * list Effect := (st, [PopModal]).

(** The calls to [SetMetaCommand] among the effects, in order. *)
Definition metaCommands (effects : list Effect) : list (string * MetaValue) :=
  omap (fun e => match e with
                 | SetMetaCommand oref value => Some (oref, value)
                 | _ => None
                 end) effects.

(** The [onChange] of the input. *)
Definition onChange (value : string) (st : State) : State :=
  mkState value "" (isRenaming st).

(** The [onKeyDown] of the input, from [e.key] and
    [e.nativeEvent.isComposing]. *)
Definition onKeyDown (key : string) (isComposing : bool) (st : State)
    : State * list Effect :=
  if String.eqb key "Enter" && negb isComposing && String.eqb (error st) ""
  then handleRename st
  else (st, []).
End Handlers.
End RenameWidgetModal.

(** ** Dropped and picked files (frontend/app/view/waveai/waveai.tsx) *)

Module WaveAi.

Section FileIntake.
(** A browser [File] with its name, and the helpers of [ai-utils], which are
    not part of this file. *)
Variable File : Type.
Variable fileName : File -> string.
Variable isAcceptableFile : File -> bool.
Variable SizeError : Type.
Variable validateFileSize : File -> option SizeError.
Variable formatFileSizeError : SizeError -> string.

(** Whether the awaited [addFile(file)] of the model resolves. *)
Variable addFile : File -> bool.

(** A number inside a template literal. *)
Variable showNumber : nat -> string.

(** What a handler does, in order. *)
Inductive Effect : Type :=
| PreventDefault
| StopPropagation
| SetIsDragOver (value : bool)
| SetError (message : string)
| AddFile (file : File)
| ConsoleWarn (message : string)
| ClearInputValue.

(** How the [for ... of] loop over the acceptable files ends: it runs to its
    end, or the handler returns from inside it after a size error, or an
    [addFile] rejects and the handler throws. *)
Inductive LoopEnd : Type :=
| LoopDone
| LoopSizeError (sizeError : SizeError)
| LoopThrew.

Fixpoint addFiles (acceptableFiles : list File) : LoopEnd * list Effect :=
  match acceptableFiles with
  | [] => (LoopDone, [])
  | file :: rest =>
      match validateFileSize file with
      | Some sizeError => (LoopSizeError sizeError, [])
      | None =>
          if addFile file then
            let '(e, effects) := addFiles rest in (e, AddFile file :: effects)
          else (LoopThrew, [AddFile file])
      end
  end.

(** Whether the handler returned or threw. *)
Inductive Completion : Type :=
| Completed
| Threw.

(** [handleDrop] of the [WaveAi] component, on [e.dataTransfer.files]. *)
Definition handleDrop (files : list File) : Completion * list Effect :=
  match files with
  | [] => (Completed, [])
  | _ =>
      let acceptableFiles := List.filter isAcceptableFile files in
      let start := [PreventDefault; StopPropagation; SetIsDragOver false] in
      match addFiles acceptableFiles with
      | (LoopSizeError sizeError, effects) =>
          (Completed, start ++ effects ++ [SetError (formatFileSizeError sizeError)])
      | (LoopThrew, effects) => (Threw, start ++ effects)
      | (LoopDone, effects) =>
          if (length acceptableFiles <? length files)%nat then
            let rejectedCount := (length files - length acceptableFiles)%nat in
            let rejectedFiles :=
              List.filter (fun f => negb (isAcceptableFile f)) files in
            let fileNames := String.concat ", " (map fileName rejectedFiles) in
            (Completed,
             start ++ effects
             ++ [SetError (showNumber rejectedCount +:+ " file"
                           +:+ (if (1 <? rejectedCount)%nat then "s" else "")
                           +:+ " rejected (unsupported type): " +:+ fileNames
                           +:+ ". Supported: images, PDFs, and text/code files.")])
          else (Completed, start ++ effects)
      end
  end.

(** [handleFileChange] of the [BlockInput] component, on
    [e.target.files || []]. *)
Definition handleFileChange (files : list File) : Completion * list Effect :=
  let acceptableFiles := List.filter isAcceptableFile files in
  match addFiles acceptableFiles with
  | (LoopSizeError sizeError, effects) =>
      (Completed,
       effects ++ [SetError (formatFileSizeError sizeError); ClearInputValue])
  | (LoopThrew, effects) => (Threw, effects)
  | (LoopDone, effects) =>
      if (length acceptableFiles <? length files)%nat then
        (Completed,
         effects
         ++ [ConsoleWarn (showNumber (length files - length acceptableFiles)
                          +:+ " files were rejected due to unsupported file types");
             ClearInputValue])
      else (Completed, effects ++ [ClearInputValue])
  end.

(** The files a handler passed to [addFile], in order. *)
Definition addedFiles (effects : list Effect) : list File :=
  omap (fun e => match e with AddFile file => Some file | _ => None end) effects.

(** The messages a handler passed to [setError], in order. *)
Definition errorsSet (effects : list Effect) : list string :=
  omap (fun e => match e with SetError msg => Some msg | _ => None end) effects.
End FileIntake.
End WaveAi.

(** ** Further inputs and recorded runs *)

(** A term widget split off the second widget of the tab. *)
Definition splitPayload : JSON :=
  JObject [("split_direction", JString "vertical");
           ("target_widget", JString "ef56gh78");
           ("widget_type", JString "term")].

(** The same with a target that no widget of the tab has. *)
Definition splitUnknownTargetPayload : JSON :=
  JObject [("split_direction", JString "vertical");
           ("target_widget", JString "zz99");
           ("widget_type", JString "term")].

Definition webWithoutUrlPayload : JSON :=
  JObject [("widget_type", JString "web")].

Definition localTermPayload : JSON :=
  JObject [("connection", JString "local"); ("widget_type", JString "term")].

(** A widget id given as a JSON boolean. *)
Definition mistypedMembers : list (string * JSON) :=
  [("widget_id", JBool true)].

(** The controller start, the delete and the metadata update made to fail. *)
Definition resyncFails : Faults :=
  mkFaults None None (Some (Errorf "controller unavailable")) None None.

Definition deleteFails : Faults :=
  mkFaults None None None (Some (Errorf "delete refused")) None.

Definition openSplitRun :=
  run (storeHandle noFaults) (widgetOpenCallback asciiFold "tab1" splitPayload)
      demoStore.

Definition openSplitResponse : Response :=
  match openSplitRun.1.1 with
  | Returned (OK resp) => resp
  | _ => ∅
  end.

Definition openTermFailedStartRun :=
  run (storeHandle resyncFails) (widgetOpenCallback asciiFold "tab1" termPayload)
      demoStore.

Definition closeFailedDeleteRun :=
  run (storeHandle deleteFails) (widgetCloseCallback asciiFold "tab1" closePayload)
      demoStore.

Definition moveRun :=
  run (storeHandle noFaults) (widgetMoveCallback asciiFold "tab1" movePayload)
      demoStore.

(** The text of a type error, as [encoding/json] words it. *)
Definition typeErrorText (kind field : string) : string :=
  "json: cannot unmarshal " +:+ kind +:+ " into Go struct field " +:+ field
  +:+ " of type string".

(** Files as a name and a size; executables are not accepted, a file over 50
    is too large, and the file "bad.txt" cannot be added. *)
Definition demoFile : Type := string * nat.

Definition demoFileName (f : demoFile) : string := f.1.

Definition demoIsAcceptableFile (f : demoFile) : bool :=
  negb (String.eqb f.1 "tool.exe" || String.eqb f.1 "run.exe").

Definition demoValidateFileSize (f : demoFile) : option nat :=
  if (50 <? f.2)%nat then Some f.2 else None.

Definition demoFormatFileSizeError (size : nat) : string :=
  "file too large: " +:+ pretty size.

Definition demoAddFile (f : demoFile) : bool := negb (String.eqb f.1 "bad.txt").

Definition droppedFiles : list demoFile :=
  [("a.png", 10); ("tool.exe", 10); ("b.txt", 20); ("run.exe", 5)].

Definition droppedLargeFiles : list demoFile :=
  [("a.png", 10); ("tool.exe", 10); ("big.pdf", 99); ("b.txt", 20)].

(** A trim for texts without inner blanks: the leading and trailing spaces
    go. *)
Fixpoint dropSpaces (s : string) : string :=
  match s with
  | String a rest =>
      if Ascii.eqb a (Ascii.ascii_of_nat 32) then dropSpaces rest else s
  | EmptyString => s
  end.

Definition demoTrim (s : string) : string :=
  String.rev (dropSpaces (String.rev (dropSpaces s))).

Definition demoMakeORef (otype oid : string) : string := otype +:+ ":" +:+ oid.

(** A call that always rejects. *)
Definition rpcRejects (oref : string) (value : RenameWidgetModal.MetaValue)
    : option RenameWidgetModal.Thrown :=
  Some (RenameWidgetModal.ThrownError "connection lost").

(** The dialog for a widget named "shell", after a rename to " build " that
    was rejected. *)
Definition failedRenameState : RenameWidgetModal.State :=
  (RenameWidgetModal.handleRename demoTrim demoMakeORef "ab12cd34-0000" "shell"
     rpcRejects (RenameWidgetModal.mkState " build " "" false)).1.

(** The second copy of the open tool on the split payload. *)
Definition legacyOpenRun :=
  run (storeHandle noFaults)
      (Legacy.widgetOpenCallback asciiFold "tab1" splitPayload) demoStore.

(** The second copy when only a 5-byte id is left to hand out. *)
Definition legacyShortIdRun :=
  run (storeHandle noFaults)
      (Legacy.widgetOpenCallback asciiFold "tab1" termPayload) shortIdStore.

(** * Properties *)

(** ** The enumerations *)

Lemma goIndex_validTypes (s : string) :
  goIndex validTypes s = true <->
  s = "term" \/ s = "web" \/ s = "preview" \/ s = "cpuplot".
Proof.
  unfold goIndex, validTypes. split.
  - intros H.
    destruct (decide (s = "term")) as [->|]; [auto|].
    destruct (decide (s = "web")) as [->|]; [auto|].
    destruct (decide (s = "preview")) as [->|]; [auto|].
    destruct (decide (s = "cpuplot")) as [->|]; [auto|].
    rewrite !lookup_insert_ne in H by done.
    rewrite lookup_singleton_ne in H by done. discriminate.
  - intros [ -> | [ -> | [ -> | -> ]]]; reflexivity.
Qed.

Lemma goIndex_validDirections (s : string) :
  goIndex validDirections s = true <-> s = "horizontal" \/ s = "vertical".
Proof.
  unfold goIndex, validDirections. split.
  - intros H.
    destruct (decide (s = "horizontal")) as [->|]; [auto|].
    destruct (decide (s = "vertical")) as [->|]; [auto|].
    rewrite lookup_insert_ne in H by done.
    rewrite lookup_singleton_ne in H by done. discriminate.
  - intros [ -> | -> ]; reflexivity.
Qed.

Lemma goIndex_validPositions (s : string) :
  goIndex validPositions s = true <-> s = "before" \/ s = "after".
Proof.
  unfold goIndex, validPositions. split.
  - intros H.
    destruct (decide (s = "before")) as [->|]; [auto|].
    destruct (decide (s = "after")) as [->|]; [auto|].
    rewrite lookup_insert_ne in H by done.
    rewrite lookup_singleton_ne in H by done. discriminate.
  - intros [ -> | -> ]; reflexivity.
Qed.

Lemma eqb_empty_false (s : string) : s <> "" -> String.eqb s "" = false.
Proof. intros H. by apply String.eqb_neq. Qed.

(** ** Decoding *)

Section DecodeFacts.
Variable equalFold : string -> string -> bool.
Context {T : Type}.
Variable fields : list (Field T).

Lemma find_none_existsb (p : Field T -> bool) :
  existsb p fields = false -> List.find p fields = None.
Proof.
  induction fields as [|f fs IH]; simpl; [done|].
  destruct (p f); simpl; [done|]. exact IH.
Qed.

Lemma findField_unknown (key : string) :
  existsb (fun name => String.eqb name key || equalFold name key)
          (map jsonName fields) = false ->
  findField equalFold fields key = None.
Proof.
  intros H. unfold findField.
  rewrite !find_none_existsb; [done| |].
  - clear -H. induction fields as [|f fs IH]; simpl in *; [done|].
    apply orb_false_iff in H as [H1 H2].
    apply orb_false_iff in H1 as [_ ->]. simpl. by apply IH.
  - clear -H. induction fields as [|f fs IH]; simpl in *; [done|].
    apply orb_false_iff in H as [H1 H2].
    apply orb_false_iff in H1 as [-> _]. simpl. by apply IH.
Qed.

(** A member whose key matches no field leaves the decoding as it is. *)
Lemma decodeMembers_skip (key : string) (val : JSON)
    (before after : list (string * JSON)) :
  findField equalFold fields key = None ->
  forall (v : T) (saved : option error),
    decodeMembers equalFold fields (before ++ (key, val) :: after) v saved
    = decodeMembers equalFold fields (before ++ after) v saved.
Proof.
  intros Hk. induction before as [|[k x] rest IH]; intros v saved; simpl.
  - by rewrite Hk.
  - destruct (findField equalFold fields k) as [f|]; [|apply IH].
    destruct x; apply IH.
Qed.

Lemma parseWith_skip (zero : T) (check : T -> result T) (key : string)
    (val : JSON) (before after : list (string * JSON)) :
  findField equalFold fields key = None ->
  parseWith equalFold fields zero check (JObject (before ++ (key, val) :: after))
  = parseWith equalFold fields zero check (JObject (before ++ after)).
Proof.
  intros Hk. unfold parseWith, Unmarshal.
  by rewrite decodeMembers_skip.
Qed.
End DecodeFacts.

(** ** Validation of the open input *)

Lemma checkWidgetOpenInput_ok (decoded parsed : WidgetOpenToolInput.t) :
  checkWidgetOpenInput decoded = OK parsed ->
  parsed = decoded
  /\ goIndex validTypes (WidgetOpenToolInput.WidgetType decoded) = true
  /\ (WidgetOpenToolInput.WidgetType decoded = "web" ->
      WidgetOpenToolInput.Url decoded <> "")
  /\ (WidgetOpenToolInput.SplitDirection decoded <> "" ->
      goIndex validDirections (WidgetOpenToolInput.SplitDirection decoded) = true
      /\ WidgetOpenToolInput.TargetWidget decoded <> "")
  /\ (WidgetOpenToolInput.Position decoded <> "" ->
      goIndex validPositions (WidgetOpenToolInput.Position decoded) = true).
Proof.
  unfold checkWidgetOpenInput.
  destruct (String.eqb_spec (WidgetOpenToolInput.WidgetType decoded) "");
    [done|].
  destruct (goIndex validTypes _) eqn:Hwt; simpl; [|done].
  destruct (String.eqb_spec (WidgetOpenToolInput.WidgetType decoded) "web") as [Hweb|Hweb];
    destruct (String.eqb_spec (WidgetOpenToolInput.Url decoded) ""); simpl; try done;
    destruct (String.eqb_spec (WidgetOpenToolInput.SplitDirection decoded) ""); simpl;
    destruct (goIndex validDirections _) eqn:Hsd; simpl; try done;
    destruct (String.eqb_spec (WidgetOpenToolInput.TargetWidget decoded) ""); simpl;
      try done;
    destruct (String.eqb_spec (WidgetOpenToolInput.Position decoded) ""); simpl;
    destruct (goIndex validPositions _) eqn:Hpos; simpl; try done;
    intros [= <-]; repeat split; try done; congruence.
Qed.

Lemma parseWith_ok {T : Type} (equalFold : string -> string -> bool)
    (fields : list (Field T)) (zero : T) (check : T -> result T)
    (input : JSON) (parsed : T) :
  parseWith equalFold fields zero check input = OK parsed ->
  exists decoded,
    Unmarshal equalFold fields input zero = OK decoded
    /\ check decoded = OK parsed.
Proof.
  unfold parseWith. intros H.
  destruct (Unmarshal equalFold fields input zero) as [d|e] eqn:E.
  - exists d. split; [done|]. by destruct input.
  - by destruct input.
Qed.

(** ** Reading traces *)

Lemma omap_cons_Some {A B : Type} (f : A -> option B) (x : A) (y : B)
    (l : list A) :
  f x = Some y -> omap f (x :: l) = y :: omap f l.
Proof. intros H. simpl. by rewrite H. Qed.

Lemma omap_cons_None {A B : Type} (f : A -> option B) (x : A) (l : list A) :
  f x = None -> omap f (x :: l) = omap f l.
Proof. intros H. simpl. by rewrite H. Qed.

Ltac trace_norm :=
  unfold createCalls, resolveCalls, queueCalls, deleteCalls, updateMetaCalls,
         resyncCalls, broadcasts in *;
  repeat first
    [ rewrite omap_app
    | erewrite omap_cons_None by reflexivity
    | erewrite omap_cons_Some by reflexivity ].

(** ** Running a program *)

Section RunFacts.
Context {World : Type}.
Variable handle : forall X : Type, Call X -> World -> X * World.

Lemma run_bind {A B : Type} (p : Prog A) (f : A -> Prog B) (w : World) :
  run handle (bind p f) w =
  let '(o, w1, t1) := run handle p w in
  match o with
  | Returned a =>
      let '(o2, w2, t2) := run handle (f a) w1 in (o2, w2, t1 ++ t2)
  | Panicked msg => (Panicked msg, w1, t1)
  end.
Proof.
  revert w. induction p as [a|msg|X c k IH]; intros w; simpl.
  - by destruct (run handle (f a) w) as [[o2 w2] t2].
  - done.
  - destruct (handle X c w) as [x w1]. rewrite IH.
    destruct (run handle (k x) w1) as [[o w2] t1].
    destruct o as [a|msg]; [|done].
    by destruct (run handle (f a) w2) as [[o2 w3] t2].
Qed.

(** A callback whose input does not parse returns the parse error at once:
    no collaborator is called and the state is untouched. *)
Lemma run_parse_error {A B : Type} (err : error) (k : A -> Prog (result B))
    (w : World) :
  run handle (bindE (Ret (Err err)) k) w = (Returned (Err err), w, []).
Proof. reflexivity. Qed.
End RunFacts.

(** ** The callbacks against any collaborators *)

Section AnyCollaborators.
Variable equalFold : string -> string -> bool.
Variable tabId : string.
Context {World : Type}.
Variable handle : forall X : Type, Call X -> World -> X * World.

Ltac prog_cbn H :=
  cbn [run bind bindE perform attempt] in H.

Ltac step H :=
  match type of H with
  | context [handle ?X ?c ?w] =>
      let r := fresh "r" in
      let w' := fresh "w" in
      let E := fresh "E" in
      destruct (handle X c w) as [r w'] eqn:E; prog_cbn H
  end.

Ltac step_ok H :=
  match type of H with
  | context [handle (result ?X) ?c ?w] =>
      let r := fresh "r" in
      let w' := fresh "w" in
      let E := fresh "E" in
      let e := fresh "err" in
      destruct (handle (result X) c w) as [[r|e] w'] eqn:E; prog_cbn H
  end.

(** C3: a successful [widget_close] has queued the Remove action for the
    resolved widget before it deleted the widget, each exactly once and
    next to each other in the record of calls; and a run in which queueing
    the Remove action fails makes no [DeleteBlock] call at all. *)
Theorem widget_close_remove_before_delete (input : JSON) (w w' : World)
    (o : Outcome (result Response)) (t : list Event) :
  run handle (widgetCloseCallback equalFold tabId input) w = (o, w', t) ->
  (forall resp, o = Returned (OK resp) ->
     exists parsed fullBlockId w0 w1 w2 w3 updates,
       parseWidgetCloseInput equalFold input = OK parsed
       /\ let remove := {| ActionType := LayoutActionDataType_Remove;
                           BlockId := fullBlockId;
                           TargetBlockId := "";
                           ActionPosition := "";
                           Focused := false |} in
          t = [ Ev ContextWithUpdates tt;
                Ev (ResolveBlockIdFromPrefix tabId
                      (WidgetCloseToolInput.WidgetId parsed)) (OK fullBlockId);
                Ev (QueueLayoutActionForTab tabId remove) (OK tt);
                Ev (DeleteBlock fullBlockId true) (OK tt);
                Ev ContextGetUpdatesRtn updates;
                Ev (SendUpdateEvents updates) tt ]
          /\ handle _ (QueueLayoutActionForTab tabId remove) w1 = (OK tt, w2)
          /\ handle _ (DeleteBlock fullBlockId true) w2 = (OK tt, w3)
          /\ handle _ (ResolveBlockIdFromPrefix tabId
                         (WidgetCloseToolInput.WidgetId parsed)) w0
             = (OK fullBlockId, w1))
  /\ (forall tab a err, In (tab, a, Err err) (queueCalls t) ->
        deleteCalls t = []
        /\ o = Returned (Err (Wrapf "failed to queue layout action" err))).
Proof.
  intros H. unfold widgetCloseCallback in H.
  destruct (parseWidgetCloseInput equalFold input) as [parsed|perr] eqn:Hp;
    prog_cbn H.
  2:{ inversion H; subst. split; [done|]. intros ? ? ? []. }
  step H. destruct r.
  step_ok H.
  2:{ inversion H; subst. split; [done|]. intros ? ? ? []. }
  step_ok H.
  2:{ inversion H; subst. split; [done|].
      intros tab a e [Hin|[]]. by inversion Hin; subst. }
  destruct r0.
  step_ok H.
  2:{ inversion H; subst. split; [done|].
      intros tab a e [Hin|[]]. inversion Hin. }
  destruct r0.
  step H. step H. destruct r1.
  inversion H; subst. split.
  - intros resp _. by eexists parsed, r, _, _, _, _, _.
  - intros tab a e [Hin|[]]. inversion Hin.
Qed.

Lemma openLayoutAction_plain (parsed : WidgetOpenToolInput.t) (blockData : Block) :
  WidgetOpenToolInput.SplitDirection parsed = "" ->
  openLayoutAction tabId parsed blockData
  = Ret (OK {| ActionType := LayoutActionDataType_Insert;
               BlockId := OID blockData;
               TargetBlockId := "";
               ActionPosition := "";
               Focused := true |}).
Proof. unfold openLayoutAction. by intros ->. Qed.

(** The layout step of [widget_open] only ever resolves the target. *)
Lemma openLayoutAction_calls (parsed : WidgetOpenToolInput.t)
    (blockData : Block) (w w' : World)
    (o : Outcome (result LayoutActionData)) (t : list Event) :
  run handle (openLayoutAction tabId parsed blockData) w = (o, w', t) ->
  createCalls t = [] /\ queueCalls t = [] /\ deleteCalls t = []
  /\ resyncCalls t = [] /\ broadcasts t = [] /\ updateMetaCalls t = [].
Proof.
  unfold openLayoutAction. intros H.
  destruct (negb _ && negb _); prog_cbn H.
  - step_ok H; by inversion H; subst.
  - by inversion H; subst.
Qed.

Lemma checkWidgetMoveInput_ok (decoded parsed : WidgetMoveToolInput.t) :
  checkWidgetMoveInput decoded = OK parsed ->
  parsed = decoded
  /\ WidgetMoveToolInput.WidgetId decoded <> ""
  /\ WidgetMoveToolInput.TargetWidgetId decoded <> ""
  /\ goIndex validDirections (WidgetMoveToolInput.Direction decoded) = true
  /\ (WidgetMoveToolInput.Position decoded <> "" ->
      goIndex validPositions (WidgetMoveToolInput.Position decoded) = true).
Proof.
  unfold checkWidgetMoveInput.
  destruct (String.eqb_spec (WidgetMoveToolInput.WidgetId decoded) ""); [done|].
  destruct (String.eqb_spec (WidgetMoveToolInput.TargetWidgetId decoded) "");
    [done|].
  destruct (String.eqb_spec (WidgetMoveToolInput.Direction decoded) ""); [done|].
  destruct (goIndex validDirections _) eqn:Hd; simpl; [|done].
  destruct (String.eqb_spec (WidgetMoveToolInput.Position decoded) ""); simpl;
    destruct (goIndex validPositions _) eqn:Hpos; simpl; try done;
    intros [= <-]; repeat split; try done; congruence.
Qed.

(** C6: a valid [widget_move] whose two ids resolve makes exactly one
    [QueueLayoutActionForTab] call; its action is MoveHorizontal for
    direction "horizontal" and MoveVertical for "vertical", carries the two
    resolved ids, the supplied position or "after" when none is given, and
    asks for focus; no block is created or deleted, no metadata is updated
    and no controller is started; when the queueing succeeds the callback
    reports success. *)
Theorem widget_move_single_action (input : JSON)
    (parsed : WidgetMoveToolInput.t) (w w0 w1 w2 : World)
    (fullBlockId targetBlockId : string) :
  parseWidgetMoveInput equalFold input = OK parsed ->
  handle _ ContextWithUpdates w = (tt, w0) ->
  handle _ (ResolveBlockIdFromPrefix tabId (WidgetMoveToolInput.WidgetId parsed)) w0
    = (OK fullBlockId, w1) ->
  handle _ (ResolveBlockIdFromPrefix tabId
              (WidgetMoveToolInput.TargetWidgetId parsed)) w1
    = (OK targetBlockId, w2) ->
  exists actionType position,
    (WidgetMoveToolInput.Direction parsed = "horizontal"
       /\ actionType = LayoutActionDataType_MoveHorizontal
     \/ WidgetMoveToolInput.Direction parsed = "vertical"
       /\ actionType = LayoutActionDataType_MoveVertical)
    /\ (WidgetMoveToolInput.Position parsed = "" /\ position = "after"
        \/ WidgetMoveToolInput.Position parsed <> ""
           /\ position = WidgetMoveToolInput.Position parsed
           /\ (position = "before" \/ position = "after"))
    /\ forall o w' t,
         run handle (widgetMoveCallback equalFold tabId input) w = (o, w', t) ->
         exists r,
           queueCalls t
           = [(tabId,
               {| ActionType := actionType;
                  BlockId := fullBlockId;
                  TargetBlockId := targetBlockId;
                  ActionPosition := position;
                  Focused := true |},
               r)]
           /\ createCalls t = [] /\ deleteCalls t = []
           /\ updateMetaCalls t = [] /\ resyncCalls t = []
           /\ (r = OK tt ->
               exists resp, o = Returned (OK resp)
                            /\ resp !! "success" = Some (JBool true)).
Proof.
  intros Hp Hctx Hsrc Htgt.
  destruct (parseWith_ok _ _ _ _ _ _ Hp) as (decoded & _ & Hck).
  apply checkWidgetMoveInput_ok in Hck as (-> & _ & _ & Hdir & Hpos).
  apply goIndex_validDirections in Hdir.
  eexists (if String.eqb (WidgetMoveToolInput.Direction decoded) "vertical"
           then LayoutActionDataType_MoveVertical
           else LayoutActionDataType_MoveHorizontal),
          (if String.eqb (WidgetMoveToolInput.Position decoded) "" then "after"
           else WidgetMoveToolInput.Position decoded).
  split; [|split].
  - destruct Hdir as [Hd|Hd]; rewrite Hd; [left|right]; done.
  - destruct (String.eqb_spec (WidgetMoveToolInput.Position decoded) "") as [He|Hne].
    + by left.
    + right. split; [done|]. split; [done|].
      by apply goIndex_validPositions, Hpos.
  - intros o w' t H. unfold widgetMoveCallback in H. rewrite Hp in H.
    prog_cbn H. rewrite Hctx in H. prog_cbn H.
    rewrite Hsrc in H. prog_cbn H. rewrite Htgt in H. prog_cbn H.
    step_ok H.
    + destruct r. step H. step H. destruct r0.
      inversion H; subst. eexists. repeat split; try done.
      intros _. eexists. split; [done|]. done.
    + inversion H; subst. eexists. by repeat split.
Qed.

Lemma parseWidgetOpenInput_ok (input : JSON) (parsed : WidgetOpenToolInput.t) :
  parseWidgetOpenInput equalFold input = OK parsed ->
  checkWidgetOpenInput parsed = OK parsed.
Proof.
  intros Hp. destruct (parseWith_ok _ _ _ _ _ _ Hp) as (decoded & _ & Hck).
  by destruct (checkWidgetOpenInput_ok _ _ Hck) as [-> _].
Qed.

(** C7: a [widget_open] payload that decodes with a split direction but an
    empty or absent [target_widget] never validates: the callback returns
    the validation error without calling any collaborator, so no block is
    created, no layout action is queued and the state is untouched.  With
    the split direction and the widget type taken from their enumerations,
    the error is a missing-field error: the one for [target_widget], unless
    the widget type itself or the url of a web widget is missing, which is
    reported first. *)
Theorem widget_open_split_requires_target (input : JSON)
    (decoded : WidgetOpenToolInput.t) :
  Unmarshal equalFold WidgetOpenToolInput.fields input WidgetOpenToolInput.zero
    = OK decoded ->
  WidgetOpenToolInput.SplitDirection decoded <> "" ->
  WidgetOpenToolInput.TargetWidget decoded = "" ->
  exists err,
    parseWidgetOpenInput equalFold input = Err err
    /\ (forall w : World,
          run handle (widgetOpenCallback equalFold tabId input) w
          = (Returned (Err err), w, []))
    /\ (goIndex validDirections (WidgetOpenToolInput.SplitDirection decoded) = true ->
      WidgetOpenToolInput.WidgetType decoded = ""
      \/ goIndex validTypes (WidgetOpenToolInput.WidgetType decoded) = true ->
      WidgetOpenToolInput.WidgetType decoded = ""
        /\ err = Errorf "widget_type is required"
      \/ WidgetOpenToolInput.WidgetType decoded = "web"
        /\ WidgetOpenToolInput.Url decoded = ""
        /\ err = Errorf "url is required for web widget"
      \/ goIndex validTypes (WidgetOpenToolInput.WidgetType decoded) = true
        /\ (WidgetOpenToolInput.WidgetType decoded = "web" ->
            WidgetOpenToolInput.Url decoded <> "")
        /\ err = Errorf "target_widget is required when split_direction is specified").
Proof.
intros Hdec Hsd Htw.
assert (Hparse : parseWidgetOpenInput equalFold input
                 = checkWidgetOpenInput decoded).
{ unfold parseWidgetOpenInput, parseWith. rewrite Hdec.
  destruct input; try done. simpl in Hdec. by injection Hdec as <-. }
assert (Hfail : exists err,
  checkWidgetOpenInput decoded = Err err
  /\ (goIndex validDirections (WidgetOpenToolInput.SplitDirection decoded) = true ->
      WidgetOpenToolInput.WidgetType decoded = ""
      \/ goIndex validTypes (WidgetOpenToolInput.WidgetType decoded) = true ->
      WidgetOpenToolInput.WidgetType decoded = ""
        /\ err = Errorf "widget_type is required"
      \/ WidgetOpenToolInput.WidgetType decoded = "web"
        /\ WidgetOpenToolInput.Url decoded = ""
        /\ err = Errorf "url is required for web widget"
      \/ goIndex validTypes (WidgetOpenToolInput.WidgetType decoded) = true
        /\ (WidgetOpenToolInput.WidgetType decoded = "web" ->
            WidgetOpenToolInput.Url decoded <> "")
        /\ err = Errorf "target_widget is required when split_direction is specified")).
{ unfold checkWidgetOpenInput. rewrite Htw, (eqb_empty_false _ Hsd). simpl.
  destruct (String.eqb_spec (WidgetOpenToolInput.WidgetType decoded) "") as [He|Hne].
  { eexists; split; [done|]. intros _ _. by left. }
  destruct (goIndex validTypes _) eqn:Hwt; simpl.
  2:{ eexists; split; [done|]. by intros _ [?|?]. }
  destruct (String.eqb_spec (WidgetOpenToolInput.WidgetType decoded) "web") as [Hw|Hw];
    destruct (String.eqb_spec (WidgetOpenToolInput.Url decoded) "") as [Hu|Hu]; simpl.
  1:{ eexists; split; [done|]. intros _ _. right; left. by repeat split. }
  all: destruct (goIndex validDirections _); simpl;
    eexists; (split; [done|]); intros Hd _; [|done];
    right; right; by repeat split. }
destruct Hfail as (err & Hck & Hkind).
exists err. rewrite Hparse, Hck. split; [done|]. split; [|done].
intros w. unfold widgetOpenCallback. rewrite Hparse, Hck. reflexivity.
Qed.

(** C10: a [widget_open] payload without split direction that is valid in
    its other fields validates whatever [target_widget] it carries (and
    with any position of the enumeration); the target is never resolved and
    the one action queued for the created block is a plain Insert that
    holds neither the target nor the position. *)
Theorem widget_open_target_ignored_without_split (input : JSON)
    (decoded : WidgetOpenToolInput.t) :
  Unmarshal equalFold WidgetOpenToolInput.fields input WidgetOpenToolInput.zero
    = OK decoded ->
  WidgetOpenToolInput.SplitDirection decoded = "" ->
  goIndex validTypes (WidgetOpenToolInput.WidgetType decoded) = true ->
  (WidgetOpenToolInput.WidgetType decoded = "web" ->
   WidgetOpenToolInput.Url decoded <> "") ->
  (WidgetOpenToolInput.Position decoded = ""
   \/ goIndex validPositions (WidgetOpenToolInput.Position decoded) = true) ->
  parseWidgetOpenInput equalFold input = OK decoded
  /\ forall (w w' : World) o t,
       run handle (widgetOpenCallback equalFold tabId input) w = (o, w', t) ->
       resolveCalls t = []
       /\ exists r,
            createCalls t = [(tabId, {| Meta := openMeta decoded |}, r)]
            /\ match r with
               | OK blockData =>
                   exists qr,
                     queueCalls t
                     = [(tabId,
                         {| ActionType := LayoutActionDataType_Insert;
                            BlockId := OID blockData;
                            TargetBlockId := "";
                            ActionPosition := "";
                            Focused := true |},
                         qr)]
               | Err _ => queueCalls t = []
               end.
Proof.
  intros Hdec Hsd Hwt Hurl Hpos.
  assert (Hparse : parseWidgetOpenInput equalFold input = OK decoded).
  { unfold parseWidgetOpenInput, parseWith. rewrite Hdec.
    assert (Hck : checkWidgetOpenInput decoded = OK decoded).
    { unfold checkWidgetOpenInput. rewrite Hsd, Hwt. simpl.
      destruct (String.eqb_spec (WidgetOpenToolInput.WidgetType decoded) "") as [He|Hne].
      { rewrite He in Hwt. by vm_compute in Hwt. }
      destruct (String.eqb_spec (WidgetOpenToolInput.WidgetType decoded) "web") as [Hw|Hw];
        simpl.
      - rewrite (eqb_empty_false _ (Hurl Hw)).
        destruct Hpos as [-> | ->]; [done|]. by rewrite andb_false_r.
      - destruct Hpos as [-> | ->]; [done|]. by rewrite andb_false_r. }
    rewrite Hck. destruct input; try done.
    simpl in Hdec. injection Hdec as <-. by vm_compute in Hwt. }
  split; [done|].
  intros w w' o t H. unfold widgetOpenCallback in H. rewrite Hparse in H.
  prog_cbn H. step H. destruct r.
  step_ok H.
  2:{ inversion H; subst. split; [done|]. by eexists. }
  rewrite (openLayoutAction_plain _ _ Hsd) in H. prog_cbn H.
  step_ok H.
  2:{ inversion H; subst. split; [done|]. eexists. split; [done|]. by eexists. }
  destruct r0.
  destruct (String.eqb _ "term"); prog_cbn H.
  - step_ok H.
    2:{ inversion H; subst. split; [done|]. eexists. split; [done|]. by eexists. }
    step H. step H. unfold openResponse in H.
    destruct (String.length (OID r) <? 8)%nat; prog_cbn H;
      inversion H; subst; (split; [done|]); eexists; (split; [done|]); by eexists.
  - step H. step H. unfold openResponse in H.
    destruct (String.length (OID r) <? 8)%nat; prog_cbn H;
      inversion H; subst; (split; [done|]); eexists; (split; [done|]); by eexists.
Qed.

(** [s[:m]] has [m] bytes when [s] has at least [m]. *)
Lemma length_substring_prefix (m : nat) (s : string) :
  m <= String.length s -> String.length (String.substring 0 m s) = m.
Proof.
  revert s. induction m as [|m IH]; intros s Hm.
  - by destruct s.
  - destruct s as [|c s]; simpl in *; [lia|]. rewrite IH; lia.
Qed.

Lemma openMeta_view (parsed : WidgetOpenToolInput.t) :
  openMeta parsed !! "view" = Some (WidgetOpenToolInput.WidgetType parsed).
Proof.
  unfold openMeta.
  repeat match goal with
         | |- context [if ?b then _ else _] => destruct b
         end;
    by simplify_map_eq.
Qed.

(** C5: for a valid [widget_open] without split direction, a successful
    execution has created exactly one block, with the metadata built for
    the widget type, has queued exactly one layout action, an Insert for
    the id of that block with focus requested, and returns success=true,
    widget_id = the first 8 bytes of the id and full_id = the id.  Such an
    execution is what happens whenever the collaborators called report no
    error and the id has at least 8 bytes. *)
Theorem widget_open_plain_insert (input : JSON)
    (parsed : WidgetOpenToolInput.t) (w : World) :
  parseWidgetOpenInput equalFold input = OK parsed ->
  WidgetOpenToolInput.SplitDirection parsed = "" ->
  (forall resp w' t,
     run handle (widgetOpenCallback equalFold tabId input) w
     = (Returned (OK resp), w', t) ->
     exists blockData,
       createCalls t = [(tabId, {| Meta := openMeta parsed |}, OK blockData)]
       /\ openMeta parsed !! "view"
          = Some (WidgetOpenToolInput.WidgetType parsed)
       /\ queueCalls t
          = [(tabId,
              {| ActionType := LayoutActionDataType_Insert;
                 BlockId := OID blockData;
                 TargetBlockId := "";
                 ActionPosition := "";
                 Focused := true |},
              OK tt)]
       /\ deleteCalls t = [] /\ updateMetaCalls t = []
       /\ resp !! "success" = Some (JBool true)
       /\ resp !! "widget_id"
          = Some (JString (String.substring 0 8 (OID blockData)))
       /\ String.length (String.substring 0 8 (OID blockData)) = 8
       /\ resp !! "full_id" = Some (JString (OID blockData)))
  /\ (forall blockData w1 w2 w3,
        handle _ (CreateBlock tabId {| Meta := openMeta parsed |})
               (handle _ ContextWithUpdates w).2
        = (OK blockData, w1) ->
        handle _ (QueueLayoutActionForTab tabId
                    {| ActionType := LayoutActionDataType_Insert;
                       BlockId := OID blockData;
                       TargetBlockId := "";
                       ActionPosition := "";
                       Focused := true |}) w1
        = (OK tt, w2) ->
        (if String.eqb (WidgetOpenToolInput.WidgetType parsed) "term"
         then handle _ (ResyncController tabId (OID blockData) false) w2
              = (OK tt, w3)
         else w3 = w2) ->
        8 <= String.length (OID blockData) ->
        exists resp w' t,
          run handle (widgetOpenCallback equalFold tabId input) w
          = (Returned (OK resp), w', t)).
Proof.
  intros Hp Hsd. split.
  - intros resp w' t H. unfold widgetOpenCallback in H. rewrite Hp in H.
    prog_cbn H. step H. destruct r.
    step_ok H; [|by inversion H].
    rewrite (openLayoutAction_plain _ _ Hsd) in H. prog_cbn H.
    step_ok H; [|by inversion H]. destruct r0.
    assert (Hfin : forall w5 u (x : unit) tl,
      (let '(o, w6, t0) := run handle (openResponse r) w5 in
       (o, w6, Ev (SendUpdateEvents u) x :: t0)) = (Returned (OK resp), w', tl) ->
      tl = [Ev (SendUpdateEvents u) x]
      /\ 8 <= String.length (OID r)
      /\ resp = {[ "success" := JBool true;
                   "widget_id" := JString (String.substring 0 8 (OID r));
                   "full_id" := JString (OID r) ]}).
    { intros w5 u x tl Hr. unfold openResponse in Hr.
      destruct (Nat.ltb_spec (String.length (OID r)) 8); prog_cbn Hr;
        inversion Hr; subst. by repeat split. }
    destruct (String.eqb _ "term"); prog_cbn H.
    + step_ok H; [|by inversion H]. destruct r0. step H. step H.
      destruct (run handle (openResponse r) w5) as [[o6 w6] t6] eqn:Er.
      injection H as -> -> <-.
      destruct (Hfin w5 r0 r1 (Ev (SendUpdateEvents r0) r1 :: t6)) as (Ht & Hlen & ->).
      { by rewrite Er. }
      injection Ht as ->. exists r.
      repeat split; try done; [apply openMeta_view|].
      by apply length_substring_prefix.
    + step H. step H.
      destruct (run handle (openResponse r) w4) as [[o6 w6] t6] eqn:Er.
      injection H as -> -> <-.
      destruct (Hfin w4 r0 r1 (Ev (SendUpdateEvents r0) r1 :: t6)) as (Ht & Hlen & ->).
      { by rewrite Er. }
      injection Ht as ->. exists r.
      repeat split; try done; [apply openMeta_view|].
      by apply length_substring_prefix.
  - intros blockData w1 w2 w3 Hcreate Hqueue Hresync Hlen.
    unfold widgetOpenCallback. rewrite Hp.
    cbn [run bind bindE perform attempt].
    destruct (handle _ ContextWithUpdates w) as [[] w0].
    simpl in Hcreate. cbn [run bind bindE perform attempt].
    rewrite Hcreate. cbn [run bind bindE perform attempt].
    rewrite (openLayoutAction_plain _ _ Hsd).
    cbn [run bind bindE perform attempt].
    rewrite Hqueue. cbn [run bind bindE perform attempt].
    assert (Hresp : openResponse blockData
                    = Ret (OK {[ "success" := JBool true;
                                 "widget_id" := JString (String.substring 0 8 (OID blockData));
                                 "full_id" := JString (OID blockData) ]})).
    { unfold openResponse.
      destruct (Nat.ltb_spec (String.length (OID blockData)) 8); [lia|done]. }
    destruct (String.eqb _ "term"); cbn [run bind bindE perform attempt].
    + rewrite Hresync. cbn [run bind bindE perform attempt].
      destruct (handle _ ContextGetUpdatesRtn w3) as [u w4].
      cbn [run bind bindE perform attempt].
      destruct (handle _ (SendUpdateEvents u) w4) as [[] w5].
      rewrite Hresp. cbn [run]. by eexists _, _, _.
    + destruct (handle _ ContextGetUpdatesRtn w2) as [u w4].
      cbn [run bind bindE perform attempt].
      destruct (handle _ (SendUpdateEvents u) w4) as [[] w5].
      rewrite Hresp. cbn [run]. by eexists _, _, _.
Qed.

(** The last statement of [widget_open]: with an id of fewer than 8 bytes
    the slice panics, otherwise the result map is returned. *)
Lemma run_openResponse (blockData : Block) (w : World) :
  run handle (openResponse blockData) w
  = if (String.length (OID blockData) <? 8)%nat
    then (Panicked "slice bounds out of range", w, [])
    else (Returned
            (OK {[ "success" := JBool true;
                   "widget_id" := JString (String.substring 0 8 (OID blockData));
                   "full_id" := JString (OID blockData) ]}), w, []).
Proof. unfold openResponse. by destruct (_ <? _)%nat. Qed.

(** C9: a successful [widget_open] returns as widget_id the first 8 bytes of
    the id [CreateBlock] gave, and that id has at least 8 bytes.  Nothing
    checks the length before the slice: when [CreateBlock] gives a shorter
    id and the calls that follow report no error, the block is created, its
    layout action queued and the updates sent, and then the callback panics;
    a panic happens in no other way.  With an id of at least 8 bytes the
    same run, once the updates are sent, does return: success=true, the
    first 8 bytes of the id as widget_id and the id as full_id. *)
Theorem widget_open_short_id_slice (input : JSON) (w w' : World)
    (o : Outcome (result Response)) (t : list Event) :
  run handle (widgetOpenCallback equalFold tabId input) w = (o, w', t) ->
  (forall resp, o = Returned (OK resp) ->
     exists blockDef blockData,
       createCalls t = [(tabId, blockDef, OK blockData)]
       /\ 8 <= String.length (OID blockData)
       /\ resp !! "widget_id"
          = Some (JString (String.substring 0 8 (OID blockData)))
       /\ resp !! "full_id" = Some (JString (OID blockData)))
  /\ (forall blockDef blockData,
        createCalls t = [(tabId, blockDef, OK blockData)] ->
        String.length (OID blockData) < 8 ->
        broadcasts t <> [] ->
        o = Panicked "slice bounds out of range")
  /\ (forall blockDef blockData,
        createCalls t = [(tabId, blockDef, OK blockData)] ->
        8 <= String.length (OID blockData) ->
        broadcasts t <> [] ->
        o = Returned
              (OK {[ "success" := JBool true;
                     "widget_id" := JString (String.substring 0 8 (OID blockData));
                     "full_id" := JString (OID blockData) ]}))
  /\ (forall msg, o = Panicked msg ->
        exists blockDef blockData a updates,
          createCalls t = [(tabId, blockDef, OK blockData)]
          /\ String.length (OID blockData) < 8
          /\ queueCalls t = [(tabId, a, OK tt)]
          /\ broadcasts t = [updates]).
Proof.
  intros H. unfold widgetOpenCallback in H.
  destruct (parseWidgetOpenInput equalFold input) as [parsed|perr];
    prog_cbn H.
  2:{ by inversion H; subst. }
  step H. destruct r.
  step_ok H.
  2:{ by inversion H; subst. }
  unfold bindE in H. rewrite run_bind in H.
  destruct (run handle (openLayoutAction tabId parsed r) w1)
    as [[oa wa] ta] eqn:Ea.
  destruct (openLayoutAction_calls _ _ _ _ _ _ Ea)
    as (Hc & Hq & Hd & Hr & Hb & Hu).
  assert (Hpanic : forall msg, oa <> Panicked msg).
  { intros msg ->. unfold openLayoutAction in Ea.
    destruct (negb _ && negb _); prog_cbn Ea; [|by inversion Ea].
    step_ok Ea; by inversion Ea. }
  destruct oa as [[a|aerr]|msg]; [| |by destruct (Hpanic msg)]; prog_cbn H.
  2:{ injection H as <- <- <-. trace_norm. rewrite Hc, Hb. simpl.
      split; [done|]. split; [by intros ? ? _ _ []|].
      split; [|done]. by intros ? ? _ _ []. }
  assert (Htail : forall w5 u (x : unit) o5 w6 t5,
    (let '(o, w6, t0) := run handle (openResponse r) w5 in
     (o, w6, Ev (SendUpdateEvents u) x :: t0)) = (o5, w6, t5) ->
    t5 = [Ev (SendUpdateEvents u) x]
    /\ ((String.length (OID r) < 8 /\ o5 = Panicked "slice bounds out of range")
        \/ (8 <= String.length (OID r)
            /\ o5 = Returned
                      (OK {[ "success" := JBool true;
                             "widget_id" := JString (String.substring 0 8 (OID r));
                             "full_id" := JString (OID r) ]})))).
  { intros w5 u x o5 w6 t5 Hr'. rewrite run_openResponse in Hr'.
    destruct (Nat.ltb_spec (String.length (OID r)) 8);
      injection Hr' as <- <- <-; split; auto. }
  step_ok H.
  2:{ injection H as <- <- <-. trace_norm. rewrite Hc, Hb. simpl.
      split; [done|]. split; [by intros ? ? _ _ []|].
      split; [|done]. by intros ? ? _ _ []. }
  destruct r0.
  destruct (String.eqb _ "term"); prog_cbn H.
  - step_ok H.
    2:{ injection H as <- <- <-. trace_norm. rewrite Hc, Hb. simpl.
        split; [done|]. split; [by intros ? ? _ _ []|].
        split; [|done]. by intros ? ? _ _ []. }
    destruct r0. step H. step H.
    destruct (run handle (openResponse r) w5) as [[o6 w6] t6] eqn:Er.
    destruct (Htail w5 r0 r1 o6 w6 (Ev (SendUpdateEvents r0) r1 :: t6))
      as (Ht & Hcase); [by rewrite Er|].
    injection Ht as ->. injection H as <- <- <-.
    trace_norm. rewrite Hc, Hb, Hq. simpl.
    destruct Hcase as [[Hlt ->]|[Hge ->]].
    + split; [done|]. split; [done|].
      split; [intros ? ? [= _ <-] Hge _; lia|].
      intros msg _. by eexists _, r, _, _.
    + split; [|split; [|split; [|done]]].
      * intros resp [= <-]. by eexists _, r.
      * intros ? ? [= _ <-] Hlt. lia.
      * by intros ? ? [= _ <-] _ _.
  - step H. step H.
    destruct (run handle (openResponse r) w4) as [[o6 w6] t6] eqn:Er.
    destruct (Htail w4 r0 r1 o6 w6 (Ev (SendUpdateEvents r0) r1 :: t6))
      as (Ht & Hcase); [by rewrite Er|].
    injection Ht as ->. injection H as <- <- <-.
    trace_norm. rewrite Hc, Hb, Hq. simpl.
    destruct Hcase as [[Hlt ->]|[Hge ->]].
    + split; [done|]. split; [done|].
      split; [intros ? ? [= _ <-] Hge _; lia|].
      intros msg _. by eexists _, r, _, _.
    + split; [|split; [|split; [|done]]].
      * intros resp [= <-]. by eexists _, r.
      * intros ? ? [= _ <-] Hlt. lia.
      * by intros ? ? [= _ <-] _ _.
Qed.

(** C1, as amended: when the input validates, [CreateBlock] succeeds and
    the queueing of the layout action fails, the callback returns the error
    "failed to add widget to layout" wrapping the cause and stops there: it
    makes no [DeleteBlock] call, starts no controller and sends no update,
    so the final state is the one the failed queueing call left, with the
    block created. *)
Theorem widget_open_queue_failure_keeps_block (input : JSON)
    (parsed : WidgetOpenToolInput.t) (w w1 w2 w3 : World)
    (blockData : Block) (layoutAction : LayoutActionData)
    (tl : list Event) (err : error) :
  parseWidgetOpenInput equalFold input = OK parsed ->
  handle _ (CreateBlock tabId {| Meta := openMeta parsed |})
         (handle _ ContextWithUpdates w).2
  = (OK blockData, w1) ->
  run handle (openLayoutAction tabId parsed blockData) w1
  = (Returned (OK layoutAction), w2, tl) ->
  handle _ (QueueLayoutActionForTab tabId layoutAction) w2 = (Err err, w3) ->
  exists t,
    run handle (widgetOpenCallback equalFold tabId input) w
    = (Returned (Err (Wrapf "failed to add widget to layout" err)), w3, t)
    /\ createCalls t = [(tabId, {| Meta := openMeta parsed |}, OK blockData)]
    /\ queueCalls t = [(tabId, layoutAction, Err err)]
    /\ deleteCalls t = [] /\ resyncCalls t = [] /\ broadcasts t = [].
Proof.
  intros Hp Hcreate Hlayout Hqueue.
  destruct (openLayoutAction_calls _ _ _ _ _ _ Hlayout)
    as (Hc & Hq & Hd & Hr & Hb & Hu).
  unfold widgetOpenCallback. rewrite Hp.
  cbn [run bind bindE perform attempt].
  destruct (handle _ ContextWithUpdates w) as [[] w0].
  simpl in Hcreate. rewrite Hcreate. cbn [run bind bindE perform attempt].
  unfold bindE. rewrite run_bind, Hlayout. cbn [run bind perform attempt].
  rewrite Hqueue. cbn [run bind bindE perform attempt].
  eexists. split; [reflexivity|].
  trace_norm. by rewrite Hc, Hq, Hd, Hr, Hb.
Qed.

(** C4: for a valid [widget_open], the block is created with the metadata
    [openMeta] builds, and that map holds, next to the view, for type term
    the controller marker and a connection only when the supplied one is
    neither empty nor "local"; for type web the url; for type preview the
    file only when one is given; for type cpuplot the connection only when
    one is given; and nothing else. *)
Theorem widget_open_metadata_by_type (input : JSON)
    (parsed : WidgetOpenToolInput.t) :
  parseWidgetOpenInput equalFold input = OK parsed ->
  let wt := WidgetOpenToolInput.WidgetType parsed in
  let conn := WidgetOpenToolInput.Connection parsed in
  let file := WidgetOpenToolInput.File parsed in
  let meta := openMeta parsed in
  (forall (w w' : World) o t,
     run handle (widgetOpenCallback equalFold tabId input) w = (o, w', t) ->
     exists r, createCalls t = [(tabId, {| Meta := meta |}, r)])
  /\ meta !! "view" = Some wt
  /\ (forall key, key <> "view" -> key <> "controller" -> key <> "connection" ->
                  key <> "url" -> key <> "file" -> meta !! key = None)
  /\ (wt = "term"
        /\ meta !! "controller" = Some "shell"
        /\ (conn <> "" -> conn <> "local" -> meta !! "connection" = Some conn)
        /\ (conn = "" \/ conn = "local" -> meta !! "connection" = None)
        /\ meta !! "url" = None /\ meta !! "file" = None
      \/ wt = "web"
        /\ meta !! "url" = Some (WidgetOpenToolInput.Url parsed)
        /\ WidgetOpenToolInput.Url parsed <> ""
        /\ meta !! "controller" = None /\ meta !! "connection" = None
        /\ meta !! "file" = None
      \/ wt = "preview"
        /\ (file <> "" -> meta !! "file" = Some file)
        /\ (file = "" -> meta !! "file" = None)
        /\ meta !! "controller" = None /\ meta !! "connection" = None
        /\ meta !! "url" = None
      \/ wt = "cpuplot"
        /\ (conn <> "" -> meta !! "connection" = Some conn)
        /\ (conn = "" -> meta !! "connection" = None)
        /\ meta !! "controller" = None /\ meta !! "url" = None
        /\ meta !! "file" = None).
Proof.
  intros Hp wt conn file meta.
  pose proof (parseWidgetOpenInput_ok _ _ Hp) as Hck.
  apply checkWidgetOpenInput_ok in Hck as (_ & Hwt & Hurl & _ & _).
  apply goIndex_validTypes in Hwt.
  split; [|split; [apply openMeta_view|split]].
  - intros w w' o t H. unfold widgetOpenCallback in H. rewrite Hp in H.
    prog_cbn H. step H. destruct r.
    destruct (handle _ (CreateBlock tabId {| Meta := openMeta parsed |}) w0)
      as [[bd|cerr] w1] eqn:Ec; prog_cbn H.
    2:{ injection H as <- <- <-. by eexists. }
    unfold bindE in H. rewrite run_bind in H.
    destruct (run handle (openLayoutAction tabId parsed bd) w1)
      as [[oa wa] ta] eqn:Ea.
    destruct (openLayoutAction_calls _ _ _ _ _ _ Ea) as (Hc & _).
    destruct oa as [[a|aerr]|msg]; prog_cbn H.
    2,3: injection H as <- <- <-; trace_norm; rewrite Hc; by eexists.
    step_ok H.
    2:{ injection H as <- <- <-. trace_norm. rewrite Hc. by eexists. }
    destruct (String.eqb _ "term"); prog_cbn H.
    + step_ok H.
      2:{ injection H as <- <- <-. trace_norm. rewrite Hc. by eexists. }
      step H. step H. rewrite run_openResponse in H.
      destruct (_ <? _)%nat; injection H as <- <- <-; trace_norm;
        rewrite Hc; by eexists.
    + step H. step H. rewrite run_openResponse in H.
      destruct (_ <? _)%nat; injection H as <- <- <-; trace_norm;
        rewrite Hc; by eexists.
  - intros key H1 H2 H3 H4 H5. subst meta. unfold openMeta.
    repeat match goal with
           | |- context [if ?b then _ else _] => destruct b
           end;
      by simplify_map_eq.
  - subst wt conn file meta. unfold openMeta.
    destruct Hwt as [Hw|[Hw|[Hw|Hw]]]; rewrite Hw;
      cbn [String.eqb Ascii.eqb Bool.eqb].
    + left. split; [done|].
      destruct (String.eqb_spec (WidgetOpenToolInput.Connection parsed) "")
        as [He|Hne]; simpl.
      { rewrite He. repeat split; try done; try by simplify_map_eq. }
      destruct (String.eqb_spec (WidgetOpenToolInput.Connection parsed) "local")
        as [Hl|Hnl]; simpl.
      { rewrite Hl. repeat split; try done; try by simplify_map_eq. }
      repeat split; try by simplify_map_eq.
      by intros [?|?].
    + right; left. split; [done|].
      repeat split; try by simplify_map_eq. by apply Hurl.
    + right; right; left. split; [done|].
      destruct (String.eqb_spec (WidgetOpenToolInput.File parsed) "")
        as [He|Hne]; simpl;
        repeat split; try done; by simplify_map_eq.
    + right; right; right. split; [done|].
      destruct (String.eqb_spec (WidgetOpenToolInput.Connection parsed) "")
        as [He|Hne]; simpl;
        repeat split; try done; by simplify_map_eq.
Qed.

(** [widget_rename] never touches the layout queue nor creates or deletes a
    block, whatever the collaborators answer. *)
Lemma widget_rename_calls (quote : string -> string) (input : JSON)
    (w w' : World) (o : Outcome (result Response)) (t : list Event) :
  run handle (widgetRenameCallback equalFold tabId quote input) w = (o, w', t) ->
  queueCalls t = [] /\ createCalls t = [] /\ deleteCalls t = []
  /\ resyncCalls t = [].
Proof.
  intros H. unfold widgetRenameCallback in H.
  destruct (parseWidgetRenameInput equalFold input) as [parsed|perr];
    prog_cbn H; [|by inversion H; subst].
  step H. step_ok H; [|by inversion H; subst].
  step_ok H; [|by inversion H; subst].
  step H. step H. step H. by inversion H; subst.
Qed.
End AnyCollaborators.

(** ** Extra fields *)

(** The struct fields of each tool are the properties its schema declares. *)
Lemma fields_are_properties :
  map jsonName WidgetOpenToolInput.fields = properties widgetOpenSchema
  /\ map jsonName WidgetCloseToolInput.fields = properties widgetCloseSchema
  /\ map jsonName WidgetRenameToolInput.fields = properties widgetRenameSchema
  /\ map jsonName WidgetMoveToolInput.fields = properties widgetMoveSchema.
Proof. by repeat split. Qed.

(** C2, as amended: the four tools declare a closed schema
    ([additionalProperties] is false), but their parsers do not enforce it: a
    member of the payload whose key matches none of the declared fields,
    neither exactly nor ignoring case, is skipped, and parsing gives what it
    gives for the payload without that member. *)
Theorem unknown_fields_are_skipped (equalFold : string -> string -> bool)
    (key : string) (val : JSON) (before after : list (string * JSON)) :
  (additionalProperties widgetOpenSchema = false
   /\ additionalProperties widgetCloseSchema = false
   /\ additionalProperties widgetRenameSchema = false
   /\ additionalProperties widgetMoveSchema = false)
  /\ (knownKey equalFold widgetOpenSchema key = false ->
      parseWidgetOpenInput equalFold (JObject (before ++ (key, val) :: after))
      = parseWidgetOpenInput equalFold (JObject (before ++ after)))
  /\ (knownKey equalFold widgetCloseSchema key = false ->
      parseWidgetCloseInput equalFold (JObject (before ++ (key, val) :: after))
      = parseWidgetCloseInput equalFold (JObject (before ++ after)))
  /\ (knownKey equalFold widgetRenameSchema key = false ->
      parseWidgetRenameInput equalFold (JObject (before ++ (key, val) :: after))
      = parseWidgetRenameInput equalFold (JObject (before ++ after)))
  /\ (knownKey equalFold widgetMoveSchema key = false ->
      parseWidgetMoveInput equalFold (JObject (before ++ (key, val) :: after))
      = parseWidgetMoveInput equalFold (JObject (before ++ after))).
Proof.
  split; [by repeat split|].
  repeat split; intros Hk; apply parseWith_skip, findField_unknown; exact Hk.
Qed.

(** ** The callbacks against the store *)

Lemma meta_union_twice (m old : gmap string string) : m ∪ (m ∪ old) = m ∪ old.
Proof. by rewrite (assoc_L (∪)), (idemp_L (∪)). Qed.

Lemma storeResolve_tabBlocks (tabId prefix : string) (s s' : Store) :
  tabBlocks s' = tabBlocks s ->
  storeResolve tabId prefix s' = storeResolve tabId prefix s.
Proof. unfold storeResolve. by intros ->. Qed.

Section RenameOnStore.
Variable equalFold : string -> string -> bool.
Variable quote : string -> string.
Variable tabId : string.
Variable f : Faults.

(** What one [widget_rename] does to the store: it succeeds exactly when
    the id resolves, the update is not made to fail and the block is there,
    and then writes the display name over the metadata of that block;
    otherwise it returns an error and leaves all metadata as it was.  The
    widgets of the tabs and the layout queues are never touched. *)
Lemma run_rename_store (input : JSON) (parsed : WidgetRenameToolInput.t)
    (s s1 : Store) (o1 : Outcome (result Response)) (t1 : list Event) :
  parseWidgetRenameInput equalFold input = OK parsed ->
  run (storeHandle f) (widgetRenameCallback equalFold tabId quote input) s
    = (o1, s1, t1) ->
  tabBlocks s1 = tabBlocks s /\ layoutQueue s1 = layoutQueue s
  /\ match storeResolve tabId (WidgetRenameToolInput.WidgetId parsed) s,
           updateErr f with
     | OK fullBlockId, None =>
         match blockMeta s !! fullBlockId with
         | Some old =>
             o1 = Returned
                    (OK {[ "success" := JBool true;
                           "message" :=
                             JString ("widget "
                                      +:+ WidgetRenameToolInput.WidgetId parsed
                                      +:+ " renamed to "
                                      +:+ quote (WidgetRenameToolInput.Name parsed)) ]})
             /\ blockMeta s1
                = <[ fullBlockId :=
                       {[ "display:name" := WidgetRenameToolInput.Name parsed ]}
                         ∪ old ]> (blockMeta s)
         | None => (exists err, o1 = Returned (Err err))
                   /\ blockMeta s1 = blockMeta s
         end
     | _, _ => (exists err, o1 = Returned (Err err))
               /\ blockMeta s1 = blockMeta s
     end.
Proof.
  intros Hp H. unfold widgetRenameCallback in H. rewrite Hp in H.
  cbn -[storeResolve storeUpdateObjectMeta storeSend] in H.
  rewrite (storeResolve_tabBlocks _ _ s) in H by done.
  destruct (storeResolve tabId _ s) as [oid|rerr] eqn:Er;
    cbn -[storeResolve storeUpdateObjectMeta storeSend] in H.
  2:{ injection H as <- <- <-. repeat split; try done. by eexists. }
  unfold storeUpdateObjectMeta in H. cbn [blockMeta ORefOID OType MakeORef] in H.
  destruct (updateErr f) as [uerr|].
  { cbn in H. injection H as <- <- <-. repeat split; try done. by eexists. }
  destruct (blockMeta s !! oid) as [old|] eqn:Eold.
  2:{ cbn in H. injection H as <- <- <-. repeat split; try done. by eexists. }
  change (String.eqb OType_Block OType_Block) with true in H.
  cbn -[union insert] in H. injection H as <- <- <-.
  by repeat split.
Qed.

(** C8: against the store, running the same valid [widget_rename] a second
    time leaves all widget metadata as the first run left it, with the same
    outcome; neither run makes a [QueueLayoutActionForTab] call, and the
    layout queues and the widgets of the tabs stay as they were.  When the
    run succeeds, the metadata of the resolved widget is what it was with
    the display name set to the new name. *)
Theorem widget_rename_idempotent (input : JSON)
    (parsed : WidgetRenameToolInput.t) (s s1 s2 : Store)
    (o1 o2 : Outcome (result Response)) (t1 t2 : list Event) :
  parseWidgetRenameInput equalFold input = OK parsed ->
  run (storeHandle f) (widgetRenameCallback equalFold tabId quote input) s
    = (o1, s1, t1) ->
  run (storeHandle f) (widgetRenameCallback equalFold tabId quote input) s1
    = (o2, s2, t2) ->
  blockMeta s2 = blockMeta s1
  /\ queueCalls t1 = [] /\ queueCalls t2 = []
  /\ layoutQueue s1 = layoutQueue s /\ layoutQueue s2 = layoutQueue s
  /\ tabBlocks s2 = tabBlocks s
  /\ (forall resp, o1 = Returned (OK resp) ->
        o2 = Returned (OK resp)
        /\ exists fullBlockId old,
             storeResolve tabId (WidgetRenameToolInput.WidgetId parsed) s
               = OK fullBlockId
             /\ blockMeta s !! fullBlockId = Some old
             /\ blockMeta s2 !! fullBlockId
                = Some (<[ "display:name" := WidgetRenameToolInput.Name parsed ]> old)).
Proof.
  intros Hp H1 H2.
  destruct (widget_rename_calls _ _ _ _ _ _ _ _ _ H1) as (Hq1 & _).
  destruct (widget_rename_calls _ _ _ _ _ _ _ _ _ H2) as (Hq2 & _).
  destruct (run_rename_store _ _ _ _ _ _ Hp H1) as (Ht1 & Hl1 & Hm1).
  destruct (run_rename_store _ _ _ _ _ _ Hp H2) as (Ht2 & Hl2 & Hm2).
  rewrite (storeResolve_tabBlocks _ _ s) in Hm2 by done.
  assert (Hrest : queueCalls t1 = [] /\ queueCalls t2 = []
                  /\ layoutQueue s1 = layoutQueue s
                  /\ layoutQueue s2 = layoutQueue s
                  /\ tabBlocks s2 = tabBlocks s).
  { repeat split; congruence. }
  destruct Hrest as (R1 & R2 & R3 & R4 & R5).
  destruct (storeResolve tabId _ s) as [oid|rerr] eqn:Er.
  2:{ destruct Hm1 as [[e1 ->] Hb1], Hm2 as [_ Hb2].
      split; [done|]. do 5 (split; [done|]). by intros resp [=]. }
  destruct (updateErr f) as [uerr|].
  { destruct Hm1 as [[e1 ->] Hb1], Hm2 as [_ Hb2].
    split; [done|]. do 5 (split; [done|]). by intros resp [=]. }
  destruct (blockMeta s !! oid) as [old|] eqn:Eold.
  2:{ destruct Hm1 as [[e1 ->] Hb1]. rewrite Hb1, Eold in Hm2.
      destruct Hm2 as [_ Hb2].
      split; [congruence|]. do 5 (split; [done|]). by intros resp [=]. }
  destruct Hm1 as [-> Hb1]. rewrite Hb1, lookup_insert_eq in Hm2.
  destruct Hm2 as [-> Hb2].
  rewrite meta_union_twice, insert_insert_eq in Hb2.
  split; [congruence|]. do 5 (split; [done|]).
  intros resp [= <-]. split; [done|]. exists oid, old.
  split; [done|]. split; [done|].
  by rewrite Hb2, lookup_insert_eq, insert_union_singleton_l.
Qed.
End RenameOnStore.

(** ** Facts about the second copy of the open tool *)

Section LegacyFacts.
Variable equalFold : string -> string -> bool.
Variable tabId : string.
Context {World : Type}.
Variable handle : forall X : Type, Call X -> World -> X * World.

(** The second copy slices the id the same way: success means an id of at
    least 8 bytes, and a shorter id ends in a panic after the block is
    created, queued for insertion and the updates are sent.  Once the
    updates are sent the length of the id alone decides: a panic below 8
    bytes, and from 8 bytes on the answer with the first 8 bytes as
    widget_id. *)
Lemma legacy_open_short_id_slice (input : JSON) (w w' : World)
    (o : Outcome (result Response)) (t : list Event) :
  run handle (Legacy.widgetOpenCallback equalFold tabId input) w = (o, w', t) ->
  (forall resp, o = Returned (OK resp) ->
     exists blockDef blockData,
       createCalls t = [(tabId, blockDef, OK blockData)]
       /\ 8 <= String.length (OID blockData)
       /\ resp !! "widget_id"
          = Some (JString (String.substring 0 8 (OID blockData))))
  /\ (forall msg, o = Panicked msg ->
        exists blockDef blockData updates,
          createCalls t = [(tabId, blockDef, OK blockData)]
          /\ String.length (OID blockData) < 8
          /\ broadcasts t = [updates])
  /\ (forall blockDef blockData,
        createCalls t = [(tabId, blockDef, OK blockData)] ->
        String.length (OID blockData) < 8 ->
        broadcasts t <> [] ->
        o = Panicked "slice bounds out of range")
  /\ (forall blockDef blockData,
        createCalls t = [(tabId, blockDef, OK blockData)] ->
        8 <= String.length (OID blockData) ->
        broadcasts t <> [] ->
        o = Returned
              (OK {[ "success" := JBool true;
                     "widget_id" := JString (String.substring 0 8 (OID blockData));
                     "full_id" := JString (OID blockData) ]})).
Proof.
  intros H. unfold Legacy.widgetOpenCallback in H.
  destruct (Legacy.parseWidgetOpenInput equalFold input) as [parsed|perr];
    cbn [run bind bindE perform attempt] in H.
  2:{ injection H as <- <- <-. split; [done|]. split; [done|].
      split; by intros ? ? _ _ []. }
  destruct (handle _ ContextWithUpdates w) as [[] w0].
  cbn [run bind bindE perform attempt] in H.
  destruct (handle _ (CreateBlock tabId {| Meta := Legacy.openMeta parsed |}) w0)
    as [[bd|cerr] w1]; cbn [run bind bindE perform attempt] in H.
  2:{ injection H as <- <- <-. split; [done|]. split; [done|].
      split; by intros ? ? _ _ []. }
  match type of H with
  | context [handle ?X ?c w1] => destruct (handle X c w1) as [[[]|qerr] w2]
  end; cbn [run bind bindE perform attempt] in H.
  2:{ injection H as <- <- <-. split; [done|]. split; [done|].
      split; by intros ? ? _ _ []. }
  destruct (handle _ ContextGetUpdatesRtn w2) as [u w3].
  cbn [run bind bindE perform attempt] in H.
  destruct (handle _ (SendUpdateEvents u) w3) as [[] w4].
  rewrite run_openResponse in H.
  destruct (Nat.ltb_spec (String.length (OID bd)) 8);
    injection H as <- <- <-.
  - split; [done|]. split; [intros msg _; by eexists _, bd, _|].
    split; [done|]. intros ? ? [= _ <-] Hge _. lia.
  - split; [intros resp [= <-]; by eexists _, bd|]. split; [done|].
    split; [intros ? ? [= _ <-] Hlt _; lia|]. by intros ? ? [= _ <-] _ _.
Qed.

(** Where the second copy differs: for type term it sets no controller
    marker and keeps any non-empty connection, "local" included. *)
Lemma legacy_term_metadata (parsed : Legacy.WidgetOpenToolInput.t) :
  Legacy.WidgetOpenToolInput.WidgetType parsed = "term" ->
  Legacy.openMeta parsed !! "controller" = None
  /\ (Legacy.WidgetOpenToolInput.Connection parsed <> "" ->
      Legacy.openMeta parsed !! "connection"
      = Some (Legacy.WidgetOpenToolInput.Connection parsed)).
Proof.
  intros Hwt. unfold Legacy.openMeta. rewrite Hwt.
  cbn [String.eqb Ascii.eqb Bool.eqb].
  destruct (String.eqb_spec (Legacy.WidgetOpenToolInput.Connection parsed) "");
    simpl; split; try done; by simplify_map_eq.
Qed.
End LegacyFacts.

(** * The theorems at concrete inputs *)

(** The payload [{"widget_type":"web","url":"https://x"}] with a layout queue
    that refuses the action: the callback fails and the created block stays
    in the store and in the tab, outside the layout. *)
Lemma widget_open_no_rollback :
  exists parsed s' t,
    parseWidgetOpenInput asciiFold webPayload = OK parsed
    /\ run (storeHandle queueFails) (widgetOpenCallback asciiFold "tab1" webPayload)
           demoStore
       = (Returned (Err (Wrapf "failed to add widget to layout"
                               (Errorf "layout queue unavailable"))), s', t)
    /\ createCalls t
       = [("tab1", {| Meta := openMeta parsed |}, OK (mkBlock "0a1b2c3d-4e5f-6789"))]
    /\ deleteCalls t = []
    /\ blockMeta demoStore !! "0a1b2c3d-4e5f-6789" = None
    /\ blockMeta s' !! "0a1b2c3d-4e5f-6789"
       = Some {[ "view" := "web"; "url" := "https://x" ]}
    /\ tabBlocks s' !! "tab1"
       = Some ["ab12cd34-0000"; "ef56gh78-0000"; "0a1b2c3d-4e5f-6789"]
    /\ layoutQueue s' = layoutQueue demoStore.
Proof.
  eexists _, _, _. split; [vm_compute; reflexivity|].
  split; [vm_compute; reflexivity|]. vm_compute. by repeat split.
Qed.

Lemma widget_open_queue_failure_keeps_block_witness :
  let parsed := WidgetOpenToolInput.mk "web" "https://x" "" "" "" "" "" in
  let s1 :=
    (storeHandle queueFails _ (CreateBlock "tab1" {| Meta := openMeta parsed |})
       (storeHandle queueFails _ ContextWithUpdates demoStore).2).2 in
  exists t,
    run (storeHandle queueFails) (widgetOpenCallback asciiFold "tab1" webPayload)
        demoStore
      = (Returned (Err (Wrapf "failed to add widget to layout"
                              (Errorf "layout queue unavailable"))), s1, t)
    /\ createCalls t
       = [("tab1", {| Meta := openMeta parsed |}, OK (mkBlock "0a1b2c3d-4e5f-6789"))]
    /\ queueCalls t
       = [("tab1",
           {| ActionType := LayoutActionDataType_Insert;
              BlockId := "0a1b2c3d-4e5f-6789";
              TargetBlockId := "";
              ActionPosition := "";
              Focused := true |},
           Err (Errorf "layout queue unavailable"))]
    /\ deleteCalls t = [] /\ resyncCalls t = [] /\ broadcasts t = [].
Proof.
  intros parsed s1.
  apply (widget_open_queue_failure_keeps_block asciiFold "tab1"
           (storeHandle queueFails) webPayload parsed demoStore s1 s1 s1
           (mkBlock "0a1b2c3d-4e5f-6789") _ [] (Errorf "layout queue unavailable"));
    vm_compute; reflexivity.
Defined.

(** Payloads with the undeclared field [bogus] that all four parsers accept. *)
Lemma unknown_field_accepted :
  knownKey asciiFold widgetOpenSchema "bogus" = false
  /\ parseWidgetOpenInput asciiFold extraFieldPayload
     = OK (WidgetOpenToolInput.mk "term" "" "" "" "" "" "")
  /\ parseWidgetCloseInput asciiFold
       (JObject [("bogus", JNumber "1"); ("widget_id", JString "ab12cd34")])
     = OK (WidgetCloseToolInput.mk "ab12cd34")
  /\ parseWidgetRenameInput asciiFold
       (JObject [("bogus", JBool true); ("name", JString "build");
                 ("widget_id", JString "ab12cd34")])
     = OK (WidgetRenameToolInput.mk "ab12cd34" "build")
  /\ parseWidgetMoveInput asciiFold
       (JObject [("bogus", JNull); ("direction", JString "vertical");
                 ("target_widget_id", JString "ef56gh78");
                 ("widget_id", JString "ab12cd34")])
     = OK (WidgetMoveToolInput.mk "ab12cd34" "ef56gh78" "vertical" "").
Proof. vm_compute. by repeat split. Qed.

Lemma unknown_fields_are_skipped_witness :
  knownKey asciiFold widgetOpenSchema "bogus" = false
  /\ parseWidgetOpenInput asciiFold extraFieldPayload
     = parseWidgetOpenInput asciiFold (JObject [("widget_type", JString "term")]).
Proof.
  split; [vm_compute; reflexivity|].
  apply (unknown_fields_are_skipped asciiFold "bogus" (JString "x") []
           [("widget_type", JString "term")]).
  vm_compute; reflexivity.
Defined.

Lemma widget_close_remove_before_delete_witness :
  closeRun = (closeRun.1.1, closeRun.1.2, closeRun.2)
  /\ ((forall resp, closeRun.1.1 = Returned (OK resp) ->
       exists parsed fullBlockId w0 w1 w2 w3 updates,
         parseWidgetCloseInput asciiFold closePayload = OK parsed
         /\ let remove := {| ActionType := LayoutActionDataType_Remove;
                             BlockId := fullBlockId;
                             TargetBlockId := "";
                             ActionPosition := "";
                             Focused := false |} in
            closeRun.2
            = [ Ev ContextWithUpdates tt;
                Ev (ResolveBlockIdFromPrefix "tab1"
                      (WidgetCloseToolInput.WidgetId parsed)) (OK fullBlockId);
                Ev (QueueLayoutActionForTab "tab1" remove) (OK tt);
                Ev (DeleteBlock fullBlockId true) (OK tt);
                Ev ContextGetUpdatesRtn updates;
                Ev (SendUpdateEvents updates) tt ]
            /\ storeHandle noFaults _ (QueueLayoutActionForTab "tab1" remove) w1
               = (OK tt, w2)
            /\ storeHandle noFaults _ (DeleteBlock fullBlockId true) w2 = (OK tt, w3)
            /\ storeHandle noFaults _
                 (ResolveBlockIdFromPrefix "tab1"
                    (WidgetCloseToolInput.WidgetId parsed)) w0
               = (OK fullBlockId, w1))
  /\ (forall tab a err, In (tab, a, Err err) (queueCalls closeRun.2) ->
        deleteCalls closeRun.2 = []
        /\ closeRun.1.1 = Returned (Err (Wrapf "failed to queue layout action" err))))
  /\ closeRun.1.1
     = Returned (OK {[ "success" := JBool true;
                       "message" := JString "widget ab12cd34 closed" ]}).
Proof.
  split; [vm_compute; reflexivity|].
  split; [|vm_compute; reflexivity].
  apply (widget_close_remove_before_delete asciiFold "tab1"
           (storeHandle noFaults) closePayload demoStore
           closeRun.1.2 closeRun.1.1 closeRun.2).
  vm_compute; reflexivity.
Defined.

Lemma widget_open_metadata_by_type_witness :
  let parsed := WidgetOpenToolInput.mk "term" "" "" "devbox" "" "" "" in
  parseWidgetOpenInput asciiFold termPayload = OK parsed
  /\ let wt := WidgetOpenToolInput.WidgetType parsed in
     let conn := WidgetOpenToolInput.Connection parsed in
     let file := WidgetOpenToolInput.File parsed in
     let meta := openMeta parsed in
     (forall (w w' : Store) o t,
        run (storeHandle noFaults) (widgetOpenCallback asciiFold "tab1" termPayload) w
        = (o, w', t) ->
        exists r, createCalls t = [("tab1", {| Meta := meta |}, r)])
     /\ meta !! "view" = Some wt
     /\ (forall key, key <> "view" -> key <> "controller" -> key <> "connection" ->
                     key <> "url" -> key <> "file" -> meta !! key = None)
     /\ (wt = "term"
           /\ meta !! "controller" = Some "shell"
           /\ (conn <> "" -> conn <> "local" -> meta !! "connection" = Some conn)
           /\ (conn = "" \/ conn = "local" -> meta !! "connection" = None)
           /\ meta !! "url" = None /\ meta !! "file" = None
         \/ wt = "web"
           /\ meta !! "url" = Some (WidgetOpenToolInput.Url parsed)
           /\ WidgetOpenToolInput.Url parsed <> ""
           /\ meta !! "controller" = None /\ meta !! "connection" = None
           /\ meta !! "file" = None
         \/ wt = "preview"
           /\ (file <> "" -> meta !! "file" = Some file)
           /\ (file = "" -> meta !! "file" = None)
           /\ meta !! "controller" = None /\ meta !! "connection" = None
           /\ meta !! "url" = None
         \/ wt = "cpuplot"
           /\ (conn <> "" -> meta !! "connection" = Some conn)
           /\ (conn = "" -> meta !! "connection" = None)
           /\ meta !! "controller" = None /\ meta !! "url" = None
           /\ meta !! "file" = None).
Proof.
  intros parsed. split; [vm_compute; reflexivity|].
  apply (widget_open_metadata_by_type asciiFold "tab1" (storeHandle noFaults)
           termPayload parsed).
  vm_compute; reflexivity.
Defined.

Lemma widget_open_plain_insert_witness :
  let parsed := WidgetOpenToolInput.mk "web" "https://x" "" "" "" "" "" in
  parseWidgetOpenInput asciiFold webPayload = OK parsed
  /\ WidgetOpenToolInput.SplitDirection parsed = ""
  /\ openWebRun.1.1
     = Returned (OK {[ "success" := JBool true;
                       "widget_id" := JString "0a1b2c3d";
                       "full_id" := JString "0a1b2c3d-4e5f-6789" ]})
  /\ (forall resp w' t,
        run (storeHandle noFaults) (widgetOpenCallback asciiFold "tab1" webPayload)
            demoStore
        = (Returned (OK resp), w', t) ->
        exists blockData,
          createCalls t = [("tab1", {| Meta := openMeta parsed |}, OK blockData)]
          /\ openMeta parsed !! "view"
             = Some (WidgetOpenToolInput.WidgetType parsed)
          /\ queueCalls t
             = [("tab1",
                 {| ActionType := LayoutActionDataType_Insert;
                    BlockId := OID blockData;
                    TargetBlockId := "";
                    ActionPosition := "";
                    Focused := true |},
                 OK tt)]
          /\ deleteCalls t = [] /\ updateMetaCalls t = []
          /\ resp !! "success" = Some (JBool true)
          /\ resp !! "widget_id"
             = Some (JString (String.substring 0 8 (OID blockData)))
          /\ String.length (String.substring 0 8 (OID blockData)) = 8
          /\ resp !! "full_id" = Some (JString (OID blockData)))
  /\ (forall blockData w1 w2 w3,
        storeHandle noFaults _ (CreateBlock "tab1" {| Meta := openMeta parsed |})
                    (storeHandle noFaults _ ContextWithUpdates demoStore).2
        = (OK blockData, w1) ->
        storeHandle noFaults _
          (QueueLayoutActionForTab "tab1"
             {| ActionType := LayoutActionDataType_Insert;
                BlockId := OID blockData;
                TargetBlockId := "";
                ActionPosition := "";
                Focused := true |}) w1
        = (OK tt, w2) ->
        (if String.eqb (WidgetOpenToolInput.WidgetType parsed) "term"
         then storeHandle noFaults _
                (ResyncController "tab1" (OID blockData) false) w2
              = (OK tt, w3)
         else w3 = w2) ->
        8 <= String.length (OID blockData) ->
        exists resp w' t,
          run (storeHandle noFaults) (widgetOpenCallback asciiFold "tab1" webPayload)
              demoStore
          = (Returned (OK resp), w', t)).
Proof.
  intros parsed. split; [vm_compute; reflexivity|].
  split; [vm_compute; reflexivity|].
  split; [vm_compute; reflexivity|].
  apply (widget_open_plain_insert asciiFold "tab1" (storeHandle noFaults)
           webPayload parsed demoStore); vm_compute; reflexivity.
Defined.

Lemma widget_move_single_action_witness :
  let parsed := WidgetMoveToolInput.mk "ab12cd34" "ef56gh78" "vertical" "" in
  let s0 := (storeHandle noFaults _ ContextWithUpdates demoStore).2 in
  parseWidgetMoveInput asciiFold movePayload = OK parsed
  /\ storeHandle noFaults _ ContextWithUpdates demoStore = (tt, s0)
  /\ storeHandle noFaults _ (ResolveBlockIdFromPrefix "tab1" "ab12cd34") s0
     = (OK "ab12cd34-0000", s0)
  /\ storeHandle noFaults _ (ResolveBlockIdFromPrefix "tab1" "ef56gh78") s0
     = (OK "ef56gh78-0000", s0)
  /\ exists actionType position,
       (WidgetMoveToolInput.Direction parsed = "horizontal"
          /\ actionType = LayoutActionDataType_MoveHorizontal
        \/ WidgetMoveToolInput.Direction parsed = "vertical"
          /\ actionType = LayoutActionDataType_MoveVertical)
       /\ (WidgetMoveToolInput.Position parsed = "" /\ position = "after"
           \/ WidgetMoveToolInput.Position parsed <> ""
              /\ position = WidgetMoveToolInput.Position parsed
              /\ (position = "before" \/ position = "after"))
       /\ forall o w' t,
            run (storeHandle noFaults)
                (widgetMoveCallback asciiFold "tab1" movePayload) demoStore
            = (o, w', t) ->
            exists r,
              queueCalls t
              = [("tab1",
                  {| ActionType := actionType;
                     BlockId := "ab12cd34-0000";
                     TargetBlockId := "ef56gh78-0000";
                     ActionPosition := position;
                     Focused := true |},
                  r)]
              /\ createCalls t = [] /\ deleteCalls t = []
              /\ updateMetaCalls t = [] /\ resyncCalls t = []
              /\ (r = OK tt ->
                  exists resp, o = Returned (OK resp)
                               /\ resp !! "success" = Some (JBool true)).
Proof.
  intros parsed s0. do 4 (split; [vm_compute; reflexivity|]).
  apply (widget_move_single_action asciiFold "tab1" (storeHandle noFaults)
           movePayload parsed demoStore s0 s0 s0); vm_compute; reflexivity.
Defined.

Lemma widget_open_split_requires_target_witness :
  let decoded := WidgetOpenToolInput.mk "term" "" "" "" "horizontal" "" "" in
  Unmarshal asciiFold WidgetOpenToolInput.fields splitWithoutTargetPayload
    WidgetOpenToolInput.zero = OK decoded
  /\ WidgetOpenToolInput.SplitDirection decoded <> ""
  /\ WidgetOpenToolInput.TargetWidget decoded = ""
  /\ exists err,
       parseWidgetOpenInput asciiFold splitWithoutTargetPayload = Err err
       /\ (forall w : Store,
             run (storeHandle noFaults)
                 (widgetOpenCallback asciiFold "tab1" splitWithoutTargetPayload) w
             = (Returned (Err err), w, []))
       /\ (goIndex validDirections (WidgetOpenToolInput.SplitDirection decoded) = true ->
      WidgetOpenToolInput.WidgetType decoded = ""
      \/ goIndex validTypes (WidgetOpenToolInput.WidgetType decoded) = true ->
      WidgetOpenToolInput.WidgetType decoded = ""
        /\ err = Errorf "widget_type is required"
      \/ WidgetOpenToolInput.WidgetType decoded = "web"
        /\ WidgetOpenToolInput.Url decoded = ""
        /\ err = Errorf "url is required for web widget"
      \/ goIndex validTypes (WidgetOpenToolInput.WidgetType decoded) = true
        /\ (WidgetOpenToolInput.WidgetType decoded = "web" ->
            WidgetOpenToolInput.Url decoded <> "")
        /\ err = Errorf "target_widget is required when split_direction is specified").
Proof.
  intros decoded. split; [vm_compute; reflexivity|].
  split; [discriminate|]. split; [reflexivity|].
  apply (widget_open_split_requires_target asciiFold "tab1" (storeHandle noFaults)
           splitWithoutTargetPayload decoded).
  - vm_compute; reflexivity.
  - discriminate.
  - reflexivity.
Defined.

Lemma widget_rename_idempotent_witness :
  let parsed := WidgetRenameToolInput.mk "ab12cd34" "build" in
  parseWidgetRenameInput asciiFold renamePayload = OK parsed
  /\ renameRun = (renameRun.1.1, renameRun.1.2, renameRun.2)
  /\ renameAgainRun = (renameAgainRun.1.1, renameAgainRun.1.2, renameAgainRun.2)
  /\ blockMeta renameRun.1.2 !! "ab12cd34-0000"
     = Some {[ "view" := "term"; "display:name" := "build" ]}
  /\ (blockMeta renameAgainRun.1.2 = blockMeta renameRun.1.2
      /\ queueCalls renameRun.2 = [] /\ queueCalls renameAgainRun.2 = []
      /\ layoutQueue renameRun.1.2 = layoutQueue demoStore
      /\ layoutQueue renameAgainRun.1.2 = layoutQueue demoStore
      /\ tabBlocks renameAgainRun.1.2 = tabBlocks demoStore
      /\ (forall resp, renameRun.1.1 = Returned (OK resp) ->
            renameAgainRun.1.1 = Returned (OK resp)
            /\ exists fullBlockId old,
                 storeResolve "tab1" (WidgetRenameToolInput.WidgetId parsed) demoStore
                   = OK fullBlockId
                 /\ blockMeta demoStore !! fullBlockId = Some old
                 /\ blockMeta renameAgainRun.1.2 !! fullBlockId
                    = Some (<[ "display:name" := WidgetRenameToolInput.Name parsed ]> old))).
Proof.
  intros parsed. do 4 (split; [vm_compute; reflexivity|]).
  apply (widget_rename_idempotent asciiFold quoteName "tab1" noFaults renamePayload
           parsed demoStore renameRun.1.2 renameAgainRun.1.2
           renameRun.1.1 renameAgainRun.1.1 renameRun.2 renameAgainRun.2);
    vm_compute; reflexivity.
Defined.

Lemma widget_open_short_id_slice_witness :
  (openShortIdRun = (openShortIdRun.1.1, openShortIdRun.1.2, openShortIdRun.2)
   /\ openShortIdRun.1.1 = Panicked "slice bounds out of range"
   /\ blockMeta openShortIdRun.1.2 !! "short"
      = Some {[ "view" := "term"; "controller" := "shell"; "connection" := "devbox" ]}
   /\ ((forall resp, openShortIdRun.1.1 = Returned (OK resp) ->
          exists blockDef blockData,
            createCalls openShortIdRun.2 = [("tab1", blockDef, OK blockData)]
            /\ 8 <= String.length (OID blockData)
            /\ resp !! "widget_id"
               = Some (JString (String.substring 0 8 (OID blockData)))
            /\ resp !! "full_id" = Some (JString (OID blockData)))
       /\ (forall blockDef blockData,
             createCalls openShortIdRun.2 = [("tab1", blockDef, OK blockData)] ->
             String.length (OID blockData) < 8 ->
             broadcasts openShortIdRun.2 <> [] ->
             openShortIdRun.1.1 = Panicked "slice bounds out of range")
       /\ (forall blockDef blockData,
             createCalls openShortIdRun.2 = [("tab1", blockDef, OK blockData)] ->
             8 <= String.length (OID blockData) ->
             broadcasts openShortIdRun.2 <> [] ->
             openShortIdRun.1.1
             = Returned
                 (OK {[ "success" := JBool true;
                        "widget_id" :=
                          JString (String.substring 0 8 (OID blockData));
                        "full_id" := JString (OID blockData) ]}))
       /\ (forall msg, openShortIdRun.1.1 = Panicked msg ->
             exists blockDef blockData a updates,
               createCalls openShortIdRun.2 = [("tab1", blockDef, OK blockData)]
               /\ String.length (OID blockData) < 8
               /\ queueCalls openShortIdRun.2 = [("tab1", a, OK tt)]
               /\ broadcasts openShortIdRun.2 = [updates])))
  /\ (let blockDef :=
        {| Meta := openMeta (WidgetOpenToolInput.mk "web" "https://x" "" "" "" "" "") |} in
      let blockData := mkBlock "0a1b2c3d-4e5f-6789" in
      openWebRun = (openWebRun.1.1, openWebRun.1.2, openWebRun.2)
      /\ createCalls openWebRun.2 = [("tab1", blockDef, OK blockData)]
      /\ 8 <= String.length (OID blockData)
      /\ broadcasts openWebRun.2 <> []
      /\ String.substring 0 8 (OID blockData) = "0a1b2c3d"
      /\ openWebRun.1.1
         = Returned
             (OK {[ "success" := JBool true;
                    "widget_id" := JString (String.substring 0 8 (OID blockData));
                    "full_id" := JString (OID blockData) ]})).
Proof.
  split.
  - do 3 (split; [vm_compute; reflexivity|]).
    apply (widget_open_short_id_slice asciiFold "tab1" (storeHandle noFaults)
             termPayload shortIdStore openShortIdRun.1.2 openShortIdRun.1.1
             openShortIdRun.2).
    vm_compute; reflexivity.
  - intros blockDef blockData.
    assert (Hrun : openWebRun = (openWebRun.1.1, openWebRun.1.2, openWebRun.2))
      by (vm_compute; reflexivity).
    assert (Hcreate : createCalls openWebRun.2 = [("tab1", blockDef, OK blockData)])
      by (vm_compute; reflexivity).
    assert (Hlen : 8 <= String.length (OID blockData)) by (simpl; lia).
    assert (Hsent : broadcasts openWebRun.2 <> [])
      by (vm_compute; discriminate).
    split; [exact Hrun|]. split; [exact Hcreate|]. split; [exact Hlen|].
    split; [exact Hsent|]. split; [reflexivity|].
    destruct (widget_open_short_id_slice asciiFold "tab1"
                (storeHandle noFaults) webPayload demoStore openWebRun.1.2
                openWebRun.1.1 openWebRun.2 Hrun) as (_ & _ & Hlong & _).
    exact (Hlong blockDef blockData Hcreate Hlen Hsent).
Defined.

Lemma widget_open_target_ignored_without_split_witness :
  let decoded := WidgetOpenToolInput.mk "term" "" "" "" "" "ef56gh78" "before" in
  Unmarshal asciiFold WidgetOpenToolInput.fields targetWithoutSplitPayload
    WidgetOpenToolInput.zero = OK decoded
  /\ queueCalls openTargetRun.2
     = [("tab1",
         {| ActionType := LayoutActionDataType_Insert;
            BlockId := "0a1b2c3d-4e5f-6789";
            TargetBlockId := "";
            ActionPosition := "";
            Focused := true |},
         OK tt)]
  /\ parseWidgetOpenInput asciiFold targetWithoutSplitPayload = OK decoded
  /\ forall (w w' : Store) o t,
       run (storeHandle noFaults)
           (widgetOpenCallback asciiFold "tab1" targetWithoutSplitPayload) w
       = (o, w', t) ->
       resolveCalls t = []
       /\ exists r,
            createCalls t = [("tab1", {| Meta := openMeta decoded |}, r)]
            /\ match r with
               | OK blockData =>
                   exists qr,
                     queueCalls t
                     = [("tab1",
                         {| ActionType := LayoutActionDataType_Insert;
                            BlockId := OID blockData;
                            TargetBlockId := "";
                            ActionPosition := "";
                            Focused := true |},
                         qr)]
               | Err _ => queueCalls t = []
               end.
Proof.
  intros decoded. do 2 (split; [vm_compute; reflexivity|]).
  apply (widget_open_target_ignored_without_split asciiFold "tab1"
           (storeHandle noFaults) targetWithoutSplitPayload decoded).
  - vm_compute; reflexivity.
  - reflexivity.
  - vm_compute; reflexivity.
  - discriminate.
  - right. vm_compute; reflexivity.
Defined.

(** * Further properties of the parsers *)

Lemma checkWidgetOpenInput_complete (decoded : WidgetOpenToolInput.t) :
  goIndex validTypes (WidgetOpenToolInput.WidgetType decoded) = true ->
  (WidgetOpenToolInput.WidgetType decoded = "web" ->
   WidgetOpenToolInput.Url decoded <> "") ->
  (WidgetOpenToolInput.SplitDirection decoded <> "" ->
   goIndex validDirections (WidgetOpenToolInput.SplitDirection decoded) = true
   /\ WidgetOpenToolInput.TargetWidget decoded <> "") ->
  (WidgetOpenToolInput.Position decoded <> "" ->
   goIndex validPositions (WidgetOpenToolInput.Position decoded) = true) ->
  checkWidgetOpenInput decoded = OK decoded.
Proof.
  intros Hwt Hurl Hsd Hpos. unfold checkWidgetOpenInput. rewrite Hwt.
  destruct (String.eqb_spec (WidgetOpenToolInput.WidgetType decoded) "") as [He|_].
  { rewrite He in Hwt. by vm_compute in Hwt. }
  simpl.
  destruct (String.eqb_spec (WidgetOpenToolInput.WidgetType decoded) "web") as [Hw|_];
    simpl.
  - rewrite (eqb_empty_false _ (Hurl Hw)).
    destruct (String.eqb_spec (WidgetOpenToolInput.SplitDirection decoded) "") as [_|Hne];
      simpl.
    + destruct (String.eqb_spec (WidgetOpenToolInput.Position decoded) "") as [_|Hp];
        simpl; [done|]. by rewrite (Hpos Hp).
    + destruct (Hsd Hne) as [-> Ht]. rewrite (eqb_empty_false _ Ht). simpl.
      destruct (String.eqb_spec (WidgetOpenToolInput.Position decoded) "") as [_|Hp];
        simpl; [done|]. by rewrite (Hpos Hp).
  - destruct (String.eqb_spec (WidgetOpenToolInput.SplitDirection decoded) "") as [_|Hne];
      simpl.
    + destruct (String.eqb_spec (WidgetOpenToolInput.Position decoded) "") as [_|Hp];
        simpl; [done|]. by rewrite (Hpos Hp).
    + destruct (Hsd Hne) as [-> Ht]. rewrite (eqb_empty_false _ Ht). simpl.
      destruct (String.eqb_spec (WidgetOpenToolInput.Position decoded) "") as [_|Hp];
        simpl; [done|]. by rewrite (Hpos Hp).
Qed.

Lemma parseWith_nonnull {T : Type} (equalFold : string -> string -> bool)
    (fields : list (Field T)) (zero : T) (check : T -> result T) (input : JSON) :
  input <> JNull ->
  parseWith equalFold fields zero check input
  = match Unmarshal equalFold fields input zero with
    | OK decoded => check decoded
    | Err err => Err (Wrapf "failed to unmarshal input" err)
    end.
Proof. intros H. unfold parseWith. by destruct input. Qed.

Lemma parseWith_ok_nonnull {T : Type} (equalFold : string -> string -> bool)
    (fields : list (Field T)) (zero : T) (check : T -> result T)
    (input : JSON) (parsed : T) :
  parseWith equalFold fields zero check input = OK parsed -> input <> JNull.
Proof. intros H ->. discriminate. Qed.

(** X1: [parseWidgetOpenInput] accepts a payload exactly when it is not nil,
    decodes, names one of the four widget types, has a url if the type is
    web, has either no split direction or one of the two directions
    together with a target, and has either no position or one of the two
    positions; what it returns is then the decoded struct, unchanged. *)
Theorem parseWidgetOpenInput_valid_iff (equalFold : string -> string -> bool)
    (input : JSON) (parsed : WidgetOpenToolInput.t) :
  parseWidgetOpenInput equalFold input = OK parsed <->
  input <> JNull
  /\ Unmarshal equalFold WidgetOpenToolInput.fields input WidgetOpenToolInput.zero
     = OK parsed
  /\ (WidgetOpenToolInput.WidgetType parsed = "term"
      \/ WidgetOpenToolInput.WidgetType parsed = "web"
      \/ WidgetOpenToolInput.WidgetType parsed = "preview"
      \/ WidgetOpenToolInput.WidgetType parsed = "cpuplot")
  /\ (WidgetOpenToolInput.WidgetType parsed = "web" ->
      WidgetOpenToolInput.Url parsed <> "")
  /\ (WidgetOpenToolInput.SplitDirection parsed = ""
      \/ (WidgetOpenToolInput.SplitDirection parsed = "horizontal"
          \/ WidgetOpenToolInput.SplitDirection parsed = "vertical")
         /\ WidgetOpenToolInput.TargetWidget parsed <> "")
  /\ (WidgetOpenToolInput.Position parsed = ""
      \/ WidgetOpenToolInput.Position parsed = "before"
      \/ WidgetOpenToolInput.Position parsed = "after").
Proof.
  split.
  - intros Hp. pose proof (parseWith_ok_nonnull _ _ _ _ _ _ Hp) as Hnn.
    destruct (parseWith_ok _ _ _ _ _ _ Hp) as (decoded & Hdec & Hck).
    destruct (checkWidgetOpenInput_ok _ _ Hck) as (-> & Hwt & Hurl & Hsd & Hpos).
    split; [done|]. split; [done|].
    split; [by apply goIndex_validTypes|]. split; [done|]. split.
    + destruct (String.eqb_spec (WidgetOpenToolInput.SplitDirection decoded) "")
        as [He|Hne]; [by left|right].
      destruct (Hsd Hne) as [Hd Ht]. split; [|done].
      by apply goIndex_validDirections.
    + destruct (String.eqb_spec (WidgetOpenToolInput.Position decoded) "")
        as [He|Hne]; [by left|right].
      by apply goIndex_validPositions, Hpos.
  - intros (Hnn & Hdec & Hwt & Hurl & Hsd & Hpos).
    unfold parseWidgetOpenInput. rewrite parseWith_nonnull, Hdec by done.
    apply checkWidgetOpenInput_complete.
    + by apply goIndex_validTypes.
    + done.
    + intros Hne. destruct Hsd as [He|[Hd Ht]]; [done|].
      split; [|done]. by apply goIndex_validDirections.
    + intros Hne. destruct Hpos as [He|Hp]; [done|].
      by apply goIndex_validPositions.
Qed.

(** X2: [parseWidgetMoveInput] accepts a payload exactly when it is not nil,
    decodes, has both widget ids, has one of the two directions (there is no
    default), and has either no position or one of the two positions. *)
Theorem parseWidgetMoveInput_valid_iff (equalFold : string -> string -> bool)
    (input : JSON) (parsed : WidgetMoveToolInput.t) :
  parseWidgetMoveInput equalFold input = OK parsed <->
  input <> JNull
  /\ Unmarshal equalFold WidgetMoveToolInput.fields input WidgetMoveToolInput.zero
     = OK parsed
  /\ WidgetMoveToolInput.WidgetId parsed <> ""
  /\ WidgetMoveToolInput.TargetWidgetId parsed <> ""
  /\ (WidgetMoveToolInput.Direction parsed = "horizontal"
      \/ WidgetMoveToolInput.Direction parsed = "vertical")
  /\ (WidgetMoveToolInput.Position parsed = ""
      \/ WidgetMoveToolInput.Position parsed = "before"
      \/ WidgetMoveToolInput.Position parsed = "after").
Proof.
  split.
  - intros Hp. pose proof (parseWith_ok_nonnull _ _ _ _ _ _ Hp) as Hnn.
    destruct (parseWith_ok _ _ _ _ _ _ Hp) as (decoded & Hdec & Hck).
    destruct (checkWidgetMoveInput_ok _ _ Hck) as (-> & Hw & Ht & Hd & Hpos).
    split; [done|]. split; [done|]. split; [done|]. split; [done|].
    split; [by apply goIndex_validDirections|].
    destruct (String.eqb_spec (WidgetMoveToolInput.Position decoded) "")
      as [He|Hne]; [by left|right].
    by apply goIndex_validPositions, Hpos.
  - intros (Hnn & Hdec & Hw & Ht & Hd & Hpos).
    unfold parseWidgetMoveInput. rewrite parseWith_nonnull, Hdec by done.
    unfold checkWidgetMoveInput.
    rewrite (eqb_empty_false _ Hw), (eqb_empty_false _ Ht).
    apply goIndex_validDirections in Hd as Hd'. rewrite Hd'.
    destruct (String.eqb_spec (WidgetMoveToolInput.Direction parsed) "") as [He|_].
    { rewrite He in Hd. by destruct Hd. }
    simpl.
    destruct Hpos as [-> |Hp]; [done|].
    apply goIndex_validPositions in Hp. rewrite Hp. by rewrite andb_false_r.
Qed.

(** X3: [parseWidgetRenameInput] and [parseWidgetCloseInput] accept a payload
    exactly when it is not nil, decodes and has its required fields
    non-empty: the widget id, and for a rename also the name.  Nothing else
    is asked of the name: it is neither trimmed nor bounded in length, and
    the empty name is refused with "name is required". *)
Theorem parseWidgetRenameInput_valid_iff (equalFold : string -> string -> bool)
    (input : JSON) :
  (forall parsed,
     parseWidgetRenameInput equalFold input = OK parsed <->
     input <> JNull
     /\ Unmarshal equalFold WidgetRenameToolInput.fields input
          WidgetRenameToolInput.zero = OK parsed
     /\ WidgetRenameToolInput.WidgetId parsed <> ""
     /\ WidgetRenameToolInput.Name parsed <> "")
  /\ (forall decoded,
        input <> JNull ->
        Unmarshal equalFold WidgetRenameToolInput.fields input
          WidgetRenameToolInput.zero = OK decoded ->
        WidgetRenameToolInput.WidgetId decoded <> "" ->
        WidgetRenameToolInput.Name decoded = "" ->
        parseWidgetRenameInput equalFold input = Err (Errorf "name is required"))
  /\ (forall parsed,
        parseWidgetCloseInput equalFold input = OK parsed <->
        input <> JNull
        /\ Unmarshal equalFold WidgetCloseToolInput.fields input
             WidgetCloseToolInput.zero = OK parsed
        /\ WidgetCloseToolInput.WidgetId parsed <> "").
Proof.
  split; [|split].
  - intros parsed. split.
    + intros Hp. pose proof (parseWith_ok_nonnull _ _ _ _ _ _ Hp) as Hnn.
      destruct (parseWith_ok _ _ _ _ _ _ Hp) as (decoded & Hdec & Hck).
      unfold checkWidgetRenameInput in Hck.
      destruct (String.eqb_spec (WidgetRenameToolInput.WidgetId decoded) "");
        [done|].
      destruct (String.eqb_spec (WidgetRenameToolInput.Name decoded) "");
        [done|].
      by injection Hck as <-.
    + intros (Hnn & Hdec & Hw & Hn).
      unfold parseWidgetRenameInput. rewrite parseWith_nonnull, Hdec by done.
      unfold checkWidgetRenameInput.
      by rewrite (eqb_empty_false _ Hw), (eqb_empty_false _ Hn).
  - intros decoded Hnn Hdec Hw Hn.
    unfold parseWidgetRenameInput. rewrite parseWith_nonnull, Hdec by done.
    unfold checkWidgetRenameInput.
    by rewrite (eqb_empty_false _ Hw), Hn.
  - intros parsed. split.
    + intros Hp. pose proof (parseWith_ok_nonnull _ _ _ _ _ _ Hp) as Hnn.
      destruct (parseWith_ok _ _ _ _ _ _ Hp) as (decoded & Hdec & Hck).
      unfold checkWidgetCloseInput in Hck.
      destruct (String.eqb_spec (WidgetCloseToolInput.WidgetId decoded) "");
        [done|].
      by injection Hck as <-.
    + intros (Hnn & Hdec & Hw).
      unfold parseWidgetCloseInput. rewrite parseWith_nonnull, Hdec by done.
      unfold checkWidgetCloseInput.
      by rewrite (eqb_empty_false _ Hw).
Qed.

(** ** Further properties of the decoding *)

Section MoreDecodeFacts.
Variable equalFold : string -> string -> bool.
Context {T : Type}.
Variable fields : list (Field T).

Lemma findField_known (key : string) :
  existsb (fun name => String.eqb name key || equalFold name key)
          (map jsonName fields) = true ->
  exists f, findField equalFold fields key = Some f /\ In f fields.
Proof.
  intros H. unfold findField.
  destruct (List.find (fun f => String.eqb (jsonName f) key) fields) as [f|] eqn:E1.
  { exists f. split; [done|]. by apply find_some in E1 as [? _]. }
  destruct (List.find (fun f => equalFold (jsonName f) key) fields) as [f|] eqn:E2.
  { exists f. split; [done|]. by apply find_some in E2 as [? _]. }
  exfalso. apply existsb_exists in H as (name & Hin & Hm).
  apply in_map_iff in Hin as (f & <- & Hf).
  apply orb_true_iff in Hm as [Hm|Hm].
  - by rewrite (find_none _ _ E1 f Hf) in Hm.
  - by rewrite (find_none _ _ E2 f Hf) in Hm.
Qed.

(** A type error, once saved, is the one reported. *)
Lemma decodeMembers_saved (members : list (string * JSON)) (v : T) (err : error) :
  (decodeMembers equalFold fields members v (Some err)).2 = Some err.
Proof.
  revert v. induction members as [|[k x] rest IH]; intros v; simpl; [done|].
  destruct (findField equalFold fields k) as [f|]; [|apply IH].
  destruct x; apply IH.
Qed.

(** Every error the decoding reports is a type error on a declared field. *)
Lemma decodeMembers_error (members : list (string * JSON)) (v : T) (err : error) :
  (decodeMembers equalFold fields members v None).2 = Some err ->
  exists kind field,
    err = UnmarshalTypeError kind field /\ In field (map jsonName fields).
Proof.
  revert v. induction members as [|[k x] rest IH]; intros v; simpl; [done|].
  destruct (findField equalFold fields k) as [f|] eqn:Ef; [|apply IH].
  assert (Hf : In (jsonName f) (map jsonName fields)).
  { apply in_map. unfold findField in Ef.
    destruct (List.find (fun f => String.eqb (jsonName f) k) fields) as [g|] eqn:E1.
    - injection Ef as <-. by apply find_some in E1 as [? _].
    - by apply find_some in Ef as [? _]. }
  destruct x; try apply IH;
    rewrite decodeMembers_saved; intros [= <-]; by eexists _, _.
Qed.

(** A member that goes to a declared field with a value that is neither a
    string nor null makes the decoding fail. *)
Lemma decodeMembers_mismatch (members : list (string * JSON)) (key : string)
    (val : JSON) (f : Field T) :
  In (key, val) members ->
  findField equalFold fields key = Some f ->
  val <> JNull -> (forall s, val <> JString s) ->
  forall (v : T) (saved : option error),
    is_Some (decodeMembers equalFold fields members v saved).2.
Proof.
  intros Hin Hf Hnull Hstr.
  induction members as [|[k x] rest IH]; intros v saved; [done|].
  destruct Hin as [[= -> ->]|Hin]; simpl.
  - rewrite Hf. destruct val as [|b|lit|s|elems|ms]; [done| | |by destruct (Hstr s)| |];
      destruct saved; simpl; rewrite decodeMembers_saved; by eexists.
  - destruct (findField equalFold fields k); [|by apply IH].
    destruct x; by apply IH.
Qed.

Lemma parseWith_mismatch (zero : T) (check : T -> result T)
    (members : list (string * JSON)) (key : string) (val : JSON) :
  In (key, val) members ->
  existsb (fun name => String.eqb name key || equalFold name key)
          (map jsonName fields) = true ->
  val <> JNull -> (forall s, val <> JString s) ->
  exists kind field,
    In field (map jsonName fields)
    /\ parseWith equalFold fields zero check (JObject members)
       = Err (Wrapf "failed to unmarshal input" (UnmarshalTypeError kind field)).
Proof.
  intros Hin Hk Hnull Hstr.
  destruct (findField_known _ Hk) as (f & Hf & _).
  destruct (decodeMembers_mismatch _ _ _ _ Hin Hf Hnull Hstr zero None) as [err He].
  destruct (decodeMembers_error _ _ _ He) as (kind & field & -> & Hfield).
  exists kind, field. split; [done|].
  unfold parseWith, Unmarshal.
  destruct (decodeMembers equalFold fields members zero None) as [v' o].
  simpl in He. by rewrite He.
Qed.

(** A member whose value is null leaves the decoding as it is, whatever its
    key. *)
Lemma decodeMembers_null (key : string) (before after : list (string * JSON)) :
  forall (v : T) (saved : option error),
    decodeMembers equalFold fields (before ++ (key, JNull) :: after) v saved
    = decodeMembers equalFold fields (before ++ after) v saved.
Proof.
  induction before as [|[k x] rest IH]; intros v saved; simpl.
  - by destruct (findField equalFold fields key).
  - destruct (findField equalFold fields k) as [f|]; [|apply IH].
    destruct x; apply IH.
Qed.

Lemma parseWith_null (zero : T) (check : T -> result T) (key : string)
    (before after : list (string * JSON)) :
  parseWith equalFold fields zero check (JObject (before ++ (key, JNull) :: after))
  = parseWith equalFold fields zero check (JObject (before ++ after)).
Proof. unfold parseWith, Unmarshal. by rewrite decodeMembers_null. Qed.
End MoreDecodeFacts.

(** X4: no value is coerced into a string field.  In a payload to any of the
    four tools, a member that goes to a declared field (its key equals the
    field name or matches it ignoring case) with a value that is neither a
    string nor null makes parsing fail with "failed to unmarshal input"
    wrapping the type error of a declared field. *)
Theorem mistyped_field_is_rejected (equalFold : string -> string -> bool)
    (members : list (string * JSON)) (key : string) (val : JSON) :
  In (key, val) members ->
  val <> JNull -> (forall s, val <> JString s) ->
  (knownKey equalFold widgetOpenSchema key = true ->
   exists kind field,
     In field (properties widgetOpenSchema)
     /\ parseWidgetOpenInput equalFold (JObject members)
        = Err (Wrapf "failed to unmarshal input" (UnmarshalTypeError kind field)))
  /\ (knownKey equalFold widgetCloseSchema key = true ->
      exists kind field,
        In field (properties widgetCloseSchema)
        /\ parseWidgetCloseInput equalFold (JObject members)
           = Err (Wrapf "failed to unmarshal input" (UnmarshalTypeError kind field)))
  /\ (knownKey equalFold widgetRenameSchema key = true ->
      exists kind field,
        In field (properties widgetRenameSchema)
        /\ parseWidgetRenameInput equalFold (JObject members)
           = Err (Wrapf "failed to unmarshal input" (UnmarshalTypeError kind field)))
  /\ (knownKey equalFold widgetMoveSchema key = true ->
      exists kind field,
        In field (properties widgetMoveSchema)
        /\ parseWidgetMoveInput equalFold (JObject members)
           = Err (Wrapf "failed to unmarshal input" (UnmarshalTypeError kind field))).
Proof.
  intros Hin Hnull Hstr.
  split; [|split; [|split]]; intros Hk.
  - exact (parseWith_mismatch equalFold WidgetOpenToolInput.fields
             WidgetOpenToolInput.zero checkWidgetOpenInput members key val
             Hin Hk Hnull Hstr).
  - exact (parseWith_mismatch equalFold WidgetCloseToolInput.fields
             WidgetCloseToolInput.zero checkWidgetCloseInput members key val
             Hin Hk Hnull Hstr).
  - exact (parseWith_mismatch equalFold WidgetRenameToolInput.fields
             WidgetRenameToolInput.zero checkWidgetRenameInput members key val
             Hin Hk Hnull Hstr).
  - exact (parseWith_mismatch equalFold WidgetMoveToolInput.fields
             WidgetMoveToolInput.zero checkWidgetMoveInput members key val
             Hin Hk Hnull Hstr).
Qed.

(** X5: a member whose value is null counts as absent.  For each of the four
    parsers and whatever the key, parsing a payload gives what it gives for
    the payload without that member. *)
Theorem null_member_is_absent (equalFold : string -> string -> bool)
    (key : string) (before after : list (string * JSON)) :
  parseWidgetOpenInput equalFold (JObject (before ++ (key, JNull) :: after))
  = parseWidgetOpenInput equalFold (JObject (before ++ after))
  /\ parseWidgetCloseInput equalFold (JObject (before ++ (key, JNull) :: after))
     = parseWidgetCloseInput equalFold (JObject (before ++ after))
  /\ parseWidgetRenameInput equalFold (JObject (before ++ (key, JNull) :: after))
     = parseWidgetRenameInput equalFold (JObject (before ++ after))
  /\ parseWidgetMoveInput equalFold (JObject (before ++ (key, JNull) :: after))
     = parseWidgetMoveInput equalFold (JObject (before ++ after)).
Proof. repeat split; apply parseWith_null. Qed.

(** * Further properties of the callbacks *)

Section MoreOnCollaborators.
Variable equalFold : string -> string -> bool.
Variable tabId : string.
Context {World : Type}.
Variable handle : forall X : Type, Call X -> World -> X * World.

Ltac exec_cbn H :=
  cbn [run bind bindE perform attempt] in H.

Ltac exec_step H :=
  match type of H with
  | context [handle ?X ?c ?w] =>
      let r := fresh "r" in
      let w' := fresh "w" in
      let E := fresh "E" in
      destruct (handle X c w) as [r w'] eqn:E; exec_cbn H
  end.

Ltac exec_try H :=
  match type of H with
  | context [handle (result ?X) ?c ?w] =>
      let r := fresh "r" in
      let w' := fresh "w" in
      let E := fresh "E" in
      let e := fresh "err" in
      destruct (handle (result X) c w) as [[r|e] w'] eqn:E; exec_cbn H
  end.

(** With a split direction, the layout step is one resolution of the target,
    followed by the split action or by the resolution error. *)
Lemma run_openLayoutAction_split (parsed : WidgetOpenToolInput.t)
    (blockData : Block) (w : World) :
  WidgetOpenToolInput.SplitDirection parsed <> "" ->
  WidgetOpenToolInput.TargetWidget parsed <> "" ->
  run handle (openLayoutAction tabId parsed blockData) w
  = let '(r, w1) :=
      handle _ (ResolveBlockIdFromPrefix tabId
                  (WidgetOpenToolInput.TargetWidget parsed)) w in
    (Returned
       match r with
       | OK targetBlockId =>
           OK {| ActionType :=
                   if String.eqb (WidgetOpenToolInput.SplitDirection parsed)
                                 "vertical"
                   then LayoutActionDataType_SplitVertical
                   else LayoutActionDataType_SplitHorizontal;
                 BlockId := OID blockData;
                 TargetBlockId := targetBlockId;
                 ActionPosition :=
                   if String.eqb (WidgetOpenToolInput.Position parsed) ""
                   then "after"
                   else WidgetOpenToolInput.Position parsed;
                 Focused := true |}
       | Err err =>
           Err (Wrapf ("failed to find target widget "
                       +:+ WidgetOpenToolInput.TargetWidget parsed) err)
       end,
     w1,
     [Ev (ResolveBlockIdFromPrefix tabId
            (WidgetOpenToolInput.TargetWidget parsed)) r]).
Proof.
  intros Hsd Htw. unfold openLayoutAction.
  rewrite (eqb_empty_false _ Hsd), (eqb_empty_false _ Htw).
  cbn [negb andb bindE bind attempt run].
  by destruct (handle _ _ w) as [[x|e] w1].
Qed.

(** X6: a successful [widget_open] with a split direction has created the
    block, then resolved the target, then queued exactly one action for the
    new block against the resolved target: SplitHorizontal for direction
    "horizontal", SplitVertical for "vertical", at the supplied position or
    "after" when none is given, with focus requested. *)
Theorem widget_open_split_action (input : JSON)
    (parsed : WidgetOpenToolInput.t) (w w' : World) (resp : Response)
    (t : list Event) :
  parseWidgetOpenInput equalFold input = OK parsed ->
  WidgetOpenToolInput.SplitDirection parsed <> "" ->
  run handle (widgetOpenCallback equalFold tabId input) w
    = (Returned (OK resp), w', t) ->
  exists blockData targetBlockId actionType position rest,
    (WidgetOpenToolInput.SplitDirection parsed = "horizontal"
       /\ actionType = LayoutActionDataType_SplitHorizontal
     \/ WidgetOpenToolInput.SplitDirection parsed = "vertical"
       /\ actionType = LayoutActionDataType_SplitVertical)
    /\ (WidgetOpenToolInput.Position parsed = "" /\ position = "after"
        \/ WidgetOpenToolInput.Position parsed <> ""
           /\ position = WidgetOpenToolInput.Position parsed)
    /\ t = Ev ContextWithUpdates tt
           :: Ev (CreateBlock tabId {| Meta := openMeta parsed |}) (OK blockData)
           :: Ev (ResolveBlockIdFromPrefix tabId
                    (WidgetOpenToolInput.TargetWidget parsed)) (OK targetBlockId)
           :: Ev (QueueLayoutActionForTab tabId
                    {| ActionType := actionType;
                       BlockId := OID blockData;
                       TargetBlockId := targetBlockId;
                       ActionPosition := position;
                       Focused := true |}) (OK tt)
           :: rest
    /\ createCalls rest = [] /\ resolveCalls rest = [] /\ queueCalls rest = []
    /\ deleteCalls rest = [].
Proof.
  intros Hp Hsd H.
  pose proof (parseWidgetOpenInput_ok _ _ _ Hp) as Hck.
  apply checkWidgetOpenInput_ok in Hck as (_ & _ & _ & Hsplit & _).
  destruct (Hsplit Hsd) as [Hdir Htw].
  apply goIndex_validDirections in Hdir.
  unfold widgetOpenCallback in H. rewrite Hp in H. exec_cbn H.
  exec_step H. destruct r. exec_try H; [|by inversion H].
  unfold bindE in H. rewrite run_bind, (run_openLayoutAction_split _ _ _ Hsd Htw) in H.
  exec_try H; [|by inversion H]. exec_try H; [|by inversion H]. destruct r1.
  exists r, r0,
    (if String.eqb (WidgetOpenToolInput.SplitDirection parsed) "vertical"
     then LayoutActionDataType_SplitVertical
     else LayoutActionDataType_SplitHorizontal),
    (if String.eqb (WidgetOpenToolInput.Position parsed) "" then "after"
     else WidgetOpenToolInput.Position parsed).
  assert (Hat :
    WidgetOpenToolInput.SplitDirection parsed = "horizontal"
      /\ (if String.eqb (WidgetOpenToolInput.SplitDirection parsed) "vertical"
          then LayoutActionDataType_SplitVertical
          else LayoutActionDataType_SplitHorizontal)
         = LayoutActionDataType_SplitHorizontal
    \/ WidgetOpenToolInput.SplitDirection parsed = "vertical"
      /\ (if String.eqb (WidgetOpenToolInput.SplitDirection parsed) "vertical"
          then LayoutActionDataType_SplitVertical
          else LayoutActionDataType_SplitHorizontal)
         = LayoutActionDataType_SplitVertical).
  { destruct Hdir as [Hd|Hd]; rewrite Hd; [left|right]; done. }
  assert (Hpos :
    WidgetOpenToolInput.Position parsed = ""
      /\ (if String.eqb (WidgetOpenToolInput.Position parsed) "" then "after"
          else WidgetOpenToolInput.Position parsed) = "after"
    \/ WidgetOpenToolInput.Position parsed <> ""
      /\ (if String.eqb (WidgetOpenToolInput.Position parsed) "" then "after"
          else WidgetOpenToolInput.Position parsed)
         = WidgetOpenToolInput.Position parsed).
  { destruct (String.eqb_spec (WidgetOpenToolInput.Position parsed) "");
      [by left|by right]. }
  destruct (String.eqb (WidgetOpenToolInput.WidgetType parsed) "term"); exec_cbn H.
  - exec_try H; [|by inversion H]. exec_step H. exec_step H.
    rewrite run_openResponse in H.
    destruct (_ <? _)%nat; [by inversion H|]. injection H as _ <- <-.
    eexists. by repeat split.
  - exec_step H. exec_step H. rewrite run_openResponse in H.
    destruct (_ <? _)%nat; [by inversion H|]. injection H as _ <- <-.
    eexists. by repeat split.
Qed.

(** X7: in [widget_open] the target of a split is resolved after the block
    is created.  When the target does not resolve, the callback returns
    "failed to find target widget <id>" wrapping the cause right after the
    failed resolution: the block stays created, and nothing is queued,
    started or sent for it. *)
Theorem widget_open_unresolved_target_keeps_block (input : JSON)
    (parsed : WidgetOpenToolInput.t) (w w1 w2 : World) (blockData : Block)
    (err : error) :
  parseWidgetOpenInput equalFold input = OK parsed ->
  WidgetOpenToolInput.SplitDirection parsed <> "" ->
  handle _ (CreateBlock tabId {| Meta := openMeta parsed |})
         (handle _ ContextWithUpdates w).2
  = (OK blockData, w1) ->
  handle _ (ResolveBlockIdFromPrefix tabId
              (WidgetOpenToolInput.TargetWidget parsed)) w1
  = (Err err, w2) ->
  run handle (widgetOpenCallback equalFold tabId input) w
  = (Returned (Err (Wrapf ("failed to find target widget "
                           +:+ WidgetOpenToolInput.TargetWidget parsed) err)),
     w2,
     [ Ev ContextWithUpdates tt;
       Ev (CreateBlock tabId {| Meta := openMeta parsed |}) (OK blockData);
       Ev (ResolveBlockIdFromPrefix tabId
             (WidgetOpenToolInput.TargetWidget parsed)) (Err err) ]).
Proof.
  intros Hp Hsd Hcreate Hresolve.
  pose proof (parseWidgetOpenInput_ok _ _ _ Hp) as Hck.
  apply checkWidgetOpenInput_ok in Hck as (_ & _ & _ & Hsplit & _).
  destruct (Hsplit Hsd) as [_ Htw].
  unfold widgetOpenCallback. rewrite Hp.
  cbn [run bind bindE perform attempt].
  destruct (handle _ ContextWithUpdates w) as [[] w0]. simpl in Hcreate.
  rewrite Hcreate. cbn [run bind bindE perform attempt].
  unfold bindE. rewrite run_bind, (run_openLayoutAction_split _ _ _ Hsd Htw).
  by rewrite Hresolve.
Qed.

(** The layout step of [widget_open] does not panic. *)
Lemma openLayoutAction_returns (parsed : WidgetOpenToolInput.t)
    (blockData : Block) (w w' : World) (msg : string) (t : list Event) :
  run handle (openLayoutAction tabId parsed blockData) w <> (Panicked msg, w', t).
Proof.
  unfold openLayoutAction. intros H.
  destruct (negb _ && negb _); exec_cbn H; [|by inversion H].
  exec_try H; by inversion H.
Qed.

(** X8: [widget_open] starts the controller only for type term, and only
    once the layout action of the created block has been queued with
    success: the one [ResyncController] call is for the id of that block and
    comes after the queueing.  For a term widget whose action was queued the
    call is always made.  When it fails, the callback returns "failed to
    start terminal controller" wrapping the cause and sends no update: the
    widget exists and is placed, but is not running. *)
Theorem widget_open_controller_start (input : JSON)
    (parsed : WidgetOpenToolInput.t) (w w' : World)
    (o : Outcome (result Response)) (t : list Event) :
  parseWidgetOpenInput equalFold input = OK parsed ->
  run handle (widgetOpenCallback equalFold tabId input) w = (o, w', t) ->
  (WidgetOpenToolInput.WidgetType parsed <> "term" -> resyncCalls t = [])
  /\ (forall tab id r, In (tab, id, r) (resyncCalls t) ->
        exists blockData a pre post,
          t = pre ++ Ev (ResyncController tabId (OID blockData) false) r :: post
          /\ createCalls pre
             = [(tabId, {| Meta := openMeta parsed |}, OK blockData)]
          /\ queueCalls pre = [(tabId, a, OK tt)]
          /\ resyncCalls pre = [] /\ resyncCalls post = []
          /\ queueCalls post = []
          /\ tab = tabId /\ id = OID blockData)
  /\ (forall tab id err, In (tab, id, Err err) (resyncCalls t) ->
        o = Returned (Err (Wrapf "failed to start terminal controller" err))
        /\ broadcasts t = [])
  /\ (WidgetOpenToolInput.WidgetType parsed = "term" ->
      forall tab a, In (tab, a, OK tt) (queueCalls t) ->
      exists r, resyncCalls t = [(tabId, BlockId a, r)]).
Proof.
  intros Hp H. unfold widgetOpenCallback in H. rewrite Hp in H. exec_cbn H.
  exec_step H. destruct r.
  exec_try H.
  2:{ inversion H; subst. split; [done|]. split; [by intros ? ? ? []|].
      split; [by intros ? ? ? []|]. by intros _ ? ? []. }
  unfold bindE in H. rewrite run_bind in H.
  destruct (run handle (openLayoutAction tabId parsed r) w1)
    as [[oa wa] ta] eqn:Ea.
  destruct (openLayoutAction_calls _ _ _ _ _ _ _ _ Ea)
    as (Hc & Hq & Hd & Hr & Hb & Hu).
  assert (Hbid : forall a, oa = Returned (OK a) -> BlockId a = OID r).
  { intros a ->. unfold openLayoutAction in Ea.
    destruct (negb _ && negb _); exec_cbn Ea.
    - exec_try Ea; by inversion Ea.
    - by inversion Ea. }
  destruct oa as [[a|aerr]|msg];
    [| |by destruct (openLayoutAction_returns _ _ _ _ _ _ Ea)]; exec_cbn H.
  2:{ injection H as <- <- <-. trace_norm. rewrite Hr, Hq. simpl.
      split; [done|]. split; [by intros ? ? ? []|].
      split; [by intros ? ? ? []|]. by intros _ ? ? []. }
  specialize (Hbid a eq_refl).
  exec_try H.
  2:{ injection H as <- <- <-. trace_norm. rewrite Hr, Hq. simpl.
      split; [done|]. split; [by intros ? ? ? []|].
      split; [by intros ? ? ? []|]. intros _ tab a' [[=]|[]]. }
  destruct r0.
  destruct (String.eqb_spec (WidgetOpenToolInput.WidgetType parsed) "term")
    as [Hterm|Hterm]; exec_cbn H.
  - exec_try H.
    + destruct r0. exec_step H. exec_step H. rewrite run_openResponse in H.
      assert (Ht : t = (Ev ContextWithUpdates tt
                        :: Ev (CreateBlock tabId {| Meta := openMeta parsed |}) (OK r)
                        :: ta ++ [Ev (QueueLayoutActionForTab tabId a) (OK tt)])
                       ++ Ev (ResyncController tabId (OID r) false) (OK tt)
                       :: [Ev ContextGetUpdatesRtn r0; Ev (SendUpdateEvents r0) r1]).
      { destruct (_ <? _)%nat; injection H as <- <- <-;
          simpl; by rewrite <- app_assoc. }
      clear H. subst t. trace_norm. rewrite Hr, Hq. simpl.
      split; [done|]. split; [|split].
      * intros tab id r' [[= <- <- <-]|[]].
        exists r, a,
          (Ev ContextWithUpdates tt
           :: Ev (CreateBlock tabId {| Meta := openMeta parsed |}) (OK r)
           :: ta ++ [Ev (QueueLayoutActionForTab tabId a) (OK tt)]),
          [Ev ContextGetUpdatesRtn r0; Ev (SendUpdateEvents r0) r1].
        split; [reflexivity|].
        trace_norm. rewrite Hr, Hq, Hc. by repeat split.
      * intros tab id e [[=]|[]].
      * intros _ tab a' [[= <- <-]|[]]. rewrite Hbid. by eexists.
    + injection H as <- <- <-.
      assert (Ht : Ev ContextWithUpdates tt
                   :: Ev (CreateBlock tabId {| Meta := openMeta parsed |}) (OK r)
                   :: ta ++ [Ev (QueueLayoutActionForTab tabId a) (OK tt);
                             Ev (ResyncController tabId (OID r) false) (Err err)]
                   = (Ev ContextWithUpdates tt
                      :: Ev (CreateBlock tabId {| Meta := openMeta parsed |}) (OK r)
                      :: ta ++ [Ev (QueueLayoutActionForTab tabId a) (OK tt)])
                     ++ Ev (ResyncController tabId (OID r) false) (Err err) :: []).
      { simpl. by rewrite <- app_assoc. }
      rewrite Ht. trace_norm. rewrite Hr, Hq, Hb. simpl.
      split; [done|]. split; [|split].
      * intros tab id r' [[= <- <- <-]|[]].
        exists r, a,
          (Ev ContextWithUpdates tt
           :: Ev (CreateBlock tabId {| Meta := openMeta parsed |}) (OK r)
           :: ta ++ [Ev (QueueLayoutActionForTab tabId a) (OK tt)]),
          [].
        split; [reflexivity|].
        trace_norm. rewrite Hr, Hq, Hc. by repeat split.
      * by intros tab id e [[= <- <- <-]|[]].
      * intros _ tab a' [[= <- <-]|[]]. rewrite Hbid. by eexists.
  - exec_step H. exec_step H. rewrite run_openResponse in H.
    assert (Hres : resyncCalls t = []).
    { destruct (_ <? _)%nat; injection H as <- <- <-; trace_norm;
        by rewrite Hr. }
    rewrite Hres. split; [done|]. split; [by intros ? ? ? []|].
    split; [by intros ? ? ? []|]. by intros Ht.
Qed.

(** X9: the updates of a command are sent at most once, as the last call,
    and never after a failure.  For each of the four callbacks, a run that
    returns an error has made no [SendUpdateEvents] call; any other run ends
    with the reading of the collected updates followed by the sending of
    exactly those, and has sent nothing before.  Only [widget_open] can end
    otherwise than by returning: the three other callbacks never panic. *)
Theorem updates_sent_once_on_success (quote : string -> string)
    (input : JSON) (w : World) :
  (forall o w' t,
     run handle (widgetOpenCallback equalFold tabId input) w = (o, w', t) ->
     match o with
     | Returned (Err _) => broadcasts t = []
     | _ =>
         exists pre updates,
           t = pre ++ [Ev ContextGetUpdatesRtn updates;
                       Ev (SendUpdateEvents updates) tt]
           /\ broadcasts pre = []
     end)
  /\ (forall o w' t,
        run handle (widgetCloseCallback equalFold tabId input) w = (o, w', t) ->
        match o with
        | Returned (Err _) => broadcasts t = []
        | Returned (OK _) =>
            exists pre updates,
              t = pre ++ [Ev ContextGetUpdatesRtn updates;
                          Ev (SendUpdateEvents updates) tt]
              /\ broadcasts pre = []
        | Panicked _ => False
        end)
  /\ (forall o w' t,
        run handle (widgetRenameCallback equalFold tabId quote input) w
        = (o, w', t) ->
        match o with
        | Returned (Err _) => broadcasts t = []
        | Returned (OK _) =>
            exists pre updates,
              t = pre ++ [Ev ContextGetUpdatesRtn updates;
                          Ev (SendUpdateEvents updates) tt]
              /\ broadcasts pre = []
        | Panicked _ => False
        end)
  /\ (forall o w' t,
        run handle (widgetMoveCallback equalFold tabId input) w = (o, w', t) ->
        match o with
        | Returned (Err _) => broadcasts t = []
        | Returned (OK _) =>
            exists pre updates,
              t = pre ++ [Ev ContextGetUpdatesRtn updates;
                          Ev (SendUpdateEvents updates) tt]
              /\ broadcasts pre = []
        | Panicked _ => False
        end).
Proof.
  split; [|split; [|split]]; intros o w' t H.
  - unfold widgetOpenCallback in H.
    destruct (parseWidgetOpenInput equalFold input) as [parsed|perr];
      exec_cbn H; [|by inversion H; subst].
    exec_step H. destruct r. exec_try H; [|by inversion H; subst].
    unfold bindE in H. rewrite run_bind in H.
    destruct (run handle (openLayoutAction tabId parsed r) w1)
      as [[oa wa] ta] eqn:Ea.
    destruct (openLayoutAction_calls _ _ _ _ _ _ _ _ Ea)
      as (Hc & Hq & Hd & Hr & Hb & Hu).
    destruct oa as [[a|aerr]|msg];
      [| |by destruct (openLayoutAction_returns _ _ _ _ _ _ Ea)]; exec_cbn H.
    2:{ injection H as <- <- <-. trace_norm. by rewrite Hb. }
    exec_try H.
    2:{ injection H as <- <- <-. trace_norm. by rewrite Hb. }
    destruct r0.
    destruct (String.eqb _ "term"); exec_cbn H.
    + exec_try H.
      2:{ injection H as <- <- <-. trace_norm. by rewrite Hb. }
      destruct r0. exec_step H. exec_step H. destruct r1.
      rewrite run_openResponse in H.
      assert (Hsuffix : exists pre,
        t = pre ++ [Ev ContextGetUpdatesRtn r0; Ev (SendUpdateEvents r0) tt]
        /\ broadcasts pre = []).
      { exists (Ev ContextWithUpdates tt
                :: Ev (CreateBlock tabId {| Meta := openMeta parsed |}) (OK r)
                :: ta ++ [Ev (QueueLayoutActionForTab tabId a) (OK tt);
                          Ev (ResyncController tabId (OID r) false) (OK tt)]).
        split.
        - destruct (_ <? _)%nat; injection H as <- <- <-;
            simpl; by rewrite <- app_assoc.
        - trace_norm. by rewrite Hb. }
      destruct Hsuffix as (pre & Ht & Hpre).
      destruct (_ <? _)%nat; injection H as <- _ _; by exists pre, r0.
    + exec_step H. exec_step H. destruct r1.
      rewrite run_openResponse in H.
      assert (Hsuffix : exists pre,
        t = pre ++ [Ev ContextGetUpdatesRtn r0; Ev (SendUpdateEvents r0) tt]
        /\ broadcasts pre = []).
      { exists (Ev ContextWithUpdates tt
                :: Ev (CreateBlock tabId {| Meta := openMeta parsed |}) (OK r)
                :: ta ++ [Ev (QueueLayoutActionForTab tabId a) (OK tt)]).
        split.
        - destruct (_ <? _)%nat; injection H as <- <- <-;
            simpl; by rewrite <- app_assoc.
        - trace_norm. by rewrite Hb. }
      destruct Hsuffix as (pre & Ht & Hpre).
      destruct (_ <? _)%nat; injection H as <- _ _; by exists pre, r0.
  - unfold widgetCloseCallback in H.
    destruct (parseWidgetCloseInput equalFold input) as [parsed|perr];
      exec_cbn H; [|by inversion H; subst].
    exec_step H. destruct r. exec_try H; [|by inversion H; subst].
    exec_try H; [|by inversion H; subst].
    exec_try H; [|by inversion H; subst].
    exec_step H. exec_step H. destruct r3. injection H as <- <- <-.
    by eexists [_; _; _; _], _.
  - unfold widgetRenameCallback in H.
    destruct (parseWidgetRenameInput equalFold input) as [parsed|perr];
      exec_cbn H; [|by inversion H; subst].
    exec_step H. destruct r. exec_try H; [|by inversion H; subst].
    exec_try H; [|by inversion H; subst].
    exec_step H. exec_step H. exec_step H. destruct r3. injection H as <- <- <-.
    by eexists [_; _; _; _], _.
  - unfold widgetMoveCallback in H.
    destruct (parseWidgetMoveInput equalFold input) as [parsed|perr];
      exec_cbn H; [|by inversion H; subst].
    exec_step H. destruct r. exec_try H; [|by inversion H; subst].
    exec_try H; [|by inversion H; subst].
    exec_try H; [|by inversion H; subst].
    exec_step H. exec_step H. destruct r3. injection H as <- <- <-.
    by eexists [_; _; _; _], _.
Qed.

(** X10: how [widget_close] fails.  When the id does not resolve, the
    callback returns "failed to find widget with ID <id>" wrapping the cause
    and has called nothing but the resolution: zero actions queued, nothing
    deleted, nothing sent.  When the delete fails, the Remove action has
    already been queued with success and stays queued; the callback returns
    "failed to close widget" wrapping the cause and sends no update. *)
Theorem widget_close_failures (input : JSON)
    (parsed : WidgetCloseToolInput.t) (w w' : World)
    (o : Outcome (result Response)) (t : list Event) :
  parseWidgetCloseInput equalFold input = OK parsed ->
  run handle (widgetCloseCallback equalFold tabId input) w = (o, w', t) ->
  (forall tab prefix err, In (tab, prefix, Err err) (resolveCalls t) ->
     o = Returned (Err (Wrapf ("failed to find widget with ID "
                               +:+ WidgetCloseToolInput.WidgetId parsed) err))
     /\ t = [ Ev ContextWithUpdates tt;
              Ev (ResolveBlockIdFromPrefix tabId
                    (WidgetCloseToolInput.WidgetId parsed)) (Err err) ])
  /\ (forall id recursive err, In (id, recursive, Err err) (deleteCalls t) ->
        o = Returned (Err (Wrapf "failed to close widget" err))
        /\ queueCalls t
           = [(tabId,
               {| ActionType := LayoutActionDataType_Remove;
                  BlockId := id;
                  TargetBlockId := "";
                  ActionPosition := "";
                  Focused := false |},
               OK tt)]
        /\ recursive = true
        /\ broadcasts t = []).
Proof.
  intros Hp H. unfold widgetCloseCallback in H. rewrite Hp in H. exec_cbn H.
  exec_step H. destruct r. exec_try H.
  2:{ injection H as <- <- <-. split.
      - by intros tab prefix e [[= <- <- <-]|[]].
      - by intros ? ? ? []. }
  exec_try H.
  2:{ injection H as <- <- <-. split.
      - intros tab prefix e [[=]|[]].
      - by intros ? ? ? []. }
  destruct r0. exec_try H.
  2:{ injection H as <- <- <-. split.
      - intros tab prefix e [[=]|[]].
      - by intros id rec e [[= <- <- <-]|[]]. }
  exec_step H. exec_step H. injection H as <- <- <-. split.
  - intros tab prefix e [[=]|[]].
  - intros id rec e [[=]|[]].
Qed.

(** X11: [widget_move] resolves the widget to move first and the target
    second, and queues nothing unless both resolve.  A failed first
    resolution ends the run with "failed to find widget with ID <id>"; a
    failed second one with "failed to find target widget with ID <id>"; when
    both resolve the one queueing call follows, whose failure is reported as
    "failed to move widget" and whose success gives the message "widget <id>
    moved <position> <direction> of widget <target>". *)
Theorem widget_move_resolution_order (input : JSON)
    (parsed : WidgetMoveToolInput.t) (w w' : World)
    (o : Outcome (result Response)) (t : list Event) :
  parseWidgetMoveInput equalFold input = OK parsed ->
  run handle (widgetMoveCallback equalFold tabId input) w = (o, w', t) ->
  let widgetId := WidgetMoveToolInput.WidgetId parsed in
  let targetWidgetId := WidgetMoveToolInput.TargetWidgetId parsed in
  (exists err,
     resolveCalls t = [(tabId, widgetId, Err err)]
     /\ queueCalls t = []
     /\ o = Returned (Err (Wrapf ("failed to find widget with ID " +:+ widgetId)
                                 err)))
  \/ (exists fullBlockId err,
        resolveCalls t = [(tabId, widgetId, OK fullBlockId);
                          (tabId, targetWidgetId, Err err)]
        /\ queueCalls t = []
        /\ o = Returned (Err (Wrapf ("failed to find target widget with ID "
                                     +:+ targetWidgetId) err)))
  \/ (exists fullBlockId targetBlockId a r,
        resolveCalls t = [(tabId, widgetId, OK fullBlockId);
                          (tabId, targetWidgetId, OK targetBlockId)]
        /\ queueCalls t = [(tabId, a, r)]
        /\ BlockId a = fullBlockId /\ TargetBlockId a = targetBlockId
        /\ match r with
           | Err err => o = Returned (Err (Wrapf "failed to move widget" err))
           | OK _ =>
               o = Returned
                     (OK {[ "success" := JBool true;
                            "message" :=
                              JString ("widget " +:+ widgetId +:+ " moved "
                                       +:+ ActionPosition a +:+ " "
                                       +:+ WidgetMoveToolInput.Direction parsed
                                       +:+ " of widget " +:+ targetWidgetId) ]})
           end).
Proof.
  intros Hp H widgetId targetWidgetId. subst widgetId targetWidgetId.
  unfold widgetMoveCallback in H. rewrite Hp in H. exec_cbn H.
  exec_step H. destruct r. exec_try H.
  2:{ injection H as <- <- <-. left. by eexists. }
  exec_try H.
  2:{ injection H as <- <- <-. right; left. by eexists _, _. }
  exec_try H.
  2:{ injection H as <- <- <-. right; right. by eexists _, _, _, (Err _). }
  destruct r1. exec_step H. exec_step H. injection H as <- <- <-.
  right; right. by eexists _, _, _, (OK tt).
Qed.

(** X12: what [widget_rename] calls.  After the resolution of the id it makes
    one [UpdateObjectMeta] call on the block reference of the resolved id,
    with a map that holds the single key "display:name" bound to the new
    name, and with merging requested; only when that succeeds does it
    publish the object update and send the collected updates, and it then
    reports "widget <id> renamed to <quoted name>".  A failed resolution or
    update ends the run with its own error. *)
Theorem widget_rename_calls_shape (quote : string -> string) (input : JSON)
    (parsed : WidgetRenameToolInput.t) (w w' : World)
    (o : Outcome (result Response)) (t : list Event) :
  parseWidgetRenameInput equalFold input = OK parsed ->
  run handle (widgetRenameCallback equalFold tabId quote input) w = (o, w', t) ->
  let widgetId := WidgetRenameToolInput.WidgetId parsed in
  let name := WidgetRenameToolInput.Name parsed in
  let resolve := ResolveBlockIdFromPrefix tabId widgetId in
  let update := fun fullBlockId =>
    UpdateObjectMeta (mkORef "block" fullBlockId) {[ "display:name" := name ]} true in
  (exists err,
     t = [Ev ContextWithUpdates tt; Ev resolve (Err err)]
     /\ o = Returned (Err (Wrapf ("failed to find widget with ID " +:+ widgetId)
                                 err)))
  \/ (exists fullBlockId err,
        t = [Ev ContextWithUpdates tt; Ev resolve (OK fullBlockId);
             Ev (update fullBlockId) (Err err)]
        /\ o = Returned (Err (Wrapf "failed to rename widget" err)))
  \/ (exists fullBlockId updates,
        t = [Ev ContextWithUpdates tt; Ev resolve (OK fullBlockId);
             Ev (update fullBlockId) (OK tt);
             Ev (SendWaveObjUpdate (mkORef "block" fullBlockId)) tt;
             Ev ContextGetUpdatesRtn updates;
             Ev (SendUpdateEvents updates) tt]
        /\ o = Returned
                 (OK {[ "success" := JBool true;
                        "message" := JString ("widget " +:+ widgetId
                                              +:+ " renamed to " +:+ quote name) ]})).
Proof.
  intros Hp H widgetId name resolve update. subst widgetId name resolve update.
  unfold widgetRenameCallback in H. rewrite Hp in H. exec_cbn H.
  exec_step H. destruct r. exec_try H.
  2:{ injection H as <- <- <-. left. by eexists. }
  exec_try H.
  2:{ injection H as <- <- <-. right; left. by eexists _, _. }
  destruct r0. exec_step H. destruct r0. exec_step H. exec_step H. destruct r1.
  injection H as <- <- <-. right; right. by eexists _, _.
Qed.

(** X13: a validation failure has no effect.  For each of the four
    callbacks, the run makes no collaborator call exactly when the input
    does not parse; it then returns the parse error and leaves the state as
    it was.  An input that parses always opens the update collection
    first. *)
Theorem invalid_input_makes_no_call (quote : string -> string)
    (input : JSON) (w : World) :
  let openRun := run handle (widgetOpenCallback equalFold tabId input) w in
  let closeRun := run handle (widgetCloseCallback equalFold tabId input) w in
  let renameRun :=
    run handle (widgetRenameCallback equalFold tabId quote input) w in
  let moveRun := run handle (widgetMoveCallback equalFold tabId input) w in
  ((openRun.2 = [] <-> exists err, parseWidgetOpenInput equalFold input = Err err)
   /\ (forall err, parseWidgetOpenInput equalFold input = Err err ->
       openRun = (Returned (Err err), w, []))
   /\ (forall parsed, parseWidgetOpenInput equalFold input = OK parsed ->
       exists rest, openRun.2 = Ev ContextWithUpdates tt :: rest))
  /\ ((closeRun.2 = [] <-> exists err, parseWidgetCloseInput equalFold input = Err err)
      /\ (forall err, parseWidgetCloseInput equalFold input = Err err ->
          closeRun = (Returned (Err err), w, []))
      /\ (forall parsed, parseWidgetCloseInput equalFold input = OK parsed ->
          exists rest, closeRun.2 = Ev ContextWithUpdates tt :: rest))
  /\ ((renameRun.2 = [] <-> exists err, parseWidgetRenameInput equalFold input = Err err)
      /\ (forall err, parseWidgetRenameInput equalFold input = Err err ->
          renameRun = (Returned (Err err), w, []))
      /\ (forall parsed, parseWidgetRenameInput equalFold input = OK parsed ->
          exists rest, renameRun.2 = Ev ContextWithUpdates tt :: rest))
  /\ ((moveRun.2 = [] <-> exists err, parseWidgetMoveInput equalFold input = Err err)
      /\ (forall err, parseWidgetMoveInput equalFold input = Err err ->
          moveRun = (Returned (Err err), w, []))
      /\ (forall parsed, parseWidgetMoveInput equalFold input = OK parsed ->
          exists rest, moveRun.2 = Ev ContextWithUpdates tt :: rest)).
Proof.
  assert (Hshape : forall (A : Type) (p : result A)
                     (k : A -> Prog (result Response)),
    let r := run handle (bindE (Ret p) (fun a => bindE (perform ContextWithUpdates)
                                                   (fun _ => k a))) w in
    (r.2 = [] <-> exists err, p = Err err)
    /\ (forall err, p = Err err -> r = (Returned (Err err), w, []))
    /\ (forall a, p = OK a -> exists rest, r.2 = Ev ContextWithUpdates tt :: rest)).
  { intros A [a|err] k; cbn [run bind bindE perform].
    - destruct (handle _ ContextWithUpdates w) as [[] w0].
      destruct (run handle _ w0) as [[o1 w1] t1]. simpl.
      split; [|split].
      + split; [done|]. by intros [e ?].
      + done.
      + intros a' _. by eexists.
    - simpl. split; [|split].
      + split; [|done]. by eexists.
      + by intros e [= ->].
      + done. }
  split; [|split; [|split]].
  - apply (Hshape _ (parseWidgetOpenInput equalFold input)).
  - apply (Hshape _ (parseWidgetCloseInput equalFold input)).
  - apply (Hshape _ (parseWidgetRenameInput equalFold input)).
  - apply (Hshape _ (parseWidgetMoveInput equalFold input)).
Qed.

(** X14: a web widget needs its url.  A [widget_open] payload that decodes
    with type web and an empty or absent url is refused with "url is
    required for web widget", whatever its other fields, before any
    collaborator is called. *)
Theorem widget_open_web_requires_url (input : JSON)
    (decoded : WidgetOpenToolInput.t) :
  Unmarshal equalFold WidgetOpenToolInput.fields input WidgetOpenToolInput.zero
    = OK decoded ->
  WidgetOpenToolInput.WidgetType decoded = "web" ->
  WidgetOpenToolInput.Url decoded = "" ->
  parseWidgetOpenInput equalFold input
    = Err (Errorf "url is required for web widget")
  /\ forall w : World,
       run handle (widgetOpenCallback equalFold tabId input) w
       = (Returned (Err (Errorf "url is required for web widget")), w, []).
Proof.
  intros Hdec Hwt Hurl.
  assert (Hparse : parseWidgetOpenInput equalFold input
                   = Err (Errorf "url is required for web widget")).
  { unfold parseWidgetOpenInput. rewrite parseWith_nonnull, Hdec.
    - unfold checkWidgetOpenInput. by rewrite Hwt, Hurl.
    - intros ->. simpl in Hdec. injection Hdec as <-. discriminate. }
  split; [done|]. intros w. unfold widgetOpenCallback. by rewrite Hparse.
Qed.
End MoreOnCollaborators.

(** * The descriptions of a tool call *)

Section DescriptionFacts.
Variable equalFold : string -> string -> bool.
Variable quote : string -> string.
Variable unmarshalTypeErrorText : string -> string -> string.
Variable tabId : string.
Context {World : Type}.
Variable handle : forall X : Type, Call X -> World -> X * World.

(** X15: the description of a [widget_move] call names the position the
    callback uses.  For a valid input there is one position, the supplied
    one or "after" when none is given, such that the description reads
    "moving widget <id> <position> <direction> of widget <target>" and every
    layout action the callback queues carries that position. *)
Theorem widget_move_description_matches_action (input : JSON)
    (parsed : WidgetMoveToolInput.t) :
  parseWidgetMoveInput equalFold input = OK parsed ->
  exists position,
    (position = "before" \/ position = "after")
    /\ (WidgetMoveToolInput.Position parsed = "" -> position = "after")
    /\ (WidgetMoveToolInput.Position parsed <> "" ->
        position = WidgetMoveToolInput.Position parsed)
    /\ widgetMoveToolCallDesc equalFold unmarshalTypeErrorText input
       = "moving widget " +:+ WidgetMoveToolInput.WidgetId parsed +:+ " "
         +:+ position +:+ " " +:+ WidgetMoveToolInput.Direction parsed
         +:+ " of widget " +:+ WidgetMoveToolInput.TargetWidgetId parsed
    /\ forall (w w' : World) o t,
         run handle (widgetMoveCallback equalFold tabId input) w = (o, w', t) ->
         forall tab a r, In (tab, a, r) (queueCalls t) ->
         ActionPosition a = position.
Proof.
  intros Hp.
  destruct (parseWith_ok _ _ _ _ _ _ Hp) as (decoded & _ & Hck).
  apply checkWidgetMoveInput_ok in Hck as (-> & _ & _ & _ & Hpos).
  exists (if String.eqb (WidgetMoveToolInput.Position decoded) "" then "after"
          else WidgetMoveToolInput.Position decoded).
  split; [|split; [|split; [|split]]].
  - destruct (String.eqb_spec (WidgetMoveToolInput.Position decoded) "") as [He|Hne];
      [by right|]. by apply goIndex_validPositions, Hpos.
  - by intros ->.
  - intros Hne. by rewrite (eqb_empty_false _ Hne).
  - unfold widgetMoveToolCallDesc. by rewrite Hp.
  - intros w w' o t H. unfold widgetMoveCallback in H. rewrite Hp in H.
    cbn [run bind bindE perform attempt] in H.
    destruct (handle _ ContextWithUpdates w) as [[] w0].
    cbn [run bind bindE perform attempt] in H.
    destruct (handle _ (ResolveBlockIdFromPrefix tabId _) w0) as [[id|e] w1];
      cbn [run bind bindE perform attempt] in H.
    2:{ injection H as <- <- <-. by intros ? ? ? []. }
    destruct (handle _ (ResolveBlockIdFromPrefix tabId _) w1) as [[tid|e] w2];
      cbn [run bind bindE perform attempt] in H.
    2:{ injection H as <- <- <-. by intros ? ? ? []. }
    destruct (handle _ (QueueLayoutActionForTab tabId _) w2) as [[[]|e] w3];
      cbn [run bind bindE perform attempt] in H.
    2:{ injection H as <- <- <-. by intros tab a r [[= <- <- <-]|[]]. }
    destruct (handle _ ContextGetUpdatesRtn w3) as [u w4].
    cbn [run bind bindE perform attempt] in H.
    destruct (handle _ (SendUpdateEvents u) w4) as [[] w5].
    injection H as <- <- <-. by intros tab a r [[= <- <- <-]|[]].
Qed.

(** X16: the description of a valid [widget_open] call follows the widget
    type: the url for web; the file for preview when one is given; the
    connection for term when one is given; a fixed text for cpuplot.  For a
    term widget the description names any non-empty connection, also
    "local", which the metadata of the created block leaves out. *)
Theorem widget_open_description_by_type (input : JSON)
    (parsed : WidgetOpenToolInput.t) :
  parseWidgetOpenInput equalFold input = OK parsed ->
  let wt := WidgetOpenToolInput.WidgetType parsed in
  let conn := WidgetOpenToolInput.Connection parsed in
  let file := WidgetOpenToolInput.File parsed in
  let desc := widgetOpenToolCallDesc equalFold quote unmarshalTypeErrorText input in
  wt = "web"
    /\ desc = "opening web widget with URL " +:+ quote (WidgetOpenToolInput.Url parsed)
  \/ wt = "preview"
    /\ (file = "" -> desc = "opening preview widget")
    /\ (file <> "" -> desc = "opening preview widget for " +:+ quote file)
  \/ wt = "term"
    /\ (conn = "" -> desc = "opening terminal widget")
    /\ (conn <> "" -> desc = "opening terminal connected to " +:+ quote conn)
    /\ (conn = "local" -> openMeta parsed !! "connection" = None)
  \/ wt = "cpuplot" /\ desc = "opening CPU graph widget".
Proof.
  intros Hp wt conn file desc. subst wt conn file desc.
  pose proof (parseWidgetOpenInput_ok _ _ _ Hp) as Hck.
  apply checkWidgetOpenInput_ok in Hck as (_ & Hwt & _).
  apply goIndex_validTypes in Hwt.
  unfold widgetOpenToolCallDesc, openMeta. rewrite Hp.
  destruct Hwt as [Hw|[Hw|[Hw|Hw]]]; rewrite Hw;
    cbn [String.eqb Ascii.eqb Bool.eqb].
  - right; right; left. split; [done|].
    destruct (String.eqb_spec (WidgetOpenToolInput.Connection parsed) "") as [He|Hne];
      simpl.
    + rewrite He. by repeat split.
    + split; [done|]. split; [done|]. intros ->. by simplify_map_eq.
  - by left.
  - right; left. split; [done|].
    by destruct (String.eqb_spec (WidgetOpenToolInput.File parsed) "").
  - by right; right; right.
Qed.
End DescriptionFacts.

(** * The rename dialog *)

Section RenameDialogFacts.
Variable trim : string -> string.
Variable makeORef : string -> string -> string.
Variable blockOid : string.
Variable currentName : string.
Variable rpc : string -> RenameWidgetModal.MetaValue -> option RenameWidgetModal.Thrown.

Abbreviation handleRename :=
  (RenameWidgetModal.handleRename trim makeORef blockOid currentName rpc).
Abbreviation onKeyDown :=
  (RenameWidgetModal.onKeyDown trim makeORef blockOid currentName rpc).

(** X17: what the rename dialog sends.  When the trimmed text equals the
    current name the dialog just closes: no call is made and the state is
    untouched.  Otherwise exactly one [SetMetaCommand] is sent, for the block
    reference of the widget, with the trimmed text as display name, or with
    [null] when the trimmed text is empty (an empty string is never sent);
    the dialog closes only when the call resolves; when it rejects the
    message thrown becomes the error shown; in both cases the text is kept
    and the renaming flag ends false. *)
Theorem rename_dialog_sends_trimmed_or_null (st : RenameWidgetModal.State) :
  let trimmed := trim (RenameWidgetModal.newName st) in
  let oref := makeORef "block" blockOid in
  let st' := (handleRename st).1 in
  let effects := (handleRename st).2 in
  (trimmed = currentName ->
   st' = st /\ effects = [RenameWidgetModal.PopModal])
  /\ (trimmed <> currentName ->
      exists value,
        (trimmed = "" /\ value = RenameWidgetModal.MetaNull
         \/ trimmed <> "" /\ value = RenameWidgetModal.MetaString trimmed)
        /\ RenameWidgetModal.metaCommands effects = [(oref, value)]
        /\ RenameWidgetModal.newName st' = RenameWidgetModal.newName st
        /\ RenameWidgetModal.isRenaming st' = false
        /\ match rpc oref value with
           | None =>
               In RenameWidgetModal.PopModal effects
               /\ RenameWidgetModal.error st' = RenameWidgetModal.error st
           | Some thrown =>
               ~ In RenameWidgetModal.PopModal effects
               /\ RenameWidgetModal.error st'
                  = RenameWidgetModal.errorMessage thrown
           end).
Proof.
  intros trimmed oref st' effects.
  subst trimmed oref st' effects.
  unfold RenameWidgetModal.handleRename.
  destruct (String.eqb_spec (trim (RenameWidgetModal.newName st)) currentName)
    as [He|Hne].
  - split; [done|]. by intros Hc.
  - split; [done|]. intros _.
    exists (if String.eqb (trim (RenameWidgetModal.newName st)) ""
            then RenameWidgetModal.MetaNull
            else RenameWidgetModal.MetaString (trim (RenameWidgetModal.newName st))).
    split.
    { destruct (String.eqb_spec (trim (RenameWidgetModal.newName st)) "");
        [by left|by right]. }
    destruct (rpc _ _) as [thrown|]; simpl; repeat split; try done.
    + intros [?|[?|[?|[?|[?|[]]]]]]; discriminate.
    + by right; right; left.
Qed.

(** X18: while a message is shown, as after a failed rename, the Enter key
    does not rename: it does nothing until the text is edited.  Editing
    clears the message, and Enter then runs the rename again on the edited
    text.  While a composition is in progress Enter never renames. *)
Theorem rename_dialog_enter_blocked_by_error (st1 : RenameWidgetModal.State) :
  RenameWidgetModal.error st1 <> "" ->
  onKeyDown "Enter" false st1 = (st1, [])
  /\ (forall value,
        RenameWidgetModal.error (RenameWidgetModal.onChange value st1) = ""
        /\ onKeyDown "Enter" false (RenameWidgetModal.onChange value st1)
           = handleRename (RenameWidgetModal.onChange value st1))
  /\ (forall key st2, onKeyDown key true st2 = (st2, [])).
Proof.
  intros Herr.
  unfold RenameWidgetModal.onKeyDown. split; [|split].
  - by rewrite (eqb_empty_false _ Herr).
  - intros value. by split.
  - intros key st2. by rewrite andb_false_r.
Qed.
End RenameDialogFacts.

(** * Dropped and picked files *)

Section FileIntakeFacts.
Variable File : Type.
Variable fileName : File -> string.
Variable isAcceptableFile : File -> bool.
Variable SizeError : Type.
Variable validateFileSize : File -> option SizeError.
Variable formatFileSizeError : SizeError -> string.
Variable addFile : File -> bool.
Variable showNumber : nat -> string.

Abbreviation addFiles :=
  (WaveAi.addFiles File SizeError validateFileSize addFile).
Abbreviation handleDrop :=
  (WaveAi.handleDrop File fileName isAcceptableFile SizeError validateFileSize
     formatFileSizeError addFile showNumber).
Abbreviation handleFileChange :=
  (WaveAi.handleFileChange File isAcceptableFile SizeError validateFileSize
     formatFileSizeError addFile showNumber).
Abbreviation addedFiles := (WaveAi.addedFiles File).
Abbreviation errorsSet := (WaveAi.errorsSet File).

(** The loop only passes files to [addFile]: the files of the list up to the
    first one that is too large or whose adding fails. *)
Lemma addFiles_spec (acceptableFiles : list File) :
  exists added rest,
    (addFiles acceptableFiles).2 = map (WaveAi.AddFile File) added
    /\ acceptableFiles = added ++ rest
    /\ Forall (fun f => validateFileSize f = None) added
    /\ match (addFiles acceptableFiles).1 with
       | WaveAi.LoopDone _ => rest = [] /\ Forall (fun f => addFile f = true) added
       | WaveAi.LoopSizeError _ sizeError =>
           exists f rest', rest = f :: rest'
                           /\ validateFileSize f = Some sizeError
                           /\ Forall (fun f => addFile f = true) added
       | WaveAi.LoopThrew _ =>
           exists f before, added = before ++ [f] /\ addFile f = false
                            /\ Forall (fun f => addFile f = true) before
       end.
Proof.
  induction acceptableFiles as [|file l IH]; simpl.
  - exists [], []. by repeat split.
  - destruct (validateFileSize file) as [se|] eqn:Ev.
    { exists [], (file :: l). simpl. repeat split; try done. by eexists _, _. }
    destruct (addFile file) eqn:Ea.
    + destruct IH as (added & rest & He & Hl & Hv & Hend).
      destruct (WaveAi.addFiles File SizeError validateFileSize addFile l)
        as [e effects]. simpl in *.
      exists (file :: added), rest. simpl. rewrite He, Hl.
      split; [done|]. split; [done|]. split; [by constructor|].
      destruct e.
      * destruct Hend as [-> Ha]. split; [done|]. by constructor.
      * destruct Hend as (f & rest' & -> & Hf & Ha).
        exists f, rest'. repeat split; try done. by constructor.
      * destruct Hend as (f & before & -> & Hf & Ha).
        exists f, (file :: before). repeat split; try done. by constructor.
    + exists [file], l. simpl. split; [done|]. split; [done|].
      split; [by repeat constructor|]. exists file, []. by repeat split.
Qed.

Lemma addedFiles_map (l : list File) :
  addedFiles (map (WaveAi.AddFile File) l) = l.
Proof. induction l as [|f l IH]; simpl; [done|]. by f_equal. Qed.

Lemma errorsSet_map (l : list File) :
  errorsSet (map (WaveAi.AddFile File) l) = [].
Proof. induction l as [|f l IH]; simpl; done. Qed.

Lemma rejected_count (files : list File) :
  length files - length (List.filter isAcceptableFile files)
  = length (List.filter (fun f => negb (isAcceptableFile f)) files).
Proof.
  induction files as [|f l IH]; simpl; [done|].
  destruct (isAcceptableFile f); simpl; [done|].
  pose proof (List.filter_length_le isAcceptableFile l). lia.
Qed.

(** The loop in terms of the files it added. *)
Lemma addFiles_prefix (acceptableFiles : list File) :
  exists rest,
    acceptableFiles = addedFiles (addFiles acceptableFiles).2 ++ rest
    /\ errorsSet (addFiles acceptableFiles).2 = []
    /\ Forall (fun f => validateFileSize f = None)
              (addedFiles (addFiles acceptableFiles).2)
    /\ match (addFiles acceptableFiles).1 with
       | WaveAi.LoopDone _ =>
           rest = []
           /\ Forall (fun f => addFile f = true)
                     (addedFiles (addFiles acceptableFiles).2)
       | WaveAi.LoopSizeError _ sizeError =>
           (exists f rest', rest = f :: rest'
                            /\ validateFileSize f = Some sizeError)
           /\ Forall (fun f => addFile f = true)
                     (addedFiles (addFiles acceptableFiles).2)
       | WaveAi.LoopThrew _ =>
           exists f before,
             addedFiles (addFiles acceptableFiles).2 = before ++ [f]
             /\ addFile f = false
             /\ Forall (fun f => addFile f = true) before
       end.
Proof.
  destruct (addFiles_spec acceptableFiles) as (added & rest & He & Hl & Hv & Hend).
  exists rest. rewrite He, addedFiles_map, errorsSet_map.
  split; [done|]. split; [done|]. split; [done|].
  destruct (addFiles acceptableFiles).1.
  - done.
  - destruct Hend as (f & rest' & -> & Hf & Ha). split; [|done]. by eexists _, _.
  - destruct Hend as (f & before & -> & Hf & Ha). by exists f, before.
Qed.

Lemma handleDrop_loop (files : list File) :
  addedFiles (handleDrop files).2
  = addedFiles (addFiles (List.filter isAcceptableFile files)).2
  /\ ((handleDrop files).1 = WaveAi.Threw <->
      (addFiles (List.filter isAcceptableFile files)).1 = WaveAi.LoopThrew SizeError).
Proof.
  unfold WaveAi.handleDrop. destruct files as [|f0 fs]; [done|].
  destruct (addFiles (List.filter isAcceptableFile (f0 :: fs))) as [e effects].
  destruct e; [destruct (_ <? _)%nat| |]; simpl;
    unfold WaveAi.addedFiles; rewrite ?omap_app; simpl;
    rewrite ?app_nil_r; done.
Qed.

Lemma handleFileChange_loop (files : list File) :
  addedFiles (handleFileChange files).2
  = addedFiles (addFiles (List.filter isAcceptableFile files)).2
  /\ ((handleFileChange files).1 = WaveAi.Threw <->
      (addFiles (List.filter isAcceptableFile files)).1 = WaveAi.LoopThrew SizeError).
Proof.
  unfold WaveAi.handleFileChange.
  destruct (addFiles (List.filter isAcceptableFile files)) as [e effects].
  destruct e; [destruct (_ <? _)%nat| |]; simpl;
    unfold WaveAi.addedFiles; rewrite ?omap_app; simpl;
    rewrite ?app_nil_r; done.
Qed.

Lemma loop_to_handler (files : list File) (completion : WaveAi.Completion)
    (added : list File) :
  added = addedFiles (addFiles (List.filter isAcceptableFile files)).2 ->
  (completion = WaveAi.Threw <->
   (addFiles (List.filter isAcceptableFile files)).1 = WaveAi.LoopThrew SizeError) ->
  exists rest,
    List.filter isAcceptableFile files = added ++ rest
    /\ Forall (fun f => isAcceptableFile f = true /\ validateFileSize f = None)
              added
    /\ (completion = WaveAi.Completed ->
        rest = [] \/ exists f rest', rest = f :: rest'
                                    /\ is_Some (validateFileSize f))
    /\ (completion = WaveAi.Threw <->
        exists f, last added = Some f /\ addFile f = false)
    /\ (completion = WaveAi.Completed ->
        Forall (fun f => addFile f = true) added)
    /\ (completion = WaveAi.Threw ->
        exists before f,
          added = before ++ [f]
          /\ Forall (fun f => addFile f = true) before
          /\ addFile f = false).
Proof.
  intros -> Hthrew.
  destruct (addFiles_prefix (List.filter isAcceptableFile files))
    as (rest & Hl & _ & Hv & Hend).
  exists rest. split; [done|]. split.
  { apply Forall_forall. intros f Hf. split.
    - assert (Hin : In f (List.filter isAcceptableFile files)).
      { rewrite Hl. apply in_or_app. left. by apply list_elem_of_In. }
      by apply filter_In in Hin as [_ ?].
    - by apply (proj1 (Forall_forall _ _) Hv). }
  destruct (addFiles (List.filter isAcceptableFile files)).1 eqn:Ee.
  - destruct Hend as [-> Ha]. split; [by left|].
    split; [|split; [done|by intros Hc; apply Hthrew in Hc]].
    rewrite Hthrew. split; [done|]. intros (f & Hf & Hfalse).
    apply last_Some_elem_of in Hf.
    by rewrite (proj1 (Forall_forall _ _) Ha f Hf) in Hfalse.
  - destruct Hend as [(f & rest' & -> & Hf) Ha]. split.
    { intros _. right. by eexists _, _. }
    split; [|split; [done|by intros Hc; apply Hthrew in Hc]].
    rewrite Hthrew. split; [done|]. intros (g & Hg & Hfalse).
    apply last_Some_elem_of in Hg.
    by rewrite (proj1 (Forall_forall _ _) Ha g Hg) in Hfalse.
  - destruct Hend as (f & before & Hadded & Hf & Ha). split.
    { intros ->. by pose proof (proj2 Hthrew eq_refl). }
    split; [|split].
    + rewrite Hthrew. split; [|done]. intros _. exists f.
      by rewrite Hadded, last_snoc.
    + intros ->. by pose proof (proj2 Hthrew eq_refl).
    + intros _. by exists before, f.
Qed.

(** X19: which files reach [addFile].  In [handleDrop] and in
    [handleFileChange] alike, the files added are, in order, the files of
    accepted type up to the first one that is too large or whose adding
    fails: none of another type, none too large, and after a size error no
    later file, even a good one.  When the handler returns, every file it
    added was added with success; when it throws, the last file it added is
    the one whose adding failed and every file before it was added with
    success.  The handler throws exactly when the last file it added
    failed. *)
Theorem added_files_are_an_accepted_prefix (files : list File) :
  (exists rest,
     List.filter isAcceptableFile files
     = addedFiles (handleDrop files).2 ++ rest
     /\ Forall (fun f => isAcceptableFile f = true /\ validateFileSize f = None)
               (addedFiles (handleDrop files).2)
     /\ ((handleDrop files).1 = WaveAi.Completed ->
         rest = [] \/ exists f rest', rest = f :: rest'
                                     /\ is_Some (validateFileSize f))
     /\ ((handleDrop files).1 = WaveAi.Threw <->
         exists f, last (addedFiles (handleDrop files).2) = Some f
                   /\ addFile f = false)
     /\ ((handleDrop files).1 = WaveAi.Completed ->
         Forall (fun f => addFile f = true) (addedFiles (handleDrop files).2))
     /\ ((handleDrop files).1 = WaveAi.Threw ->
         exists before f,
           addedFiles (handleDrop files).2 = before ++ [f]
           /\ Forall (fun f => addFile f = true) before
           /\ addFile f = false))
  /\ (exists rest,
        List.filter isAcceptableFile files
        = addedFiles (handleFileChange files).2 ++ rest
        /\ Forall (fun f => isAcceptableFile f = true /\ validateFileSize f = None)
                  (addedFiles (handleFileChange files).2)
        /\ ((handleFileChange files).1 = WaveAi.Completed ->
            rest = [] \/ exists f rest', rest = f :: rest'
                                        /\ is_Some (validateFileSize f))
        /\ ((handleFileChange files).1 = WaveAi.Threw <->
            exists f, last (addedFiles (handleFileChange files).2) = Some f
                      /\ addFile f = false)
        /\ ((handleFileChange files).1 = WaveAi.Completed ->
            Forall (fun f => addFile f = true)
                   (addedFiles (handleFileChange files).2))
        /\ ((handleFileChange files).1 = WaveAi.Threw ->
            exists before f,
              addedFiles (handleFileChange files).2 = before ++ [f]
              /\ Forall (fun f => addFile f = true) before
              /\ addFile f = false)).
Proof.
  split.
  - destruct (handleDrop_loop files) as [Ha Ht].
    by apply loop_to_handler.
  - destruct (handleFileChange_loop files) as [Ha Ht].
    by apply loop_to_handler.
Qed.

Lemma errorsSet_added_app (added : list File) (post : list (WaveAi.Effect File)) :
  errorsSet (map (WaveAi.AddFile File) added ++ post) = errorsSet post.
Proof.
  pose proof (errorsSet_map added) as Hmap.
  unfold WaveAi.errorsSet in *. by rewrite omap_app, Hmap.
Qed.

Lemma addFiles_all_ok (l : list File) :
  Forall (fun f => validateFileSize f = None /\ addFile f = true) l ->
  addFiles l = (WaveAi.LoopDone SizeError, map (WaveAi.AddFile File) l).
Proof.
  induction 1 as [|f l [Hv Ha] _ IH]; simpl; [done|].
  by rewrite Hv, Ha, IH.
Qed.

Lemma addFiles_size_error (added : list File) (f : File) (rest : list File)
    (sizeError : SizeError) :
  Forall (fun f => validateFileSize f = None /\ addFile f = true) added ->
  validateFileSize f = Some sizeError ->
  addFiles (added ++ f :: rest)
  = (WaveAi.LoopSizeError SizeError sizeError, map (WaveAi.AddFile File) added).
Proof.
  intros Hadded Hf. induction Hadded as [|g l [Hv Ha] _ IH]; simpl.
  - by rewrite Hf.
  - by rewrite Hv, Ha, IH.
Qed.

(** X20: files of an unsupported type.  When every file of an accepted type
    is small enough and is added, and some file is of another type, a drop
    adds the accepted files and then sets one error that announces as many
    rejected files as it lists names, with the plural for two or more; the
    file input, given the same files, sets no error: it adds the accepted
    files, then warns on the console with the number of rejected files, and
    then clears the input, and does nothing else. *)
Theorem unsupported_files_are_reported_on_drop (files : list File) :
  Forall (fun f => validateFileSize f = None /\ addFile f = true)
         (List.filter isAcceptableFile files) ->
  List.filter (fun f => negb (isAcceptableFile f)) files <> [] ->
  handleDrop files
  = (WaveAi.Completed,
     [WaveAi.PreventDefault File; WaveAi.StopPropagation File;
      WaveAi.SetIsDragOver File false]
     ++ map (WaveAi.AddFile File) (List.filter isAcceptableFile files)
     ++ [WaveAi.SetError File
           (showNumber
              (length (List.filter (fun f => negb (isAcceptableFile f)) files))
            +:+ " file"
            +:+ (if (1 <? length (List.filter
                                    (fun f => negb (isAcceptableFile f)) files))%nat
                 then "s" else "")
            +:+ " rejected (unsupported type): "
            +:+ String.concat ", "
                  (map fileName
                       (List.filter (fun f => negb (isAcceptableFile f)) files))
            +:+ ". Supported: images, PDFs, and text/code files.")])
  /\ errorsSet (handleFileChange files).2 = []
  /\ In (WaveAi.ConsoleWarn File
           (showNumber
              (length (List.filter (fun f => negb (isAcceptableFile f)) files))
            +:+ " files were rejected due to unsupported file types"))
        (handleFileChange files).2
  /\ handleFileChange files
     = (WaveAi.Completed,
        map (WaveAi.AddFile File) (List.filter isAcceptableFile files)
        ++ [WaveAi.ConsoleWarn File
              (showNumber
                 (length (List.filter (fun f => negb (isAcceptableFile f))
                                      files))
               +:+ " files were rejected due to unsupported file types");
            WaveAi.ClearInputValue File]).
Proof.
  intros Hok Hrej.
  assert (Hlt : (length (List.filter isAcceptableFile files) <? length files)%nat
                = true).
  { apply Nat.ltb_lt. pose proof (rejected_count files) as Hc.
    pose proof (List.filter_length_le isAcceptableFile files).
    destruct (List.filter (fun f => negb (isAcceptableFile f)) files) eqn:E;
      [done|]. simpl in Hc. lia. }
  unfold WaveAi.handleDrop, WaveAi.handleFileChange.
  rewrite (addFiles_all_ok _ Hok), Hlt, rejected_count.
  destruct files as [|f0 fs]; [done|].
  split; [done|]. split; [|split; [|done]].
  - cbn [snd]. by rewrite errorsSet_added_app.
  - simpl. apply in_or_app. right. by left.
Qed.

(** X21: a file that is too large.  When the files of an accepted type
    start with files that are added and then reach one that is too large,
    both handlers add the files before it, set the size error of that file
    as their only error and return: no later file is added, and a drop says
    nothing of files of an unsupported type. *)
Theorem size_error_stops_the_intake (files added rest : list File) (f : File)
    (sizeError : SizeError) :
  List.filter isAcceptableFile files = added ++ f :: rest ->
  Forall (fun f => validateFileSize f = None /\ addFile f = true) added ->
  validateFileSize f = Some sizeError ->
  handleDrop files
  = (WaveAi.Completed,
     [WaveAi.PreventDefault File; WaveAi.StopPropagation File;
      WaveAi.SetIsDragOver File false]
     ++ map (WaveAi.AddFile File) added
     ++ [WaveAi.SetError File (formatFileSizeError sizeError)])
  /\ handleFileChange files
     = (WaveAi.Completed,
        map (WaveAi.AddFile File) added
        ++ [WaveAi.SetError File (formatFileSizeError sizeError);
            WaveAi.ClearInputValue File]).
Proof.
  intros Hfiles Hadded Hf.
  unfold WaveAi.handleDrop, WaveAi.handleFileChange.
  rewrite Hfiles, (addFiles_size_error added f rest sizeError Hadded Hf).
  destruct files as [|f0 fs]; [|done].
  by destruct added.
Qed.

(** X22: what the file input always does.  [handleFileChange] clears the
    input exactly when it returns, and then as its last step; when an
    [addFile] fails the input keeps its value.  Neither handler sets more
    than one error, and an error of the file input is always the size error
    of a file of an accepted type. *)
Theorem file_input_cleared_iff_completed (files : list File) :
  ((handleFileChange files).1 = WaveAi.Completed <->
   last (handleFileChange files).2 = Some (WaveAi.ClearInputValue File))
  /\ ((handleFileChange files).1 = WaveAi.Threw ->
      ~ In (WaveAi.ClearInputValue File) (handleFileChange files).2)
  /\ length (errorsSet (handleDrop files).2) <= 1
  /\ length (errorsSet (handleFileChange files).2) <= 1
  /\ (forall message, In message (errorsSet (handleFileChange files).2) ->
      exists g sizeError,
        In g files /\ isAcceptableFile g = true
        /\ validateFileSize g = Some sizeError
        /\ message = formatFileSizeError sizeError).
Proof.
  destruct (addFiles_spec (List.filter isAcceptableFile files))
    as (added & rest & He & Hl & Hv & Hend).
  unfold WaveAi.handleDrop, WaveAi.handleFileChange.
  destruct (addFiles (List.filter isAcceptableFile files)) as [e effects].
  simpl in He, Hend. subst effects.
  assert (Hlast : last (map (WaveAi.AddFile File) added)
                  <> Some (WaveAi.ClearInputValue File)).
  { intros Hlast. apply last_Some_elem_of, list_elem_of_In, in_map_iff in Hlast.
    by destruct Hlast as (? & ? & _). }
  assert (Hin : ~ In (WaveAi.ClearInputValue File)
                     (map (WaveAi.AddFile File) added)).
  { intros Hin. apply in_map_iff in Hin. by destruct Hin as (? & ? & _). }
  pose proof (errorsSet_added_app added) as Herr.
  pose proof (errorsSet_map added) as Herr0.
  assert (Hdrop : forall post,
             length (errorsSet post) <= 1 ->
             length (errorsSet
                       ([WaveAi.PreventDefault File; WaveAi.StopPropagation File;
                         WaveAi.SetIsDragOver File false]
                        ++ map (WaveAi.AddFile File) added ++ post)) <= 1).
  { intros post Hpost. simpl. by rewrite Herr. }
  destruct e as [|sizeError|].
  - destruct (_ <? _)%nat; cbn [fst snd].
    + split; [by rewrite last_app|]. split; [done|].
      split; [destruct files; cbn [fst snd]; [simpl; lia|]; apply Hdrop; simpl; lia|].
      rewrite Herr. simpl. split; [lia|]. by intros ? [].
    + split; [by rewrite last_app|]. split; [done|].
      split; [destruct files; cbn [fst snd]; [simpl; lia|];
              rewrite <- (app_nil_r (map _ added)); apply Hdrop; simpl; lia|].
      rewrite Herr. simpl. split; [lia|]. by intros ? [].
  - destruct Hend as (g & rest' & -> & Hg & Ha). cbn [fst snd].
    split; [by rewrite last_app|]. split; [done|].
    split; [destruct files; cbn [fst snd]; [simpl; lia|]; apply Hdrop; simpl; lia|].
    rewrite Herr. simpl. split; [lia|].
    intros message [<-|[]]. exists g, sizeError.
    assert (Hgin : In g (List.filter isAcceptableFile files)).
    { rewrite Hl. apply in_or_app. right. by left. }
    apply filter_In in Hgin as [? ?]. done.
  - cbn [fst snd]. split; [by split|]. split; [done|].
    split; [destruct files; cbn [fst snd]; [simpl; lia|];
            rewrite <- (app_nil_r (map _ added)); apply Hdrop; simpl; lia|].
    rewrite Herr0. simpl. split; [lia|]. by intros ? [].
Qed.
End FileIntakeFacts.

(** * Further properties of the second copy of the open tool *)

Section MoreLegacyFacts.
Variable equalFold : string -> string -> bool.
Variable tabId : string.
Context {World : Type}.
Variable handle : forall X : Type, Call X -> World -> X * World.

(** X25: the second copy of [widget_open] never splits.  Whatever the
    payload, it resolves no id, starts no controller, deletes nothing and
    updates no metadata; the one action it may queue is an Insert of the
    block it created, with no target and no position, and focus
    requested. *)
Theorem legacy_open_always_inserts (input : JSON) (w w' : World)
    (o : Outcome (result Response)) (t : list Event) :
  run handle (Legacy.widgetOpenCallback equalFold tabId input) w = (o, w', t) ->
  resolveCalls t = [] /\ resyncCalls t = [] /\ deleteCalls t = []
  /\ updateMetaCalls t = []
  /\ (queueCalls t = []
      \/ exists blockDef blockData r,
           createCalls t = [(tabId, blockDef, OK blockData)]
           /\ queueCalls t
              = [(tabId,
                  {| ActionType := LayoutActionDataType_Insert;
                     BlockId := OID blockData;
                     TargetBlockId := "";
                     ActionPosition := "";
                     Focused := true |},
                  r)]).
Proof.
  intros H. unfold Legacy.widgetOpenCallback in H.
  destruct (Legacy.parseWidgetOpenInput equalFold input) as [parsed|perr];
    cbn [run bind bindE perform attempt] in H.
  2:{ injection H as <- <- <-. repeat split; try done. by left. }
  destruct (handle _ ContextWithUpdates w) as [[] w0].
  cbn [run bind bindE perform attempt] in H.
  destruct (handle _ (CreateBlock tabId {| Meta := Legacy.openMeta parsed |}) w0)
    as [[bd|cerr] w1]; cbn [run bind bindE perform attempt] in H.
  2:{ injection H as <- <- <-. repeat split; try done. by left. }
  match type of H with
  | context [handle ?X ?c w1] => destruct (handle X c w1) as [[[]|qerr] w2]
  end; cbn [run bind bindE perform attempt] in H.
  2:{ injection H as <- <- <-. repeat split; try done. right.
      by eexists _, bd, _. }
  destruct (handle _ ContextGetUpdatesRtn w2) as [u w3].
  cbn [run bind bindE perform attempt] in H.
  destruct (handle _ (SendUpdateEvents u) w3) as [[] w4].
  rewrite run_openResponse in H.
  destruct (String.length (OID bd) <? 8)%nat; injection H as <- <- <-;
    (repeat split; try done); right; by eexists _, bd, _.
Qed.
End MoreLegacyFacts.

(** * The further theorems at concrete inputs *)

Lemma mistyped_field_is_rejected_witness :
  In ("widget_id", JBool true) mistypedMembers
  /\ JBool true <> JNull
  /\ (forall s, JBool true <> JString s)
  /\ knownKey asciiFold widgetCloseSchema "widget_id" = true
  /\ exists kind field,
       In field (properties widgetCloseSchema)
       /\ parseWidgetCloseInput asciiFold (JObject mistypedMembers)
          = Err (Wrapf "failed to unmarshal input"
                       (UnmarshalTypeError kind field)).
Proof.
  split; [by left|]. split; [discriminate|]. split; [discriminate|].
  split; [vm_compute; reflexivity|].
  destruct (mistyped_field_is_rejected asciiFold mistypedMembers "widget_id"
              (JBool true)) as (_ & Hclose & _ & _);
    [by left|discriminate|discriminate|].
  apply Hclose. vm_compute; reflexivity.
Defined.

Lemma widget_open_split_action_witness :
  let parsed := WidgetOpenToolInput.mk "term" "" "" "" "vertical" "ef56gh78" "" in
  let t := openSplitRun.2 in
  parseWidgetOpenInput asciiFold splitPayload = OK parsed
  /\ WidgetOpenToolInput.SplitDirection parsed <> ""
  /\ openSplitRun = (Returned (OK openSplitResponse), openSplitRun.1.2, t)
  /\ exists blockData targetBlockId actionType position rest,
       (WidgetOpenToolInput.SplitDirection parsed = "horizontal"
          /\ actionType = LayoutActionDataType_SplitHorizontal
        \/ WidgetOpenToolInput.SplitDirection parsed = "vertical"
          /\ actionType = LayoutActionDataType_SplitVertical)
       /\ (WidgetOpenToolInput.Position parsed = "" /\ position = "after"
           \/ WidgetOpenToolInput.Position parsed <> ""
              /\ position = WidgetOpenToolInput.Position parsed)
       /\ t = Ev ContextWithUpdates tt
              :: Ev (CreateBlock "tab1" {| Meta := openMeta parsed |}) (OK blockData)
              :: Ev (ResolveBlockIdFromPrefix "tab1"
                       (WidgetOpenToolInput.TargetWidget parsed)) (OK targetBlockId)
              :: Ev (QueueLayoutActionForTab "tab1"
                       {| ActionType := actionType;
                          BlockId := OID blockData;
                          TargetBlockId := targetBlockId;
                          ActionPosition := position;
                          Focused := true |}) (OK tt)
              :: rest
       /\ createCalls rest = [] /\ resolveCalls rest = [] /\ queueCalls rest = []
       /\ deleteCalls rest = [].
Proof.
  intros parsed t. split; [vm_compute; reflexivity|]. split; [discriminate|].
  split; [vm_compute; reflexivity|].
  apply (widget_open_split_action asciiFold "tab1" (storeHandle noFaults)
           splitPayload parsed demoStore openSplitRun.1.2 openSplitResponse t);
    [vm_compute; reflexivity|discriminate|vm_compute; reflexivity].
Defined.

Lemma widget_open_unresolved_target_keeps_block_witness :
  let parsed := WidgetOpenToolInput.mk "term" "" "" "" "vertical" "zz99" "" in
  let blockData := mkBlock "0a1b2c3d-4e5f-6789" in
  let err := Errorf "block not found or ambiguous" in
  let w1 :=
    (storeHandle noFaults _ (CreateBlock "tab1" {| Meta := openMeta parsed |})
       (storeHandle noFaults _ ContextWithUpdates demoStore).2).2 in
  parseWidgetOpenInput asciiFold splitUnknownTargetPayload = OK parsed
  /\ WidgetOpenToolInput.SplitDirection parsed <> ""
  /\ storeHandle noFaults _ (CreateBlock "tab1" {| Meta := openMeta parsed |})
       (storeHandle noFaults _ ContextWithUpdates demoStore).2
     = (OK blockData, w1)
  /\ storeHandle noFaults _
       (ResolveBlockIdFromPrefix "tab1" (WidgetOpenToolInput.TargetWidget parsed))
       w1
     = (Err err, w1)
  /\ run (storeHandle noFaults)
         (widgetOpenCallback asciiFold "tab1" splitUnknownTargetPayload) demoStore
     = (Returned (Err (Wrapf ("failed to find target widget "
                              +:+ WidgetOpenToolInput.TargetWidget parsed) err)),
        w1,
        [ Ev ContextWithUpdates tt;
          Ev (CreateBlock "tab1" {| Meta := openMeta parsed |}) (OK blockData);
          Ev (ResolveBlockIdFromPrefix "tab1"
                (WidgetOpenToolInput.TargetWidget parsed)) (Err err) ]).
Proof.
  intros parsed blockData err w1. split; [vm_compute; reflexivity|].
  split; [discriminate|]. split; [vm_compute; reflexivity|].
  split; [vm_compute; reflexivity|].
  apply (widget_open_unresolved_target_keeps_block asciiFold "tab1"
           (storeHandle noFaults) splitUnknownTargetPayload parsed demoStore
           w1 w1 blockData err);
    [vm_compute; reflexivity|discriminate|vm_compute; reflexivity
    |vm_compute; reflexivity].
Defined.

Lemma widget_open_controller_start_witness :
  let parsed := WidgetOpenToolInput.mk "term" "" "" "devbox" "" "" "" in
  let o := openTermFailedStartRun.1.1 in
  let t := openTermFailedStartRun.2 in
  parseWidgetOpenInput asciiFold termPayload = OK parsed
  /\ openTermFailedStartRun = (o, openTermFailedStartRun.1.2, t)
  /\ In ("tab1", "0a1b2c3d-4e5f-6789", Err (Errorf "controller unavailable"))
        (resyncCalls t)
  /\ (WidgetOpenToolInput.WidgetType parsed <> "term" -> resyncCalls t = [])
  /\ (forall tab id r, In (tab, id, r) (resyncCalls t) ->
        exists blockData a pre post,
          t = pre ++ Ev (ResyncController "tab1" (OID blockData) false) r :: post
          /\ createCalls pre
             = [("tab1", {| Meta := openMeta parsed |}, OK blockData)]
          /\ queueCalls pre = [("tab1", a, OK tt)]
          /\ resyncCalls pre = [] /\ resyncCalls post = []
          /\ queueCalls post = []
          /\ tab = "tab1" /\ id = OID blockData)
  /\ (forall tab id err, In (tab, id, Err err) (resyncCalls t) ->
        o = Returned (Err (Wrapf "failed to start terminal controller" err))
        /\ broadcasts t = [])
  /\ (WidgetOpenToolInput.WidgetType parsed = "term" ->
      forall tab a, In (tab, a, OK tt) (queueCalls t) ->
      exists r, resyncCalls t = [("tab1", BlockId a, r)]).
Proof.
  intros parsed o t. split; [vm_compute; reflexivity|].
  split; [vm_compute; reflexivity|]. split; [vm_compute; by left|].
  apply (widget_open_controller_start asciiFold "tab1"
           (storeHandle resyncFails) termPayload parsed demoStore
           openTermFailedStartRun.1.2 o t); vm_compute; reflexivity.
Defined.

Lemma widget_close_failures_witness :
  let parsed := WidgetCloseToolInput.mk "ab12cd34" in
  let o := closeFailedDeleteRun.1.1 in
  let t := closeFailedDeleteRun.2 in
  parseWidgetCloseInput asciiFold closePayload = OK parsed
  /\ closeFailedDeleteRun = (o, closeFailedDeleteRun.1.2, t)
  /\ In ("ab12cd34-0000", true, Err (Errorf "delete refused")) (deleteCalls t)
  /\ (forall tab prefix err, In (tab, prefix, Err err) (resolveCalls t) ->
        o = Returned (Err (Wrapf ("failed to find widget with ID "
                                  +:+ WidgetCloseToolInput.WidgetId parsed) err))
        /\ t = [ Ev ContextWithUpdates tt;
                 Ev (ResolveBlockIdFromPrefix "tab1"
                       (WidgetCloseToolInput.WidgetId parsed)) (Err err) ])
  /\ (forall id recursive err, In (id, recursive, Err err) (deleteCalls t) ->
        o = Returned (Err (Wrapf "failed to close widget" err))
        /\ queueCalls t
           = [("tab1",
               {| ActionType := LayoutActionDataType_Remove;
                  BlockId := id;
                  TargetBlockId := "";
                  ActionPosition := "";
                  Focused := false |},
               OK tt)]
        /\ recursive = true
        /\ broadcasts t = []).
Proof.
  intros parsed o t. split; [vm_compute; reflexivity|].
  split; [vm_compute; reflexivity|]. split; [vm_compute; by left|].
  apply (widget_close_failures asciiFold "tab1" (storeHandle deleteFails)
           closePayload parsed demoStore closeFailedDeleteRun.1.2 o t);
    vm_compute; reflexivity.
Defined.

Lemma widget_move_resolution_order_witness :
  let parsed := WidgetMoveToolInput.mk "ab12cd34" "ef56gh78" "vertical" "" in
  let o := moveRun.1.1 in
  let t := moveRun.2 in
  let widgetId := WidgetMoveToolInput.WidgetId parsed in
  let targetWidgetId := WidgetMoveToolInput.TargetWidgetId parsed in
  parseWidgetMoveInput asciiFold movePayload = OK parsed
  /\ moveRun = (o, moveRun.1.2, t)
  /\ ((exists err,
         resolveCalls t = [("tab1", widgetId, Err err)]
         /\ queueCalls t = []
         /\ o = Returned (Err (Wrapf ("failed to find widget with ID "
                                      +:+ widgetId) err)))
      \/ (exists fullBlockId err,
            resolveCalls t = [("tab1", widgetId, OK fullBlockId);
                              ("tab1", targetWidgetId, Err err)]
            /\ queueCalls t = []
            /\ o = Returned (Err (Wrapf ("failed to find target widget with ID "
                                         +:+ targetWidgetId) err)))
      \/ (exists fullBlockId targetBlockId a r,
            resolveCalls t = [("tab1", widgetId, OK fullBlockId);
                              ("tab1", targetWidgetId, OK targetBlockId)]
            /\ queueCalls t = [("tab1", a, r)]
            /\ BlockId a = fullBlockId /\ TargetBlockId a = targetBlockId
            /\ match r with
               | Err err => o = Returned (Err (Wrapf "failed to move widget" err))
               | OK _ =>
                   o = Returned
                         (OK {[ "success" := JBool true;
                                "message" :=
                                  JString ("widget " +:+ widgetId +:+ " moved "
                                           +:+ ActionPosition a +:+ " "
                                           +:+ WidgetMoveToolInput.Direction parsed
                                           +:+ " of widget " +:+ targetWidgetId) ]})
               end)).
Proof.
  intros parsed o t widgetId targetWidgetId. split; [vm_compute; reflexivity|].
  split; [vm_compute; reflexivity|].
  apply (widget_move_resolution_order asciiFold "tab1"
           (storeHandle noFaults) movePayload parsed demoStore moveRun.1.2 o t);
    vm_compute; reflexivity.
Defined.

Lemma widget_rename_calls_shape_witness :
  let parsed := WidgetRenameToolInput.mk "ab12cd34" "build" in
  let o := renameRun.1.1 in
  let t := renameRun.2 in
  let widgetId := WidgetRenameToolInput.WidgetId parsed in
  let name := WidgetRenameToolInput.Name parsed in
  let resolve := ResolveBlockIdFromPrefix "tab1" widgetId in
  let update := fun fullBlockId =>
    UpdateObjectMeta (mkORef "block" fullBlockId) {[ "display:name" := name ]} true in
  parseWidgetRenameInput asciiFold renamePayload = OK parsed
  /\ renameRun = (o, renameRun.1.2, t)
  /\ ((exists err,
         t = [Ev ContextWithUpdates tt; Ev resolve (Err err)]
         /\ o = Returned (Err (Wrapf ("failed to find widget with ID "
                                      +:+ widgetId) err)))
      \/ (exists fullBlockId err,
            t = [Ev ContextWithUpdates tt; Ev resolve (OK fullBlockId);
                 Ev (update fullBlockId) (Err err)]
            /\ o = Returned (Err (Wrapf "failed to rename widget" err)))
      \/ (exists fullBlockId updates,
            t = [Ev ContextWithUpdates tt; Ev resolve (OK fullBlockId);
                 Ev (update fullBlockId) (OK tt);
                 Ev (SendWaveObjUpdate (mkORef "block" fullBlockId)) tt;
                 Ev ContextGetUpdatesRtn updates;
                 Ev (SendUpdateEvents updates) tt]
            /\ o = Returned
                     (OK {[ "success" := JBool true;
                            "message" := JString ("widget " +:+ widgetId
                                                  +:+ " renamed to "
                                                  +:+ quoteName name) ]}))).
Proof.
  intros parsed o t widgetId name resolve update.
  split; [vm_compute; reflexivity|]. split; [vm_compute; reflexivity|].
  apply (widget_rename_calls_shape asciiFold "tab1" (storeHandle noFaults)
           quoteName renamePayload parsed demoStore renameRun.1.2 o t);
    vm_compute; reflexivity.
Defined.

Lemma widget_open_web_requires_url_witness :
  let decoded := WidgetOpenToolInput.mk "web" "" "" "" "" "" "" in
  Unmarshal asciiFold WidgetOpenToolInput.fields webWithoutUrlPayload
    WidgetOpenToolInput.zero = OK decoded
  /\ WidgetOpenToolInput.WidgetType decoded = "web"
  /\ WidgetOpenToolInput.Url decoded = ""
  /\ parseWidgetOpenInput asciiFold webWithoutUrlPayload
     = Err (Errorf "url is required for web widget")
  /\ forall w : Store,
       run (storeHandle noFaults)
           (widgetOpenCallback asciiFold "tab1" webWithoutUrlPayload) w
       = (Returned (Err (Errorf "url is required for web widget")), w, []).
Proof.
  intros decoded. split; [vm_compute; reflexivity|]. split; [reflexivity|].
  split; [reflexivity|].
  apply (widget_open_web_requires_url asciiFold "tab1"
           (storeHandle noFaults) webWithoutUrlPayload decoded);
    [vm_compute; reflexivity|reflexivity|reflexivity].
Defined.

Lemma widget_move_description_matches_action_witness :
  let parsed := WidgetMoveToolInput.mk "ab12cd34" "ef56gh78" "vertical" "" in
  parseWidgetMoveInput asciiFold movePayload = OK parsed
  /\ exists position,
       (position = "before" \/ position = "after")
       /\ (WidgetMoveToolInput.Position parsed = "" -> position = "after")
       /\ (WidgetMoveToolInput.Position parsed <> "" ->
           position = WidgetMoveToolInput.Position parsed)
       /\ widgetMoveToolCallDesc asciiFold typeErrorText movePayload
          = "moving widget " +:+ WidgetMoveToolInput.WidgetId parsed +:+ " "
            +:+ position +:+ " " +:+ WidgetMoveToolInput.Direction parsed
            +:+ " of widget " +:+ WidgetMoveToolInput.TargetWidgetId parsed
       /\ forall (w w' : Store) o t,
            run (storeHandle noFaults)
                (widgetMoveCallback asciiFold "tab1" movePayload) w = (o, w', t) ->
            forall tab a r, In (tab, a, r) (queueCalls t) ->
            ActionPosition a = position.
Proof.
  intros parsed. split; [vm_compute; reflexivity|].
  apply (widget_move_description_matches_action asciiFold typeErrorText "tab1"
           (storeHandle noFaults) movePayload parsed);
    vm_compute; reflexivity.
Defined.

Lemma widget_open_description_by_type_witness :
  let parsed := WidgetOpenToolInput.mk "term" "" "" "local" "" "" "" in
  let wt := WidgetOpenToolInput.WidgetType parsed in
  let conn := WidgetOpenToolInput.Connection parsed in
  let file := WidgetOpenToolInput.File parsed in
  let desc := widgetOpenToolCallDesc asciiFold quoteName typeErrorText
                localTermPayload in
  parseWidgetOpenInput asciiFold localTermPayload = OK parsed
  /\ (wt = "web"
        /\ desc = "opening web widget with URL "
                  +:+ quoteName (WidgetOpenToolInput.Url parsed)
      \/ wt = "preview"
        /\ (file = "" -> desc = "opening preview widget")
        /\ (file <> "" -> desc = "opening preview widget for " +:+ quoteName file)
      \/ wt = "term"
        /\ (conn = "" -> desc = "opening terminal widget")
        /\ (conn <> "" -> desc = "opening terminal connected to " +:+ quoteName conn)
        /\ (conn = "local" -> openMeta parsed !! "connection" = None)
      \/ wt = "cpuplot" /\ desc = "opening CPU graph widget").
Proof.
  intros parsed wt conn file desc. split; [vm_compute; reflexivity|].
  apply (widget_open_description_by_type asciiFold quoteName typeErrorText
           localTermPayload parsed); vm_compute; reflexivity.
Defined.

Lemma rename_dialog_enter_blocked_by_error_witness :
  RenameWidgetModal.error failedRenameState <> ""
  /\ RenameWidgetModal.onKeyDown demoTrim demoMakeORef "ab12cd34-0000" "shell"
       rpcRejects "Enter" false failedRenameState
     = (failedRenameState, [])
  /\ (forall value,
        RenameWidgetModal.error
          (RenameWidgetModal.onChange value failedRenameState) = ""
        /\ RenameWidgetModal.onKeyDown demoTrim demoMakeORef "ab12cd34-0000"
             "shell" rpcRejects "Enter" false
             (RenameWidgetModal.onChange value failedRenameState)
           = RenameWidgetModal.handleRename demoTrim demoMakeORef "ab12cd34-0000"
               "shell" rpcRejects
               (RenameWidgetModal.onChange value failedRenameState))
  /\ (forall key st2,
        RenameWidgetModal.onKeyDown demoTrim demoMakeORef "ab12cd34-0000" "shell"
          rpcRejects key true st2 = (st2, [])).
Proof.
  split; [vm_compute; discriminate|].
  apply (rename_dialog_enter_blocked_by_error demoTrim demoMakeORef
           "ab12cd34-0000" "shell" rpcRejects failedRenameState).
  vm_compute; discriminate.
Defined.

Lemma unsupported_files_are_reported_on_drop_witness :
  Forall (fun f => demoValidateFileSize f = None /\ demoAddFile f = true)
         (List.filter demoIsAcceptableFile droppedFiles)
  /\ List.filter (fun f => negb (demoIsAcceptableFile f)) droppedFiles <> []
  /\ WaveAi.handleDrop demoFile demoFileName demoIsAcceptableFile nat
       demoValidateFileSize demoFormatFileSizeError demoAddFile pretty
       droppedFiles
     = (WaveAi.Completed,
        [WaveAi.PreventDefault demoFile; WaveAi.StopPropagation demoFile;
         WaveAi.SetIsDragOver demoFile false;
         WaveAi.AddFile demoFile ("a.png", 10);
         WaveAi.AddFile demoFile ("b.txt", 20);
         WaveAi.SetError demoFile
           "2 files rejected (unsupported type): tool.exe, run.exe. Supported: images, PDFs, and text/code files."])
  /\ WaveAi.errorsSet demoFile
       (WaveAi.handleFileChange demoFile demoIsAcceptableFile nat
          demoValidateFileSize demoFormatFileSizeError demoAddFile pretty
          droppedFiles).2 = []
  /\ In (WaveAi.ConsoleWarn demoFile
           "2 files were rejected due to unsupported file types")
        (WaveAi.handleFileChange demoFile demoIsAcceptableFile nat
           demoValidateFileSize demoFormatFileSizeError demoAddFile pretty
           droppedFiles).2
  /\ WaveAi.handleFileChange demoFile demoIsAcceptableFile nat
       demoValidateFileSize demoFormatFileSizeError demoAddFile pretty
       droppedFiles
     = (WaveAi.Completed,
        [WaveAi.AddFile demoFile ("a.png", 10);
         WaveAi.AddFile demoFile ("b.txt", 20);
         WaveAi.ConsoleWarn demoFile
           "2 files were rejected due to unsupported file types";
         WaveAi.ClearInputValue demoFile]).
Proof.
  assert (Hadded : Forall (fun f => demoValidateFileSize f = None
                                    /\ demoAddFile f = true)
                          (List.filter demoIsAcceptableFile droppedFiles))
    by repeat constructor.
  assert (Hrejected : List.filter (fun f => negb (demoIsAcceptableFile f))
                        droppedFiles <> [])
    by (vm_compute; discriminate).
  split; [exact Hadded|]. split; [exact Hrejected|].
  generalize (unsupported_files_are_reported_on_drop demoFile demoFileName
                demoIsAcceptableFile nat demoValidateFileSize
                demoFormatFileSizeError demoAddFile pretty droppedFiles
                Hadded Hrejected).
  vm_compute. exact (fun H => H).
Defined.

Lemma size_error_stops_the_intake_witness :
  let added : list demoFile := [("a.png", 10)] in
  let f : demoFile := ("big.pdf", 99) in
  let rest : list demoFile := [("b.txt", 20)] in
  List.filter demoIsAcceptableFile droppedLargeFiles = added ++ f :: rest
  /\ Forall (fun f => demoValidateFileSize f = None /\ demoAddFile f = true) added
  /\ demoValidateFileSize f = Some 99
  /\ WaveAi.handleDrop demoFile demoFileName demoIsAcceptableFile nat
       demoValidateFileSize demoFormatFileSizeError demoAddFile pretty
       droppedLargeFiles
     = (WaveAi.Completed,
        [WaveAi.PreventDefault demoFile; WaveAi.StopPropagation demoFile;
         WaveAi.SetIsDragOver demoFile false]
        ++ map (WaveAi.AddFile demoFile) added
        ++ [WaveAi.SetError demoFile (demoFormatFileSizeError 99)])
  /\ WaveAi.handleFileChange demoFile demoIsAcceptableFile nat
       demoValidateFileSize demoFormatFileSizeError demoAddFile pretty
       droppedLargeFiles
     = (WaveAi.Completed,
        map (WaveAi.AddFile demoFile) added
        ++ [WaveAi.SetError demoFile (demoFormatFileSizeError 99);
            WaveAi.ClearInputValue demoFile]).
Proof.
  intros added f rest. split; [vm_compute; reflexivity|].
  split; [by repeat constructor|]. split; [vm_compute; reflexivity|].
  apply (size_error_stops_the_intake demoFile demoFileName demoIsAcceptableFile
           nat demoValidateFileSize demoFormatFileSizeError demoAddFile pretty
           droppedLargeFiles added rest f 99);
    [vm_compute; reflexivity|by repeat constructor|vm_compute; reflexivity].
Defined.

Lemma legacy_open_short_id_slice_witness :
  (let blockDef :=
     {| Meta := Legacy.openMeta
                  (Legacy.WidgetOpenToolInput.mk "term" "" "" "devbox") |} in
   let blockData := mkBlock "short" in
   legacyShortIdRun
   = (legacyShortIdRun.1.1, legacyShortIdRun.1.2, legacyShortIdRun.2)
   /\ createCalls legacyShortIdRun.2 = [("tab1", blockDef, OK blockData)]
   /\ String.length (OID blockData) < 8
   /\ broadcasts legacyShortIdRun.2 <> []
   /\ legacyShortIdRun.1.1 = Panicked "slice bounds out of range")
  /\ (let blockDef :=
        {| Meta := Legacy.openMeta
                     (Legacy.WidgetOpenToolInput.mk "term" "" "" "") |} in
      let blockData := mkBlock "0a1b2c3d-4e5f-6789" in
      legacyOpenRun = (legacyOpenRun.1.1, legacyOpenRun.1.2, legacyOpenRun.2)
      /\ createCalls legacyOpenRun.2 = [("tab1", blockDef, OK blockData)]
      /\ 8 <= String.length (OID blockData)
      /\ broadcasts legacyOpenRun.2 <> []
      /\ String.substring 0 8 (OID blockData) = "0a1b2c3d"
      /\ legacyOpenRun.1.1
         = Returned
             (OK {[ "success" := JBool true;
                    "widget_id" := JString (String.substring 0 8 (OID blockData));
                    "full_id" := JString (OID blockData) ]})).
Proof.
  split.
  - intros blockDef blockData.
    assert (Hrun : legacyShortIdRun
                   = (legacyShortIdRun.1.1, legacyShortIdRun.1.2,
                      legacyShortIdRun.2))
      by (vm_compute; reflexivity).
    assert (Hcreate : createCalls legacyShortIdRun.2
                      = [("tab1", blockDef, OK blockData)])
      by (vm_compute; reflexivity).
    assert (Hlen : String.length (OID blockData) < 8) by (simpl; lia).
    assert (Hsent : broadcasts legacyShortIdRun.2 <> [])
      by (vm_compute; discriminate).
    split; [exact Hrun|]. split; [exact Hcreate|]. split; [exact Hlen|].
    split; [exact Hsent|].
    destruct (legacy_open_short_id_slice asciiFold "tab1"
                (storeHandle noFaults) termPayload shortIdStore
                legacyShortIdRun.1.2 legacyShortIdRun.1.1 legacyShortIdRun.2
                Hrun) as (_ & _ & Hshort & _).
    exact (Hshort blockDef blockData Hcreate Hlen Hsent).
  - intros blockDef blockData.
    assert (Hrun : legacyOpenRun
                   = (legacyOpenRun.1.1, legacyOpenRun.1.2, legacyOpenRun.2))
      by (vm_compute; reflexivity).
    assert (Hcreate : createCalls legacyOpenRun.2
                      = [("tab1", blockDef, OK blockData)])
      by (vm_compute; reflexivity).
    assert (Hlen : 8 <= String.length (OID blockData)) by (simpl; lia).
    assert (Hsent : broadcasts legacyOpenRun.2 <> [])
      by (vm_compute; discriminate).
    split; [exact Hrun|]. split; [exact Hcreate|]. split; [exact Hlen|].
    split; [exact Hsent|]. split; [reflexivity|].
    destruct (legacy_open_short_id_slice asciiFold "tab1"
                (storeHandle noFaults) splitPayload demoStore
                legacyOpenRun.1.2 legacyOpenRun.1.1 legacyOpenRun.2 Hrun)
      as (_ & _ & _ & Hlong).
    exact (Hlong blockDef blockData Hcreate Hlen Hsent).
Defined.

Lemma legacy_term_metadata_witness :
  let parsed := Legacy.WidgetOpenToolInput.mk "term" "" "" "local" in
  Legacy.WidgetOpenToolInput.WidgetType parsed = "term"
  /\ Legacy.openMeta parsed !! "controller" = None
  /\ (Legacy.WidgetOpenToolInput.Connection parsed <> "" ->
      Legacy.openMeta parsed !! "connection"
      = Some (Legacy.WidgetOpenToolInput.Connection parsed)).
Proof.
  intros parsed. split; [reflexivity|].
  apply (legacy_term_metadata parsed). reflexivity.
Defined.

Lemma legacy_open_always_inserts_witness :
  let t := legacyOpenRun.2 in
  legacyOpenRun = (legacyOpenRun.1.1, legacyOpenRun.1.2, t)
  /\ resolveCalls t = [] /\ resyncCalls t = [] /\ deleteCalls t = []
  /\ updateMetaCalls t = []
  /\ (queueCalls t = []
      \/ exists blockDef blockData r,
           createCalls t = [("tab1", blockDef, OK blockData)]
           /\ queueCalls t
              = [("tab1",
                  {| ActionType := LayoutActionDataType_Insert;
                     BlockId := OID blockData;
                     TargetBlockId := "";
                     ActionPosition := "";
                     Focused := true |},
                  r)]).
Proof.
  intros t. split; [vm_compute; reflexivity|].
  apply (legacy_open_always_inserts asciiFold "tab1" (storeHandle noFaults)
           splitPayload demoStore legacyOpenRun.1.2 legacyOpenRun.1.1 t).
  vm_compute; reflexivity.
Defined.
